(** * ESGLend assessment and adjustment engine: a shallow embedding

    The development embeds the three service engines of the backend

      - [app/services/pricing_engine.py]         (module [Pricing])
      - [app/services/risk_scoring_engine.py]    (module [Risk])
      - [app/services/sfdr_compliance_engine.py] (modules [Sfdr] and
                                                  [SfdrReport])

    and the endpoints built on them

      - [app/api/v1/endpoints/pricing.py]        (module [PricingApi])
      - [app/api/v1/endpoints/risk.py]           (module [RiskApi])
      - [app/api/v1/endpoints/sfdr.py]           ([SfdrReport.generate_endpoint])

    over a relational store ([Db]) that mirrors [app/models/models.py].

    Modelling conventions.
      - SQLAlchemy [Float] columns and Python floats are exact rationals
        ([Q]); results are compared with [==].  Binary rounding error is
        not modelled, decimal rounding ([round(x, n)]) is.
      - A nullable column is an [option]; Python truthiness of an optional
        number ([if kpi.target_value and ...]) is [truthy].
      - Exceptions are values of [exn] carried by the [result] monad; [/]
        on floats is [py_div], which raises [ZeroDivisionError] on a zero
        divisor.
      - [datetime] is a number of microseconds ([Z]); the clock
        [datetime.now()] is an explicit argument [now], read once per call.
      - A query [db.query(T).filter(...)] is a [filter] over the table of
        [T] in the store, in table order. *)

From Stdlib Require Import ZArith QArith Qround Qabs Qminmax.
From Stdlib Require Import String Ascii List Bool Lia Lqa.
From Stdlib Require Import Sorted Permutation DecimalString.
Import ListNotations.

Open Scope Q_scope.

(** ** Python primitives *)

Module Py.

Inductive exn : Type :=
| ZeroDivisionError
| ValueError (msg : string)
| KeyError (key : string).

Inductive result (A : Type) : Type :=
| Ok (a : A)
| Raise (e : exn).
Arguments Ok {A} a.
Arguments Raise {A} e.

Definition bind {A B : Type} (m : result A) (k : A -> result B) : result B :=
  match m with
  | Ok a => k a
  | Raise e => Raise e
  end.

(** [x < y] and friends on floats, as booleans. *)
Definition Qltb (x y : Q) : bool := negb (Qle_bool y x).
Definition Qgeb (x y : Q) : bool := Qle_bool y x.
Definition Qgtb (x y : Q) : bool := negb (Qle_bool x y).

(** Truthiness of a float: [0.0] is falsy. *)
Definition nonzero (x : Q) : bool := negb (Qeq_bool x 0).

(** Truthiness of an optional float: [None] and [0.0] are falsy. *)
Definition truthy (o : option Q) : bool :=
  match o with
  | Some x => nonzero x
  | None => false
  end.

(** [o or d] for an optional float [o]. *)
Definition or_default (o : option Q) (d : Q) : Q :=
  match o with
  | Some x => if nonzero x then x else d
  | None => d
  end.

(** Float division. *)
Definition py_div (a b : Q) : result Q :=
  if Qeq_bool b 0 then Raise ZeroDivisionError else Ok (a / b).

(** [round(x)] to an integer, ties to the even neighbour. *)
Definition round_half_even (x : Q) : Z :=
  let f := Qfloor x in
  let r := x - inject_Z f in
  if Qltb r (1 # 2) then f
  else if Qltb (1 # 2) r then (f + 1)%Z
  else if Z.even f then f else (f + 1)%Z.

(** [round(x, 2)] and [round(x, 4)]. *)
Definition round2 (x : Q) : Q := Qmake (round_half_even (x * 100)) 100.
Definition round4 (x : Q) : Q := Qmake (round_half_even (x * 10000)) 10000.

(** [str(n)] of an int, as an f-string renders it. *)
Definition str_int (n : Z) : string := NilZero.string_of_int (Z.to_int n).

(** [int(x)]: truncation toward zero. *)
Definition py_int (x : Q) : Z :=
  if Qle_bool 0 x then Qfloor x else Qceiling x.

(** [sum(xs)] and [len(xs)] on lists of floats. *)
Definition sum (xs : list Q) : Q := fold_left Qplus xs 0.
Definition len {A : Type} (xs : list A) : Q := inject_Z (Z.of_nat (length xs)).

(** [s.lower()] on ASCII strings. *)
Definition lower_ascii (c : ascii) : ascii :=
  let n := nat_of_ascii c in
  if (65 <=? n)%nat && (n <=? 90)%nat then ascii_of_nat (n + 32) else c.

Fixpoint lower (s : string) : string :=
  match s with
  | EmptyString => EmptyString
  | String c s' => String (lower_ascii c) (lower s')
  end.

(** [for x in xs: s = body(s, x)], stopping at the first exception. *)
Fixpoint for_each {A S : Type} (body : S -> A -> result S) (xs : list A) (s : S)
  : result S :=
  match xs with
  | [] => Ok s
  | x :: xs' => bind (body s x) (for_each body xs')
  end.

(** [d[key]] on a dict kept in insertion order. *)
Fixpoint dict_get {V : Type} (d : list (string * V)) (key : string) : result V :=
  match d with
  | [] => Raise (KeyError key)
  | (k, v) :: d' => if String.eqb k key then Ok v else dict_get d' key
  end.

(** [key in d]. *)
Definition dict_mem {V : Type} (d : list (string * V)) (key : string) : bool :=
  existsb (fun kv => String.eqb (fst kv) key) d.

(** [d[key] = f(d[key])] for a key already in [d] (its position is kept). *)
Definition dict_update {V : Type} (d : list (string * V)) (key : string) (f : V -> V)
  : list (string * V) :=
  map (fun kv => if String.eqb (fst kv) key then (fst kv, f (snd kv)) else kv) d.

(** Truthiness of an optional string: [None] and the empty string are falsy. *)
Definition str_truthy (o : option string) : bool :=
  match o with
  | Some (String _ _) => true
  | _ => false
  end.

(** [x in [s1; ...; sn]] for strings. *)
Definition in_strings (x : string) (l : list string) : bool :=
  existsb (String.eqb x) l.

(** Equality of an optional string column with a literal; [None] (SQL
    NULL) equals nothing. *)
Definition str_is (o : option string) (s : string) : bool :=
  match o with
  | Some x => String.eqb x s
  | None => false
  end.

(** SQL [col != s]: false on NULL. *)
Definition str_isnt (o : option string) (s : string) : bool :=
  match o with
  | Some x => negb (String.eqb x s)
  | None => false
  end.

End Py.

Import Py.

Declare Scope py_scope.
Delimit Scope py_scope with py.
Notation "x <- m ;; k" := (bind m (fun x => k))
  (at level 61, m at next level, right associativity) : py_scope.
Open Scope py_scope.

(** A float-valued call that returned [v] (up to [==]). *)
Definition returns (r : result Q) (v : Q) : Prop :=
  match r with
  | Ok x => x == v
  | Raise _ => False
  end.

(** ** Data model ([app/models/models.py]) *)

Definition datetime := Z.

Definition microseconds_per_day : Z := 86400000000.

(** [timedelta(days=n)] and its [.days] attribute. *)
Definition timedelta_days (n : Z) : Z := (n * microseconds_per_day)%Z.
Definition days_of (delta : Z) : Z := (delta / microseconds_per_day)%Z.

Record Loan : Type := mkLoan {
  loan_id : Z;
  loan_number : string;
  amount : Q;
  currency : option string;
  interest_rate : option Q;
  base_margin : option Q;
  current_margin : option Q;
  maturity_date : option datetime;
  loan_status : option string;
  sustainability_linked : option bool;
  esg_performance_score : option Q;
  pricing_tier : option string;
  margin_adjustment : option Q;
  last_pricing_update : option datetime;
  risk_score : option Q;
  risk_category : option string
}.

Record ESGKpi : Type := mkKpi {
  kpi_loan_id : Z;
  kpi_name : string;
  kpi_category : option string;
  target_value : option Q;
  current_value : option Q;
  baseline_value : option Q
}.

Record Covenant : Type := mkCovenant {
  cov_loan_id : Z;
  covenant_type : string;
  threshold : option Q;
  cov_current_value : option Q;
  cov_status : option string
}.

Record Verification : Type := mkVerification {
  ver_loan_id : Z;
  verification_date : datetime;
  ver_status : option string
}.

Record PricingHistory : Type := mkPricingHistory {
  ph_loan_id : Z;
  effective_date : datetime;
  ph_base_rate : Q;
  ph_margin : Q;
  ph_total_rate : Q;
  ph_esg_performance_score : Q;
  adjustment_reason : string;
  adjustment_amount : Q;
  created_by : option Z
}.

(** One entry of the [risk_factors] JSON: score and severity (the
    formatted [description] text is left out). *)
Record RiskFactor : Type := mkRiskFactor {
  rf_score : Q;
  rf_severity : string
}.

Record RiskAssessment : Type := mkRiskAssessment {
  ra_loan_id : Z;
  assessment_date : datetime;
  ra_risk_score : Q;
  ra_risk_category : string;
  covenant_breach_probability : Q;
  esg_risk_score : Q;
  financial_risk_score : Q;
  predicted_breach_date : option datetime;
  confidence_level : Z;
  risk_factors : list (string * RiskFactor);
  recommendations : list string
}.

Record Db : Type := mkDb {
  loans : list Loan;
  esg_kpis : list ESGKpi;
  covenants : list Covenant;
  verifications : list Verification;
  pricing_history : list PricingHistory;
  risk_assessments : list RiskAssessment
}.

(** [db.query(Loan).filter(Loan.id == loan_id).first()] *)
Definition query_loan (db : Db) (id : Z) : option Loan :=
  find (fun l => (loan_id l =? id)%Z) (loans db).

(** [db.query(ESGKpi).filter(ESGKpi.loan_id == loan_id).all()] *)
Definition query_kpis (db : Db) (id : Z) : list ESGKpi :=
  filter (fun k => (kpi_loan_id k =? id)%Z) (esg_kpis db).

(** [db.query(Covenant).filter(Covenant.loan_id == loan_id,
    Covenant.status != "terminated").all()] *)
Definition query_covenants (db : Db) (id : Z) : list Covenant :=
  filter (fun c => (cov_loan_id c =? id)%Z && str_isnt (cov_status c) "terminated")
         (covenants db).

(** [.order_by(key.desc())]: a stable insertion sort, latest first. *)
Fixpoint insert_desc {A : Type} (key : A -> Z) (x : A) (l : list A) : list A :=
  match l with
  | [] => [x]
  | y :: l' => if (key y <=? key x)%Z then x :: l else y :: insert_desc key x l'
  end.

Definition order_by_desc {A : Type} (key : A -> Z) (l : list A) : list A :=
  fold_right (insert_desc key) [] l.

(** [db.query(Verification).filter(Verification.loan_id == loan_id)
    .order_by(Verification.verification_date.desc()).limit(5).all()] *)
Definition query_recent_verifications (db : Db) (id : Z) : list Verification :=
  firstn 5 (order_by_desc verification_date
              (filter (fun v => (ver_loan_id v =? id)%Z) (verifications db))).

(** [db.query(RiskAssessment).filter(RiskAssessment.loan_id == loan_id)
    .order_by(RiskAssessment.assessment_date.desc()).limit(3).all()] *)
Definition query_recent_assessments (db : Db) (id : Z) : list RiskAssessment :=
  firstn 3 (order_by_desc assessment_date
              (filter (fun a => (ra_loan_id a =? id)%Z) (risk_assessments db))).

(** The five attribute writes of [update_loan_pricing] (lines 109-113). *)
Definition set_pricing (l : Loan) (score : Q) (tier : string) (margin adj : Q)
  (now : datetime) : Loan :=
  mkLoan (loan_id l) (loan_number l) (amount l) (currency l)
         (interest_rate l) (base_margin l) (Some margin)
         (maturity_date l) (loan_status l) (sustainability_linked l)
         (Some score) (Some tier) (Some adj)
         (Some now) (risk_score l) (risk_category l).

(** The two attribute writes of [create_risk_assessment] (lines 250-251). *)
Definition set_risk (l : Loan) (score : Q) (category : string) : Loan :=
  mkLoan (loan_id l) (loan_number l) (amount l) (currency l)
         (interest_rate l) (base_margin l) (current_margin l)
         (maturity_date l) (loan_status l) (sustainability_linked l)
         (esg_performance_score l) (pricing_tier l) (margin_adjustment l)
         (last_pricing_update l) (Some score) (Some category).

(** Store update for the row that [query_loan] returns (the session's
    identity map: attribute writes on the loaded object reach the table at
    commit). *)
Fixpoint update_first (id : Z) (f : Loan -> Loan) (ls : list Loan) : list Loan :=
  match ls with
  | [] => []
  | l :: ls' =>
      if (loan_id l =? id)%Z then f l :: ls' else l :: update_first id f ls'
  end.

Definition update_loan (db : Db) (id : Z) (f : Loan -> Loan) : Db :=
  mkDb (update_first id f (loans db))
       (esg_kpis db) (covenants db) (verifications db)
       (pricing_history db) (risk_assessments db).

(** ** Pricing engine ([app/services/pricing_engine.py]) *)

Module Pricing.

Record TierConfig : Type := mkTier {
  tier_threshold : Q;
  tier_adjustment : Q
}.

(** [self.pricing_tiers], in insertion order. *)
Definition pricing_tiers : list (string * TierConfig) :=
  [ ("excellent"%string, mkTier 90 (- (1 # 2)));
    ("good"%string, mkTier 75 (- (1 # 4)));
    ("fair"%string, mkTier 60 0);
    ("poor"%string, mkTier 40 (1 # 4));
    ("critical"%string, mkTier 0 (1 # 2)) ].

Definition category_scores_init : list (string * list Q) :=
  [ ("environmental"%string, []); ("social"%string, []); ("governance"%string, []) ].

Definition weights : list (string * Q) :=
  [ ("environmental"%string, 2 # 5); ("social"%string, 3 # 10);
    ("governance"%string, 3 # 10) ].

(** [kpi.kpi_category.lower() if kpi.kpi_category else "environmental"] *)
Definition category_of (kpi : ESGKpi) : string :=
  match kpi_category kpi with
  | Some (String c s) => lower (String c s)
  | _ => "environmental"%string
  end.

(** The achievement of one KPI (lines 39-45): [None] when the loop body
    skips the KPI. *)
Definition achievement_of (kpi : ESGKpi) : result (option Q) :=
  match target_value kpi, current_value kpi, baseline_value kpi with
  | Some t, Some c, Some b =>
      if nonzero t && nonzero c && nonzero b then
        let target_progress := Qabs (t - b) in
        let current_progress := Qabs (c - b) in
        if Qgtb target_progress 0 then
          ratio <- py_div current_progress target_progress ;;
          Ok (Some (Qmin (ratio * 100) 100))
        else Ok None
      else Ok None
  | _, _, _ => Ok None
  end.

(** Body of the loop over [kpis] (lines 38-50). *)
Definition score_kpi (category_scores : list (string * list Q)) (kpi : ESGKpi)
  : result (list (string * list Q)) :=
  a <- achievement_of kpi ;;
  match a with
  | Some achievement =>
      let category := category_of kpi in
      if dict_mem category_scores category
      then Ok (dict_update category_scores category (fun l => l ++ [achievement]))
      else Ok category_scores
  | None => Ok category_scores
  end.

(** Body of the loop over [weights] (lines 57-61); the state is
    [(total_score, total_weight)]. *)
Definition weigh (category_scores : list (string * list Q)) (acc : Q * Q)
  (cw : string * Q) : result (Q * Q) :=
  let '(total_score, total_weight) := acc in
  let '(category, weight) := cw in
  scores <- dict_get category_scores category ;;
  match scores with
  | [] => Ok (total_score, total_weight)
  | _ :: _ =>
      avg_score <- py_div (sum scores) (len scores) ;;
      Ok (total_score + avg_score * weight, total_weight + weight)
  end.

(** [calculate_esg_performance_score], after the query. *)
Definition esg_performance_of (kpis : list ESGKpi) : result Q :=
  match kpis with
  | [] => Ok 50
  | _ :: _ =>
      category_scores <- for_each score_kpi kpis category_scores_init ;;
      totals <- for_each (weigh category_scores) weights (0, 0) ;;
      let '(total_score, total_weight) := totals in
      if Qgtb total_weight 0 then
        q <- py_div total_score total_weight ;;
        Ok (round2 q)
      else Ok (round2 50)
  end.

Definition calculate_esg_performance_score (db : Db) (loan_id : Z) : result Q :=
  esg_performance_of (query_kpis db loan_id).

Definition determine_pricing_tier (esg_score : Q) : string :=
  match find (fun tc => Qgeb esg_score (tier_threshold (snd tc))) pricing_tiers with
  | Some (tier, _) => tier
  | None => "critical"%string
  end.

Definition calculate_margin_adjustment (esg_score : Q) : result Q :=
  let tier := determine_pricing_tier esg_score in
  config <- dict_get pricing_tiers tier ;;
  Ok (tier_adjustment config).

(** The dict returned by [update_loan_pricing] (identification fields and
    the formatted [impact_description] are left out). *)
Record PricingUpdate : Type := mkPricingUpdate {
  pu_esg_performance_score : Q;
  pu_pricing_tier : string;
  pu_base_rate : Q;
  pu_base_margin : Q;
  pu_margin_adjustment : Q;
  pu_new_margin : Q;
  pu_new_total_rate : Q;
  pu_previous_total_rate : Q;
  pu_rate_change : Q;
  pu_annual_savings : Q;
  pu_annual_cost : Q
}.

Definition not_found (loan_id : Z) : exn :=
  ValueError ("Loan with ID " ++ str_int loan_id ++ " not found").

Definition update_loan_pricing (db : Db) (now : datetime) (loan_id : Z)
  (user_id : option Z) (reason : option string) : result (Db * PricingUpdate) :=
  match query_loan db loan_id with
  | None => Raise (not_found loan_id)
  | Some loan =>
      esg_score <- calculate_esg_performance_score db loan_id ;;
      let pricing_tier := determine_pricing_tier esg_score in
      margin_adjustment <- calculate_margin_adjustment esg_score ;;
      let base_margin := or_default (base_margin loan) 2 in
      let new_margin := base_margin + margin_adjustment in
      let base_rate := or_default (interest_rate loan) 4 in
      let new_total_rate := base_rate + new_margin in
      let annual_savings :=
        if Qltb margin_adjustment 0
        then amount loan * Qabs margin_adjustment / 100 else 0 in
      let annual_cost :=
        if Qgtb margin_adjustment 0
        then amount loan * margin_adjustment / 100 else 0 in
      let db1 := update_loan db loan_id (fun l =>
        set_pricing l esg_score pricing_tier new_margin margin_adjustment now) in
      let row := mkPricingHistory loan_id now base_rate new_margin new_total_rate
        esg_score
        (if str_truthy reason
         then match reason with Some r => r | None => EmptyString end
         else ("ESG performance tier: " ++ pricing_tier)%string)
        margin_adjustment user_id in
      let db2 := mkDb (loans db1) (esg_kpis db1) (covenants db1) (verifications db1)
                      (pricing_history db1 ++ [row]) (risk_assessments db1) in
      Ok (db2,
          mkPricingUpdate esg_score pricing_tier base_rate base_margin
            margin_adjustment new_margin (round4 new_total_rate)
            (round4 (base_rate + base_margin)) (round4 margin_adjustment)
            (if Qgtb annual_savings 0 then round2 annual_savings else 0)
            (if Qgtb annual_cost 0 then round2 annual_cost else 0))
  end.

(** One value of the [scenarios] dict of [simulate_pricing_scenarios]. *)
Record Scenario : Type := mkScenario {
  sc_threshold : Q;
  sc_margin_adjustment : Q;
  sc_new_margin : Q;
  sc_new_total_rate : Q;
  sc_annual_impact : Q;
  sc_impact_type : string
}.

Definition simulate_pricing_scenarios (db : Db) (loan_id : Z)
  : result (list (string * Scenario)) :=
  match query_loan db loan_id with
  | None => Raise (not_found loan_id)
  | Some loan =>
      let base_rate := or_default (interest_rate loan) 4 in
      let base_margin := or_default (base_margin loan) 2 in
      Ok (map (fun tc : string * TierConfig =>
                 let adjustment := tier_adjustment (snd tc) in
                 let new_margin := base_margin + adjustment in
                 let new_rate := base_rate + new_margin in
                 let annual_impact := amount loan * adjustment / 100 in
                 (fst tc,
                  mkScenario (tier_threshold (snd tc)) adjustment new_margin
                    (round4 new_rate) (round2 annual_impact)
                    (if Qltb annual_impact 0 then "savings"
                     else if Qgtb annual_impact 0 then "cost" else "neutral")%string))
              pricing_tiers)
  end.

End Pricing.

(** ** Risk scoring engine ([app/services/risk_scoring_engine.py]) *)

Module Risk.

Record CategoryBounds : Type := mkBounds {
  cat_min : Q;
  cat_max : Q;
  cat_color : string
}.

(** [self.risk_categories], in insertion order. *)
Definition risk_categories : list (string * CategoryBounds) :=
  [ ("low"%string, mkBounds 0 25 "green");
    ("moderate"%string, mkBounds 25 50 "yellow");
    ("elevated"%string, mkBounds 50 75 "orange");
    ("high"%string, mkBounds 75 100 "red") ].

Definition minimum_types : list string :=
  [ "minimum_ebitda"; "minimum_equity"; "minimum_coverage" ]%string.

Definition maximum_types : list string :=
  [ "maximum_leverage"; "maximum_debt" ]%string.

(** Body of the loop over [covenants] (lines 38-59). *)
Definition breach_indicator (breach_indicators : list Q) (covenant : Covenant)
  : result (list Q) :=
  match cov_current_value covenant, threshold covenant with
  | Some current, Some thr =>
      distance <-
        (if in_strings (covenant_type covenant) minimum_types
         then py_div (current - thr) thr
         else if in_strings (covenant_type covenant) maximum_types
         then py_div (thr - current) thr
         else py_div (current - thr) thr) ;;
      Ok (breach_indicators ++
          [ if Qltb distance 0 then 1
            else if Qltb distance (1 # 10) then 8 # 10
            else if Qltb distance (2 # 10) then 1 # 2
            else 1 # 10 ])
  | _, _ => Ok breach_indicators
  end.

(** [calculate_covenant_breach_probability], after the query. *)
Definition covenant_breach_probability_of (covenants : list Covenant) : result Q :=
  match covenants with
  | [] => Ok 0
  | _ :: _ =>
      breach_indicators <- for_each breach_indicator covenants [] ;;
      match breach_indicators with
      | [] => Ok 0
      | _ :: _ =>
          avg <- py_div (sum breach_indicators) (len breach_indicators) ;;
          Ok (round2 (avg * 100))
      end
  end.

Definition calculate_covenant_breach_probability (db : Db) (loan_id : Z) : result Q :=
  covenant_breach_probability_of (query_covenants db loan_id).

(** Body of the loop over [kpis] (lines 71-87). *)
Definition risk_factor (risk_factors : list Q) (kpi : ESGKpi) : result (list Q) :=
  match target_value kpi, current_value kpi, baseline_value kpi with
  | Some t, Some c, Some b =>
      if nonzero t && nonzero c && nonzero b then
        let target_distance := Qabs (t - b) in
        let current_distance := Qabs (c - b) in
        if Qgtb target_distance 0 then
          progress <- py_div current_distance target_distance ;;
          Ok (risk_factors ++
              [ if Qltb progress (1 # 4) then 80
                else if Qltb progress (1 # 2) then 60
                else if Qltb progress (3 # 4) then 40
                else 20 ])
        else Ok risk_factors
      else Ok risk_factors
  | _, _, _ => Ok risk_factors
  end.

(** [calculate_esg_risk_score], after the query. *)
Definition esg_risk_of (kpis : list ESGKpi) : result Q :=
  match kpis with
  | [] => Ok 50
  | _ :: _ =>
      risk_factors <- for_each risk_factor kpis [] ;;
      match risk_factors with
      | [] => Ok 50
      | _ :: _ =>
          avg <- py_div (sum risk_factors) (len risk_factors) ;;
          Ok (round2 avg)
      end
  end.

Definition calculate_esg_risk_score (db : Db) (loan_id : Z) : result Q :=
  esg_risk_of (query_kpis db loan_id).

(** [status_risk.get(loan.status, 50)] *)
Definition status_risk (status : option string) : Q :=
  match status with
  | Some s =>
      if String.eqb s "active" then 20
      else if String.eqb s "under_review" then 40
      else if String.eqb s "at_risk" then 70
      else if String.eqb s "defaulted" then 100
      else if String.eqb s "restructured" then 60
      else 50
  | None => 50
  end.

Definition calculate_financial_risk_score (db : Db) (now : datetime) (loan_id : Z)
  : result Q :=
  match query_loan db loan_id with
  | None => Ok 50
  | Some loan =>
      let risk_indicators := [ status_risk (loan_status loan) ] in
      let verifications := query_recent_verifications db loan_id in
      risk_indicators <-
        match verifications with
        | [] => Ok risk_indicators
        | _ :: _ =>
            let failed_verifications :=
              len (filter (fun v => str_is (ver_status v) "failed") verifications) in
            ratio <- py_div failed_verifications (len verifications) ;;
            Ok (risk_indicators ++ [ ratio * 100 ])
        end ;;
      let risk_indicators :=
        match maturity_date loan with
        | Some maturity =>
            let days_to_maturity := days_of (maturity - now) in
            risk_indicators ++
            [ if (days_to_maturity <? 30)%Z then 80
              else if (days_to_maturity <? 90)%Z then 50
              else 20 ]
        | None => risk_indicators
        end in
      match risk_indicators with
      | [] => Ok 50
      | _ :: _ =>
          avg <- py_div (sum risk_indicators) (len risk_indicators) ;;
          Ok (round2 avg)
      end
  end.

Definition calculate_comprehensive_risk_score (db : Db) (now : datetime) (loan_id : Z)
  : result Q :=
  covenant_risk <- calculate_covenant_breach_probability db loan_id ;;
  esg_risk <- calculate_esg_risk_score db loan_id ;;
  financial_risk <- calculate_financial_risk_score db now loan_id ;;
  let overall_risk :=
    covenant_risk * (4 # 10) + esg_risk * (3 # 10) + financial_risk * (3 # 10) in
  Ok (round2 overall_risk).

Definition categorize_risk (risk_score : Q) : string :=
  match find (fun ct => Qle_bool (cat_min (snd ct)) risk_score
                        && Qltb risk_score (cat_max (snd ct)))
             risk_categories with
  | Some (category, _) => category
  | None => if Qgeb risk_score 75 then "high"%string else "low"%string
  end.

(** Body of the loop over [covenants] (lines 161-172); the state is
    [earliest_breach]. *)
Definition project_breach (now : datetime) (earliest_breach : option datetime)
  (covenant : Covenant) : result (option datetime) :=
  match cov_current_value covenant, threshold covenant with
  | Some current, Some thr =>
      if in_strings (covenant_type covenant) minimum_types then
        if Qltb current (thr * (11 # 10)) then
          months_to_breach <- py_div (current - thr) (thr * (5 # 100)) ;;
          if Qgtb months_to_breach 0 && Qltb months_to_breach 12 then
            let breach_date :=
              (now + timedelta_days (py_int (months_to_breach * 30)))%Z in
            match earliest_breach with
            | None => Ok (Some breach_date)
            | Some earliest =>
                if (breach_date <? earliest)%Z
                then Ok (Some breach_date) else Ok (Some earliest)
            end
          else Ok earliest_breach
        else Ok earliest_breach
      else Ok earliest_breach
  | _, _ => Ok earliest_breach
  end.

(** [predict_breach_date], after the query. *)
Definition breach_date_of (now : datetime) (covenants : list Covenant)
  : result (option datetime) :=
  match covenants with
  | [] => Ok None
  | _ :: _ => for_each (project_breach now) covenants None
  end.

Definition predict_breach_date (db : Db) (now : datetime) (loan_id : Z)
  : result (option datetime) :=
  breach_date_of now (query_covenants db loan_id).

Definition severity (score high moderate : Q) : string :=
  if Qgtb score high then "high"%string
  else if Qgtb score moderate then "moderate"%string
  else "low"%string.

Definition generate_risk_factors (db : Db) (now : datetime) (loan_id : Z)
  : result (list (string * RiskFactor)) :=
  covenant_prob <- calculate_covenant_breach_probability db loan_id ;;
  esg_risk <- calculate_esg_risk_score db loan_id ;;
  financial_risk <- calculate_financial_risk_score db now loan_id ;;
  Ok [ ("covenant_risk"%string, mkRiskFactor covenant_prob (severity covenant_prob 50 25));
       ("esg_risk"%string, mkRiskFactor esg_risk (severity esg_risk 60 40));
       ("financial_risk"%string,
        mkRiskFactor financial_risk (severity financial_risk 60 40)) ].

Definition generate_recommendations (db : Db) (loan_id : Z) (risk_score : Q)
  : result (list string) :=
  let category := categorize_risk risk_score in
  let recommendations :=
    if in_strings category [ "elevated"; "high" ]%string
    then [ "Schedule immediate stakeholder meeting to address risk factors";
           "Increase monitoring frequency to weekly reviews";
           "Develop detailed risk mitigation action plan" ]%string
    else [] in
  covenant_prob <- calculate_covenant_breach_probability db loan_id ;;
  let recommendations :=
    if Qgtb covenant_prob 50
    then recommendations ++
         [ "Consider covenant amendment or waiver negotiations" ]%string
    else recommendations in
  esg_risk <- calculate_esg_risk_score db loan_id ;;
  let recommendations :=
    if Qgtb esg_risk 60
    then recommendations ++
         [ "Engage with borrower on ESG improvement roadmap";
           "Consider requiring third-party ESG audit" ]%string
    else recommendations in
  Ok (if String.eqb category "low"
      then recommendations ++
           [ "Maintain current monitoring schedule";
             "Continue positive engagement with borrower" ]%string
      else recommendations).

Inductive Trend : Type := stable | increasing | decreasing.

Definition _calculate_risk_trend (db : Db) (loan_id : Z) : Trend :=
  match query_recent_assessments db loan_id with
  | recent :: previous :: _ =>
      let recent_score := ra_risk_score recent in
      let previous_score := ra_risk_score previous in
      if Qgtb recent_score (previous_score + 5) then increasing
      else if Qltb recent_score (previous_score - 5) then decreasing
      else stable
  | _ => stable
  end.

(** The dict returned by [create_risk_assessment] (identification fields
    are left out). *)
Record RiskReport : Type := mkRiskReport {
  overall_risk_score : Q;
  rr_risk_category : string;
  risk_category_color : string;
  rr_covenant_breach_probability : Q;
  rr_esg_risk_score : Q;
  rr_financial_risk_score : Q;
  rr_predicted_breach_date : option datetime;
  days_to_predicted_breach : option Z;
  rr_confidence_level : Z;
  rr_risk_factors : list (string * RiskFactor);
  rr_recommendations : list string;
  trend : Trend
}.

Definition not_found (loan_id : Z) : exn :=
  ValueError ("Loan with ID " ++ str_int loan_id ++ " not found").

Definition create_risk_assessment (db : Db) (now : datetime) (loan_id : Z)
  : result (Db * RiskReport) :=
  match query_loan db loan_id with
  | None => Raise (not_found loan_id)
  | Some loan =>
      overall_risk <- calculate_comprehensive_risk_score db now loan_id ;;
      covenant_prob <- calculate_covenant_breach_probability db loan_id ;;
      esg_risk <- calculate_esg_risk_score db loan_id ;;
      financial_risk <- calculate_financial_risk_score db now loan_id ;;
      let risk_category := categorize_risk overall_risk in
      predicted_breach <- predict_breach_date db now loan_id ;;
      risk_factors <- generate_risk_factors db now loan_id ;;
      recommendations <- generate_recommendations db loan_id overall_risk ;;
      let data_points := Z.of_nat (length (query_kpis db loan_id)) in
      let confidence := Z.min (50 + data_points * 5) 95 in
      let db1 := update_loan db loan_id (fun l => set_risk l overall_risk risk_category) in
      let assessment :=
        mkRiskAssessment loan_id now overall_risk risk_category covenant_prob
          esg_risk financial_risk predicted_breach confidence risk_factors
          recommendations in
      let db2 := mkDb (loans db1) (esg_kpis db1) (covenants db1) (verifications db1)
                      (pricing_history db1) (risk_assessments db1 ++ [assessment]) in
      bounds <- dict_get risk_categories risk_category ;;
      Ok (db2,
          mkRiskReport overall_risk risk_category (cat_color bounds) covenant_prob
            esg_risk financial_risk predicted_breach
            (option_map (fun d => days_of (d - now)) predicted_breach)
            confidence risk_factors recommendations
            (_calculate_risk_trend db2 loan_id))
  end.

End Risk.

(** ** SFDR compliance engine ([app/services/sfdr_compliance_engine.py]) *)

Module Sfdr.

Inductive Article : Type := article_6 | article_8 | article_9.

Definition not_found (loan_id : Z) : exn :=
  ValueError ("Loan with ID " ++ str_int loan_id ++ " not found").

(** [not loan.sustainability_linked]: true on [False] and on [None]. *)
Definition not_linked (loan : Loan) : bool :=
  match sustainability_linked loan with
  | Some true => false
  | _ => true
  end.

(** [kpi.target_value is not None and kpi.baseline_value is not None] *)
Definition meaningful (kpi : ESGKpi) : bool :=
  match target_value kpi, baseline_value kpi with
  | Some _, Some _ => true
  | _, _ => false
  end.

Definition classify_loan_sfdr_article (db : Db) (loan_id : Z) : result Article :=
  match query_loan db loan_id with
  | None => Raise (not_found loan_id)
  | Some loan =>
      if not_linked loan then Ok article_6
      else
        match query_kpis db loan_id with
        | [] => Ok article_6
        | kpis =>
            let meaningful_targets := length (filter meaningful kpis) in
            if (5 <=? meaningful_targets)%nat then Ok article_9
            else if (2 <=? meaningful_targets)%nat then Ok article_8
            else Ok article_6
        end
  end.

(** Body of the loop over [kpis] (lines 127-132); the state is
    [(dnsh_compliant, total_kpis)]. *)
Definition count_dnsh (acc : Z * Z) (kpi : ESGKpi) : result (Z * Z) :=
  let '(dnsh_compliant, total_kpis) := acc in
  match target_value kpi, current_value kpi with
  | Some t, Some c =>
      if nonzero t && nonzero c then
        let total_kpis := (total_kpis + 1)%Z in
        if Qgeb c (t * (8 # 10))
        then Ok ((dnsh_compliant + 1)%Z, total_kpis)
        else Ok (dnsh_compliant, total_kpis)
      else Ok (dnsh_compliant, total_kpis)
  | _, _ => Ok (dnsh_compliant, total_kpis)
  end.

(** [calculate_sustainable_investment_percentage], after the queries. *)
Definition sustainable_investment_of (kpis : list ESGKpi) : result Q :=
  match kpis with
  | [] => Ok 0
  | _ :: _ =>
      counts <- for_each count_dnsh kpis (0, 0)%Z ;;
      let '(dnsh_compliant, total_kpis) := counts in
      if (total_kpis =? 0)%Z then Ok 0
      else
        ratio <- py_div (inject_Z dnsh_compliant) (inject_Z total_kpis) ;;
        let compliance_rate := ratio * 100 in
        if Qgeb compliance_rate 90 then Ok 100
        else if Qgeb compliance_rate 75 then Ok 75
        else if Qgeb compliance_rate 50 then Ok 50
        else Ok 0
  end.

Definition calculate_sustainable_investment_percentage (db : Db) (loan_id : Z)
  : result Q :=
  match query_loan db loan_id with
  | None => Ok 0
  | Some loan =>
      if not_linked loan then Ok 0
      else sustainable_investment_of (query_kpis db loan_id)
  end.

End Sfdr.

(** * Reference definitions

    Closed forms that the properties below compare the engines with. *)

(** The pricing tier table as a decision list: tier name and adjustment. *)
Definition tier_of (s : Q) : string * Q :=
  if Qgeb s 90 then ("excellent"%string, - (1 # 2))
  else if Qgeb s 75 then ("good"%string, - (1 # 4))
  else if Qgeb s 60 then ("fair"%string, 0)
  else if Qgeb s 40 then ("poor"%string, 1 # 4)
  else ("critical"%string, 1 # 2).

(** Number of KPIs of a loan with both target and baseline set. *)
Definition meaningful_targets (db : Db) (id : Z) : nat :=
  length (filter Sfdr.meaningful (query_kpis db id)).

(** A store with one loan, sustainability-linked or not, and [n] KPIs
    with targets and baselines. *)
Definition sfdr_loan (linked : bool) : Loan :=
  mkLoan 1 "L-1" 1000000 (Some "EUR"%string) None None None None
         (Some "active"%string) (Some linked) None None None None None None.

Definition sfdr_kpi : ESGKpi :=
  mkKpi 1 "co2" (Some "environmental"%string) (Some 30) (Some 65) (Some 100).

Definition sfdr_db (linked : bool) (n : nat) : Db :=
  mkDb [sfdr_loan linked] (repeat sfdr_kpi n) [] [] [] [].

(** Arithmetic mean of a list of floats. *)
Definition mean (l : list Q) : Q := sum l / len l.

(** The achievement formula: [min(|c - b| / |t - b| * 100, 100)]. *)
Definition achievement (t c b : Q) : Q :=
  Qmin (Qabs (c - b) / Qabs (t - b) * 100) 100.

(** Achievements that the KPIs of a list add to category [c], in order. *)
Definition contributions (c : string) (kpis : list ESGKpi) : list Q :=
  flat_map (fun k =>
              match Pricing.achievement_of k with
              | Ok (Some a) => if String.eqb c (Pricing.category_of k) then [a] else []
              | _ => []
              end) kpis.

(** Weighted sum and sum of weights over the categories with a score. *)
Definition add_category (acc : Q * Q) (l : list Q) (w : Q) : Q * Q :=
  match l with
  | [] => acc
  | _ :: _ => (fst acc + mean l * w, snd acc + w)
  end.

Definition weighted_totals (E S G : list Q) : Q * Q :=
  add_category (add_category (add_category (0, 0) E (2 # 5)) S (3 # 10)) G (3 # 10).

Definition weighted_score (E S G : list Q) : Q :=
  round2 (if Qgtb (snd (weighted_totals E S G)) 0
          then fst (weighted_totals E S G) / snd (weighted_totals E S G)
          else 50).

(** An optional float that Python treats as false: missing, or zero. *)
Definition falsy (o : option Q) : Prop :=
  o = None \/ exists x, o = Some x /\ x == 0.

(** Two calls ended the same way: the same exception, or equal floats. *)
Definition same_result (r1 r2 : result Q) : Prop :=
  match r1, r2 with
  | Ok x, Ok y => x == y
  | Raise e1, Raise e2 => e1 = e2
  | _, _ => False
  end.


(** A KPI with another baseline. *)
Definition with_baseline (kpi : ESGKpi) (o : option Q) : ESGKpi :=
  mkKpi (kpi_loan_id kpi) (kpi_name kpi) (kpi_category kpi)
        (target_value kpi) (current_value kpi) o.

(** A KPI of loan 1 in category [cat] with the given target, current and
    baseline values, and a store holding one sustainability-linked loan
    with the given KPIs. *)
Definition kpi_of (cat : string) (t c b : Q) : ESGKpi :=
  mkKpi 1 "kpi" (Some cat) (Some t) (Some c) (Some b).

Definition db_of (kpis : list ESGKpi) : Db :=
  mkDb [sfdr_loan true] kpis [] [] [] [].

(** A store with the sustainability-linked loan 1 and the given covenants. *)
Definition db_with_covenants (covs : list Covenant) : Db :=
  mkDb [sfdr_loan true] [] covs [] [] [].

(** A covenant of loan 1 in status "compliant". *)
Definition covenant_of (type : string) (thr current : Q) : Covenant :=
  mkCovenant 1 type (Some thr) (Some current) (Some "compliant"%string).

(** *** Breach-date projection, as the specification words it *)

(** A covenant that the projection considers: one of the recognised
    "minimum" types, with current value [c] and threshold [t] both set and
    [c < t * 1.1]. *)
Definition considered (cov : Covenant) : option (Q * Q) :=
  match cov_current_value cov, threshold cov with
  | Some c, Some t =>
      if in_strings (covenant_type cov) Risk.minimum_types && Qltb c (t * (11 # 10))
      then Some (c, t) else None
  | _, _ => None
  end.

(** [months = (current - threshold) / (threshold * 0.05)] *)
Definition spec_months (c t : Q) : result Q := py_div (c - t) (t * (5 # 100)).

(** The date projected from a number of months: [now] plus
    [int(months * 30)] days. *)
Definition spec_date (now : datetime) (months : Q) : datetime :=
  (now + timedelta_days (py_int (months * 30)))%Z.

(** Dates projected for the considered covenants whose months lie
    strictly between 0 and 12, in covenant order. *)
Fixpoint spec_projected_dates (now : datetime) (covs : list Covenant)
  : result (list datetime) :=
  match covs with
  | [] => Ok []
  | cov :: rest =>
      match considered cov with
      | Some (c, t) =>
          months <- spec_months c t ;;
          dates <- spec_projected_dates now rest ;;
          Ok (if Qltb 0 months && Qltb months 12
              then spec_date now months :: dates else dates)
      | None => spec_projected_dates now rest
      end
  end.

(** The earliest of a list of dates, if any. *)
Definition min_with (d : datetime) (o : option datetime) : datetime :=
  match o with
  | Some e => Z.min d e
  | None => d
  end.

Fixpoint earliest (dates : list datetime) : option datetime :=
  match dates with
  | [] => None
  | d :: ds => Some (min_with d (earliest ds))
  end.



(** The persisted assessments of a loan, in table order. *)
Definition assessments_of (db : Db) (id : Z) : list RiskAssessment :=
  filter (fun a => (ra_loan_id a =? id)%Z) (risk_assessments db).

(** The comparison of [_calculate_risk_trend] on two scores. *)
Definition compare_scores (recent_score previous_score : Q) : Risk.Trend :=
  if Qgtb recent_score (previous_score + 5) then Risk.increasing
  else if Qltb recent_score (previous_score - 5) then Risk.decreasing
  else Risk.stable.

(** A store with the sustainability-linked loan 1 (status "active", no
    KPI, covenant or verification) and the given assessment rows, and an
    assessment row of loan 1 with a given date and score. *)
Definition db_with_assessments (rows : list RiskAssessment) : Db :=
  mkDb [sfdr_loan true] [] [] [] [] rows.

Definition assessment_row (date : datetime) (score : Q) : RiskAssessment :=
  mkRiskAssessment 1 date score "high" 0 0 0 None 50 [] [].

(** *** Further reference definitions *)

(** The ESG risk bucket of an achievement (a percentage). *)
Definition risk_bucket (a : Q) : Q :=
  if Qltb a 25 then 80
  else if Qltb a 50 then 60
  else if Qltb a 75 then 40
  else 20.

(** A covenant whose breach distance cannot be computed: both values are
    set and the threshold is zero. *)
Definition zero_threshold (cov : Covenant) : Prop :=
  exists c t, cov_current_value cov = Some c /\ threshold cov = Some t /\ t == 0.

(** The signed distance of a covenant to its threshold and the breach
    indicator of a distance, as the covenant loop computes them. *)
Definition breach_distance (cov : Covenant) (c t : Q) : Q :=
  if in_strings (covenant_type cov) Risk.minimum_types then (c - t) / t
  else if in_strings (covenant_type cov) Risk.maximum_types then (t - c) / t
  else (c - t) / t.

Definition indicator_of (distance : Q) : Q :=
  if Qltb distance 0 then 1
  else if Qltb distance (1 # 10) then 8 # 10
  else if Qltb distance (2 # 10) then 1 # 2
  else 1 # 10.

(** * Further functions of the engines and their API endpoints *)

(** [db.query(PricingHistory).filter(PricingHistory.loan_id == loan_id)
    .order_by(PricingHistory.effective_date.desc()).limit(limit).all()],
    for a non-negative [limit]. *)
Definition query_pricing_history (db : Db) (id : Z) (limit : nat)
  : list PricingHistory :=
  firstn limit (order_by_desc effective_date
                  (filter (fun h => (ph_loan_id h =? id)%Z) (pricing_history db))).

(** Values of the JSON-like dicts that the engines hand to the API. *)
Inductive Value : Type :=
| VFloat (q : Q)
| VStr (s : string)
| VDate (d : datetime).

(** [d.get(key)] on a dict kept in insertion order. *)
Fixpoint dict_find {V : Type} (d : list (string * V)) (key : string) : option V :=
  match d with
  | [] => None
  | (k, v) :: d' => if String.eqb k key then Some v else dict_find d' key
  end.

(** [d.get(key, default)] used as a number: [None] stands for the
    [TypeError] of arithmetic on a value that is not a number. *)
Definition get_number (d : list (string * Value)) (key : string) (default : Q)
  : option Q :=
  match dict_find d key with
  | None => Some default
  | Some (VFloat q) => Some q
  | Some _ => None
  end.

(** The outcome of an API endpoint: a response body, or the
    [HTTPException] raised by its handlers. *)
Inductive http (A : Type) : Type :=
| Response (body : A)
| HTTPException (status_code : Z).
Arguments Response {A} body.
Arguments HTTPException {A} status_code.

(** The handlers shared by the endpoints: [except ValueError] answers
    404, [except Exception] answers 500. *)
Definition handle {A B : Type} (r : result A) (k : A -> http B) : http B :=
  match r with
  | Ok a => k a
  | Raise (ValueError _) => HTTPException 404
  | Raise _ => HTTPException 500
  end.

(** ** [pricing_engine.py], continued, and [api/v1/endpoints/pricing.py] *)

Module PricingApi.

(** One entry of the ["history"] list of [get_pricing_history] (the
    ["id"] entry is left out). *)
Definition history_record (record : PricingHistory) : list (string * Value) :=
  [ ("effective_date"%string, VDate (effective_date record));
    ("base_rate"%string, VFloat (ph_base_rate record));
    ("margin"%string, VFloat (ph_margin record));
    ("total_rate"%string, VFloat (ph_total_rate record));
    ("esg_performance_score"%string, VFloat (ph_esg_performance_score record));
    ("adjustment_reason"%string, VStr (adjustment_reason record));
    ("adjustment_amount"%string, VFloat (adjustment_amount record)) ].

(** [LoanPricingEngine.get_pricing_history]: the ["history"] entry of the
    returned dict. *)
Definition get_pricing_history (db : Db) (loan_id : Z) (limit : nat)
  : result (list (list (string * Value))) :=
  match query_loan db loan_id with
  | None => Raise (Pricing.not_found loan_id)
  | Some loan => Ok (map history_record (query_pricing_history db loan_id limit))
  end.

(** The body of [PricingResponse] (identification fields and the
    timestamp are left out). *)
Record PricingResponse : Type := mkPricingResponse {
  pr_esg_performance_score : Q;
  pr_pricing_tier : string;
  margin_adjustment_bps : Q;
  current_rate : Q;
  new_rate : Q;
  annual_impact : Q
}.

(** Endpoint [POST /calculate] ([calculate_loan_pricing]); the store is
    returned with the response. *)
Definition calculate_loan_pricing (db : Db) (now : datetime) (loan_id : Z)
  (user_id : option Z) : Db * http PricingResponse :=
  match Pricing.update_loan_pricing db now loan_id user_id
          (Some "Dynamic pricing calculation via API"%string) with
  | Ok (db', result) =>
      (db',
       Response
         (mkPricingResponse
            (Pricing.pu_esg_performance_score result)
            (Pricing.pu_pricing_tier result)
            (Pricing.pu_margin_adjustment result * 100)
            (Pricing.pu_previous_total_rate result)
            (Pricing.pu_new_total_rate result)
            (Pricing.pu_annual_savings result - Pricing.pu_annual_cost result)))
  | Raise (ValueError _) => (db, HTTPException 404)
  | Raise _ => (db, HTTPException 500)
  end.

(** [sum(h.get("annual_impact", 0) for h in history)] *)
Fixpoint total_impact_of (history : list (list (string * Value))) : option Q :=
  match history with
  | [] => Some 0
  | h :: rest =>
      match get_number h "annual_impact" 0, total_impact_of rest with
      | Some x, Some s => Some (x + s)
      | _, _ => None
      end
  end.

Inductive PerformanceTrend : Type := trend_stable | trend_improving | trend_declining.

(** The ["performance_trend"] entry of the summary (lines 291-295). *)
Definition performance_trend_of (history : list (list (string * Value)))
  : option PerformanceTrend :=
  match history with
  | [] | [_] => Some trend_stable
  | first :: _ =>
      match get_number first "esg_performance_score" 0,
            get_number (last history first) "esg_performance_score" 0 with
      | Some a, Some b =>
          if Qgtb a b then Some trend_improving
          else if Qltb a b then Some trend_declining
          else Some trend_stable
      | _, _ => None
      end
  end.

(** The body of the summary (the ["current_status"] echo of the loan
    columns is left out). *)
Record PricingSummary : Type := mkPricingSummary {
  total_impact : Q;
  recent_history : list (list (string * Value));
  performance_trend : PerformanceTrend
}.

(** Endpoint [GET /summary/{loan_id}] ([get_loan_pricing_summary]). *)
Definition get_loan_pricing_summary (db : Db) (loan_id : Z) : http PricingSummary :=
  match query_loan db loan_id with
  | None => HTTPException 404
  | Some loan =>
      handle (get_pricing_history db loan_id 5) (fun history =>
        match total_impact_of history, performance_trend_of history with
        | Some total, Some trend =>
            Response (mkPricingSummary total (firstn 3 history) trend)
        | _, _ => HTTPException 500
        end)
  end.

End PricingApi.

(** *** Closed form of a pricing update *)

(** The dict that [update_loan_pricing] returns for a loan with ESG
    score [score]. *)
Definition priced (loan : Loan) (score : Q) : Pricing.PricingUpdate :=
  let adj := snd (tier_of score) in
  let margin := or_default (base_margin loan) 2 in
  let rate := or_default (interest_rate loan) 4 in
  let savings := if Qltb adj 0 then amount loan * Qabs adj / 100 else 0 in
  let cost := if Qgtb adj 0 then amount loan * adj / 100 else 0 in
  Pricing.mkPricingUpdate score (fst (tier_of score)) rate margin adj
    (margin + adj) (round4 (rate + (margin + adj))) (round4 (rate + margin))
    (round4 adj)
    (if Qgtb savings 0 then round2 savings else 0)
    (if Qgtb cost 0 then round2 cost else 0).

(** The history row that it stores. *)
Definition priced_row (loan : Loan) (score : Q) (now : datetime) (id : Z)
  (user_id : option Z) (reason : option string) : PricingHistory :=
  let adj := snd (tier_of score) in
  let margin := or_default (base_margin loan) 2 in
  let rate := or_default (interest_rate loan) 4 in
  mkPricingHistory id now rate (margin + adj) (rate + (margin + adj)) score
    (if str_truthy reason
     then match reason with Some r => r | None => EmptyString end
     else ("ESG performance tier: " ++ fst (tier_of score))%string)
    adj user_id.

(** The store after the update. *)
Definition priced_db (db : Db) (loan : Loan) (score : Q) (now : datetime) (id : Z)
  (user_id : option Z) (reason : option string) : Db :=
  mkDb (update_first id
          (fun l => set_pricing l score (fst (tier_of score))
                      (or_default (base_margin loan) 2 + snd (tier_of score))
                      (snd (tier_of score)) now)
          (loans db))
       (esg_kpis db) (covenants db) (verifications db)
       (pricing_history db ++ [priced_row loan score now id user_id reason])
       (risk_assessments db).

(** The rows of a loan in the pricing ledger, in table order. *)
Definition ledger_of (db : Db) (id : Z) : list PricingHistory :=
  filter (fun h => (ph_loan_id h =? id)%Z) (pricing_history db).

(** Latest first. *)
Definition descending (rows : list PricingHistory) : Prop :=
  StronglySorted (fun a b => (effective_date b <= effective_date a)%Z) rows.

(** A loan of id 1 with the given amount, base margin and interest rate,
    and a store holding it with the given KPIs and pricing ledger. *)
Definition loan_of (amt : Q) (margin rate : option Q) : Loan :=
  mkLoan 1 "L-1" amt (Some "EUR"%string) rate margin None None
         (Some "active"%string) (Some true) None None None None None None.

Definition pricing_db (loan : Loan) (kpis : list ESGKpi) (ledger : list PricingHistory)
  : Db :=
  mkDb [loan] kpis [] [] ledger [].

(** ** [api/v1/endpoints/risk.py] *)

(** [float(obj.name)] on a [Loan] and on a [RiskAssessment] object: the
    value of a [Float] column of the model that is not NULL; [None] stands
    for the [AttributeError] of a name that the model does not declare and
    for the [TypeError] of [float(None)]. *)
Definition loan_float (loan : Loan) (name : string) : option Q :=
  if String.eqb name "amount" then Some (amount loan)
  else if String.eqb name "interest_rate" then interest_rate loan
  else if String.eqb name "base_margin" then base_margin loan
  else if String.eqb name "current_margin" then current_margin loan
  else if String.eqb name "esg_performance_score" then esg_performance_score loan
  else if String.eqb name "margin_adjustment" then margin_adjustment loan
  else if String.eqb name "risk_score" then risk_score loan
  else None.

(** [obj.name] for a [Float] column of [RiskAssessment]; [None] stands for
    the [AttributeError] of a name that the model does not declare. *)
Definition assessment_float (a : RiskAssessment) (name : string) : option Q :=
  if String.eqb name "risk_score" then Some (ra_risk_score a)
  else if String.eqb name "covenant_breach_probability"
  then Some (covenant_breach_probability a)
  else if String.eqb name "esg_risk_score" then Some (esg_risk_score a)
  else if String.eqb name "financial_risk_score" then Some (financial_risk_score a)
  else None.

Module RiskApi.

(** The body of [RiskAssessmentResponse] (identification fields and the
    timestamp are left out). *)
Record RiskAssessmentResponse : Type := mkRiskAssessmentResponse {
  resp_risk_score : Q;
  resp_risk_category : string;
  resp_risk_level : string;
  resp_covenant_breach_probability : Q;
  resp_esg_risk_score : Q;
  resp_financial_risk_score : Q;
  resp_predicted_breach_date : option datetime;
  resp_confidence_score : Z;
  resp_recommendations : list string;
  resp_risk_factors : list (string * RiskFactor)
}.

(** Endpoint [POST /assess/{loan_id}] ([assess_loan_risk]); the store is
    returned with the response. *)
Definition assess_loan_risk (db : Db) (now : datetime) (loan_id : Z)
  : Db * http RiskAssessmentResponse :=
  match Risk.create_risk_assessment db now loan_id with
  | Ok (db', assessment) =>
      (db',
       Response
         (mkRiskAssessmentResponse
            (Risk.overall_risk_score assessment)
            (Risk.rr_risk_category assessment)
            (Risk.rr_risk_category assessment)
            (Risk.rr_covenant_breach_probability assessment)
            (Risk.rr_esg_risk_score assessment)
            (Risk.rr_financial_risk_score assessment)
            (Risk.rr_predicted_breach_date assessment)
            (Risk.rr_confidence_level assessment)
            (Risk.rr_recommendations assessment)
            (Risk.rr_risk_factors assessment)))
  | Raise (ValueError _) => (db, HTTPException 404)
  | Raise _ => (db, HTTPException 500)
  end.

(** One entry of the history of [get_risk_history] (the ["assessment_id"]
    entry is left out). *)
Record RiskHistoryEntry : Type := mkRiskHistoryEntry {
  he_assessment_date : datetime;
  he_risk_score : Q;
  he_risk_category : string;
  he_breach_probability : Q;
  he_esg_risk_score : Q;
  he_financial_risk_score : Q;
  he_predicted_breach_date : option datetime
}.

(** The loop of [get_risk_history] (lines 140-151); [None] is an
    exception raised while an entry is built. *)
Fixpoint build_history (history : list RiskHistoryEntry)
  (assessments : list RiskAssessment) : option (list RiskHistoryEntry) :=
  match assessments with
  | [] => Some history
  | assessment :: rest =>
      match assessment_float assessment "risk_score",
            assessment_float assessment "breach_probability",
            assessment_float assessment "esg_risk_score",
            assessment_float assessment "financial_risk_score" with
      | Some score, Some breach, Some esg, Some financial =>
          build_history
            (history ++
             [ mkRiskHistoryEntry (assessment_date assessment) score
                 (ra_risk_category assessment) breach esg financial
                 (predicted_breach_date assessment) ])
            rest
      | _, _, _, _ => None
      end
  end.

(** Endpoint [GET /history/{loan_id}] ([get_risk_history]), for a
    non-negative [limit]. *)
Definition get_risk_history (db : Db) (loan_id : Z) (limit : nat)
  : http (list RiskHistoryEntry) :=
  match query_loan db loan_id with
  | None => HTTPException 404
  | Some loan =>
      let assessments :=
        firstn limit (order_by_desc assessment_date (assessments_of db loan_id)) in
      match build_history [] assessments with
      | Some history => Response history
      | None => HTTPException 500
      end
  end.

(** One entry of ["high_risk_loans"] (the borrower name is left out). *)
Record HighRiskLoan : Type := mkHighRiskLoan {
  hr_loan_id : Z;
  hr_loan_number : string;
  hr_risk_score : option Q;
  hr_risk_category : string;
  hr_principal_amount : Q
}.

Definition risk_distribution_init : list (string * Z) :=
  [ ("low"%string, 0%Z); ("moderate"%string, 0%Z); ("elevated"%string, 0%Z);
    ("high"%string, 0%Z) ].

(** [getattr(loan, 'risk_category', None) or 'moderate'] *)
Definition risk_cat_of (loan : Loan) : string :=
  match risk_category loan with
  | Some (String c s) => String c s
  | _ => "moderate"%string
  end.

(** Body of the loop over the loans (lines 201-227); the state is
    [(risk_distribution, high_risk_loans)].  An exception raised while the
    entry is built is caught by [except Exception: continue], after the
    distribution has been updated. *)
Definition count_loan (state : list (string * Z) * list HighRiskLoan) (loan : Loan)
  : list (string * Z) * list HighRiskLoan :=
  let '(risk_distribution, high_risk_loans) := state in
  let risk_cat := risk_cat_of loan in
  let risk_distribution :=
    if dict_mem risk_distribution risk_cat
    then dict_update risk_distribution risk_cat (fun n => (n + 1)%Z)
    else dict_update risk_distribution "moderate" (fun n => (n + 1)%Z) in
  if in_strings risk_cat [ "elevated"; "high" ]%string then
    match loan_float loan "principal_amount" with
    | Some principal =>
        (risk_distribution,
         high_risk_loans ++
         [ mkHighRiskLoan (loan_id loan) (loan_number loan) (risk_score loan)
             risk_cat principal ])
    | None => (risk_distribution, high_risk_loans)
    end
  else (risk_distribution, high_risk_loans).

(** One entry of ["recent_assessments"]. *)
Record RecentAssessment : Type := mkRecentAssessment {
  rec_loan_id : Z;
  rec_loan_number : option string;
  rec_assessment_date : datetime;
  rec_risk_score : Q;
  rec_risk_category : string
}.

(** One entry of ["alerts"] (the formatted texts are left out). *)
Record Alert : Type := mkAlert {
  alert_loan_id : Z;
  alert_loan_number : string;
  alert_severity : string
}.

Record RiskDashboard : Type := mkRiskDashboard {
  total_loans : Z;
  risk_distribution : list (string * Z);
  high_risk_loans : list HighRiskLoan;
  recent_assessments : list RecentAssessment;
  alerts : list Alert
}.

(** Endpoint [GET /dashboard] ([get_risk_dashboard]). *)
Definition get_risk_dashboard (db : Db) : http RiskDashboard :=
  let all_loans := loans db in
  let '(risk_distribution, high_risk_loans) :=
    fold_left count_loan all_loans (risk_distribution_init, []) in
  let recent :=
    map (fun assessment =>
           mkRecentAssessment (ra_loan_id assessment)
             (option_map loan_number (query_loan db (ra_loan_id assessment)))
             (assessment_date assessment) (ra_risk_score assessment)
             (ra_risk_category assessment))
        (firstn 10 (order_by_desc assessment_date (risk_assessments db))) in
  let alerts :=
    flat_map (fun loan =>
                if String.eqb (hr_risk_category loan) "high"
                then [ mkAlert (hr_loan_id loan) (hr_loan_number loan) "high" ]
                else [])
             (firstn 5 high_risk_loans) in
  Response (mkRiskDashboard (Z.of_nat (length all_loans)) risk_distribution
              (firstn 10 high_risk_loans) recent alerts).







End RiskApi.

(** Number of loans whose dashboard category is [c]. *)
Definition count_category (c : string) (ls : list Loan) : Z :=
  Z.of_nat (length (filter (fun l => String.eqb c (RiskApi.risk_cat_of l)) ls)).

(** Number of loans whose dashboard category is none of "low",
    "elevated" and "high". *)
Definition count_moderate (ls : list Loan) : Z :=
  Z.of_nat (length (filter (fun l => negb (String.eqb "low" (RiskApi.risk_cat_of l)) &&
                                     negb (String.eqb "elevated" (RiskApi.risk_cat_of l)) &&
                                     negb (String.eqb "high" (RiskApi.risk_cat_of l)))
                           ls)).



(** ** [sfdr_compliance_engine.py], continued, and [api/v1/endpoints/sfdr.py] *)

(** [sub in s] for strings. *)
Fixpoint contains (sub s : string) : bool :=
  String.prefix sub s ||
  match s with
  | EmptyString => false
  | String _ s' => contains sub s'
  end.

(** An exception of the engine, or the [TypeError] of arithmetic on
    [None]. *)
Inductive raised : Type :=
| Exn (e : exn)
| TypeError.

Inductive outcome (A : Type) : Type :=
| Returns (a : A)
| Raises (r : raised).
Arguments Returns {A} a.
Arguments Raises {A} r.

Module SfdrReport.

Record PaiEntry : Type := mkPai {
  pai_name : string;
  pai_value : option Q;
  pai_unit : string;
  data_quality : string
}.

(** [self.pai_indicators]: id, name and unit. *)
Definition pai_indicators : list (nat * (string * string)) :=
  [ (1%nat, ("GHG emissions", "tCO2e"));
    (2%nat, ("Carbon footprint", "tCO2e per million EUR invested"));
    (3%nat, ("GHG intensity of investee companies", "tCO2e per million EUR revenue"));
    (4%nat, ("Exposure to companies in fossil fuel sector", "percentage"));
    (5%nat, ("Share of non-renewable energy consumption", "percentage"));
    (6%nat, ("Energy consumption intensity", "GWh per million EUR revenue"));
    (7%nat, ("Activities negatively affecting biodiversity", "percentage"));
    (8%nat, ("Emissions to water", "tonnes"));
    (9%nat, ("Hazardous waste ratio", "tonnes"));
    (10%nat, ("Violations of UN Global Compact principles", "number"));
    (11%nat, ("Lack of processes for UN Global Compact", "percentage"));
    (12%nat, ("Unadjusted gender pay gap", "percentage"));
    (13%nat, ("Board gender diversity", "percentage"));
    (14%nat, ("Exposure to controversial weapons", "percentage")) ]%string.

(** [f"pai_{pai['id']}"] *)
Definition pai_key (id : nat) : string :=
  ("pai_" ++ NilEmpty.string_of_uint (Nat.to_uint id))%string.

(** The dict built by the first loop of [calculate_pai_indicators]. *)
Definition pai_init : list (string * PaiEntry) :=
  map (fun pai => (pai_key (fst pai),
                   mkPai (fst (snd pai)) None (snd (snd pai)) "estimated"))
      pai_indicators.

(** [pai_data[key]["value"] = value; pai_data[key]["data_quality"] = quality] *)
Definition set_pai (pai_data : list (string * PaiEntry)) (key : string)
  (value : option Q) (quality : string) : list (string * PaiEntry) :=
  dict_update pai_data key (fun e => mkPai (pai_name e) value (pai_unit e) quality).

(** Body of the loop over the KPIs (lines 86-108). *)
Definition map_kpi (pai_data : list (string * PaiEntry)) (kpi : ESGKpi)
  : list (string * PaiEntry) :=
  let kpi_name_lower := lower (kpi_name kpi) in
  let pai_data :=
    if contains "carbon" kpi_name_lower || contains "emission" kpi_name_lower
       || contains "ghg" kpi_name_lower
    then set_pai pai_data "pai_1" (current_value kpi) "reported"
    else pai_data in
  let pai_data :=
    if contains "energy" kpi_name_lower && contains "renewable" kpi_name_lower
    then match current_value kpi with
         | Some c => if nonzero c
                     then set_pai pai_data "pai_5" (Some (100 - c)) "calculated"
                     else pai_data
         | None => pai_data
         end
    else pai_data in
  let pai_data :=
    if contains "water" kpi_name_lower
    then set_pai pai_data "pai_8" (current_value kpi) "reported"
    else pai_data in
  let pai_data :=
    if contains "waste" kpi_name_lower
    then set_pai pai_data "pai_9" (current_value kpi) "reported"
    else pai_data in
  if contains "gender" kpi_name_lower || contains "diversity" kpi_name_lower
  then set_pai pai_data "pai_13" (current_value kpi) "reported"
  else pai_data.

Definition calculate_pai_indicators (db : Db) (loan_id : Z)
  : list (string * PaiEntry) :=
  fold_left map_kpi (query_kpis db loan_id) pai_init.

Record Alignment : Type := mkAlignment {
  aligned : bool;
  substantial_contribution : bool;
  dnsh_compliance : bool;
  minimum_safeguards : bool;
  alignment_percentage : Q
}.

Definition environmental_objectives : list string :=
  [ "climate_change_mitigation"; "climate_change_adaptation"; "sustainable_use_water";
    "circular_economy"; "pollution_prevention"; "biodiversity_ecosystems" ]%string.

Definition alignment_init : list (string * Alignment) :=
  map (fun objective => (objective, mkAlignment false false false false 0))
      environmental_objectives.

(** [kpi for kpi in kpis if "carbon" in kpi.kpi_name.lower() or
    "emission" in kpi.kpi_name.lower()] *)
Definition climate_kpis_of (kpis : list ESGKpi) : list ESGKpi :=
  filter (fun kpi => contains "carbon" (lower (kpi_name kpi))
                     || contains "emission" (lower (kpi_name kpi))) kpis.

(** One step of [sum(kpi.current_value / kpi.target_value * 100 for kpi
    in climate_kpis if kpi.target_value and kpi.target_value > 0)]; the
    quotient of a missing current value raises [TypeError]. *)
Definition add_performance (total : Q) (kpi : ESGKpi) : outcome Q :=
  match target_value kpi with
  | Some t =>
      if nonzero t && Qgtb t 0 then
        match current_value kpi with
        | Some c =>
            match py_div c t with
            | Ok ratio => Returns (total + ratio * 100)
            | Raise e => Raises (Exn e)
            end
        | None => Raises TypeError
        end
      else Returns total
  | None => Returns total
  end.

Fixpoint sum_performance (total : Q) (kpis : list ESGKpi) : outcome Q :=
  match kpis with
  | [] => Returns total
  | kpi :: rest =>
      match add_performance total kpi with
      | Returns total' => sum_performance total' rest
      | Raises r => Raises r
      end
  end.

Definition assess_eu_taxonomy_alignment (db : Db) (loan_id : Z)
  : outcome (list (string * Alignment)) :=
  let kpis := query_kpis db loan_id in
  let alignment := alignment_init in
  match climate_kpis_of kpis with
  | [] => Returns alignment
  | climate_kpis =>
      match sum_performance 0 climate_kpis with
      | Raises r => Raises r
      | Returns total =>
          match py_div total (len climate_kpis) with
          | Raise e => Raises (Exn e)
          | Ok avg_performance =>
              Returns
                (dict_update alignment "climate_change_mitigation"
                   (fun _ => mkAlignment (Qgeb avg_performance 75)
                               (Qgeb avg_performance 75) true true
                               (Qmin avg_performance 100)))
          end
      end
  end.

Record Area : Type := mkArea {
  compliant : bool;
  issues : list string
}.

Definition environmental_harm_init : list (string * Area) :=
  [ ("climate_mitigation"%string, mkArea true []);
    ("climate_adaptation"%string, mkArea true []);
    ("water_marine"%string, mkArea true []);
    ("circular_economy"%string, mkArea true []);
    ("pollution"%string, mkArea true []);
    ("biodiversity"%string, mkArea true []) ].

(** [harm[area]["compliant"] = False; harm[area]["issues"].append(issue)] *)
Definition flag (harm : list (string * Area)) (area issue : string)
  : list (string * Area) :=
  dict_update harm area (fun a => mkArea false (issues a ++ [issue])).

(** [kpi.current_value and kpi.target_value and
    kpi.current_value > kpi.target_value * 1.2] *)
Definition exceeds (kpi : ESGKpi) : bool :=
  match current_value kpi, target_value kpi with
  | Some c, Some t => nonzero c && nonzero t && Qgtb c (t * (12 # 10))
  | _, _ => false
  end.

(** Body of the loop over the KPIs (lines 208-225). *)
Definition check_kpi (harm : list (string * Area)) (kpi : ESGKpi)
  : list (string * Area) :=
  let name := lower (kpi_name kpi) in
  let harm :=
    if contains "pollution" name || contains "contamination" name
    then if exceeds kpi
         then flag harm "pollution"
                (kpi_name kpi ++ " exceeds acceptable threshold")
         else harm
    else harm in
  if contains "water" name || contains "waste water" name
  then if exceeds kpi
       then flag harm "water_marine"
              (kpi_name kpi ++ " indicates potential water stress")
       else harm
  else harm.

Record DnshAssessment : Type := mkDnsh {
  overall_compliant : bool;
  environmental_harm : list (string * Area)
}.

Definition assess_dnsh_compliance (db : Db) (loan_id : Z) : DnshAssessment :=
  let harm := fold_left check_kpi (query_kpis db loan_id) environmental_harm_init in
  mkDnsh (forallb (fun area => compliant (snd area)) harm) harm.

Record Safeguard : Type := mkSafeguard {
  sg_compliant : bool;
  evidence : list string
}.

Definition safeguards_init : list (string * Safeguard) :=
  [ ("oecd_guidelines"%string, mkSafeguard true []);
    ("un_guiding_principles"%string, mkSafeguard true []);
    ("ilo_conventions"%string, mkSafeguard true []);
    ("international_bill_rights"%string, mkSafeguard true []) ].

(** [kpi.kpi_category and kpi.kpi_category.lower() == "social"] *)
Definition is_social (kpi : ESGKpi) : bool :=
  match kpi_category kpi with
  | Some (String c s) => String.eqb (lower (String c s)) "social"
  | _ => false
  end.

(** Body of the loop over the KPIs (lines 247-251). *)
Definition add_evidence (safeguards : list (string * Safeguard)) (kpi : ESGKpi)
  : list (string * Safeguard) :=
  if is_social kpi
  then dict_update safeguards "ilo_conventions"
         (fun s => mkSafeguard (sg_compliant s)
                     (evidence s ++ [ ("Social KPI tracked: " ++ kpi_name kpi)%string ]))
  else safeguards.

Definition assess_social_safeguards (db : Db) (loan_id : Z)
  : list (string * Safeguard) :=
  fold_left add_evidence (query_kpis db loan_id) safeguards_init.

(** The row stored by [generate_sfdr_report] (the nested [report_data]
    with its texts is left out). *)
Record SFDRReport : Type := mkSFDRReport {
  report_loan_id : Z;
  report_period : string;
  sfdr_classification : Sfdr.Article;
  principal_adverse_impacts : list (string * PaiEntry);
  sustainable_investment_percentage : Q;
  taxonomy_alignment : list (string * Alignment);
  do_no_significant_harm_assessment : DnshAssessment;
  social_safeguards : list (string * Safeguard);
  generated_date : datetime;
  report_status : string
}.

(** The dict returned by [generate_sfdr_report] (identification fields,
    [report_data] and the constant entries are left out). *)
Record ReportSummary : Type := mkReportSummary {
  rs_period : string;
  rs_sfdr_classification : Sfdr.Article;
  rs_sustainable_investment_percentage : Q;
  taxonomy_aligned : bool;
  dnsh_compliant : bool
}.

(** [generate_sfdr_report]; the table of reports is threaded beside the
    store. *)
Definition generate_sfdr_report (db : Db) (reports : list SFDRReport)
  (now : datetime) (loan_id : Z) (period : string)
  : outcome (list SFDRReport * ReportSummary) :=
  match query_loan db loan_id with
  | None => Raises (Exn (Sfdr.not_found loan_id))
  | Some loan =>
      match Sfdr.classify_loan_sfdr_article db loan_id with
      | Raise e => Raises (Exn e)
      | Ok classification =>
          let pai := calculate_pai_indicators db loan_id in
          match Sfdr.calculate_sustainable_investment_percentage db loan_id with
          | Raise e => Raises (Exn e)
          | Ok sustainable_percentage =>
              match assess_eu_taxonomy_alignment db loan_id with
              | Raises r => Raises r
              | Returns taxonomy =>
                  let dnsh := assess_dnsh_compliance db loan_id in
                  let social := assess_social_safeguards db loan_id in
                  Returns
                    (reports ++
                     [ mkSFDRReport loan_id period classification pai
                         sustainable_percentage taxonomy dnsh social now
                         "completed" ],
                     mkReportSummary period classification sustainable_percentage
                       (existsb (fun obj => aligned (snd obj)) taxonomy)
                       (overall_compliant dnsh))
              end
          end
      end
  end.

(** Endpoint [POST /generate/{loan_id}]. *)
Definition generate_endpoint (db : Db) (reports : list SFDRReport)
  (now : datetime) (loan_id : Z) (period : string)
  : list SFDRReport * http ReportSummary :=
  match generate_sfdr_report db reports now loan_id period with
  | Returns (reports', report) => (reports', Response report)
  | Raises (Exn (ValueError _)) => (reports, HTTPException 404)
  | Raises _ => (reports, HTTPException 500)
  end.

End SfdrReport.

(** ** Reference counts for the sustainable-investment rate *)

(** A KPI whose target and current value are both set and non-zero. *)
Definition counted (kpi : ESGKpi) : bool :=
  match target_value kpi, current_value kpi with
  | Some t, Some c => nonzero t && nonzero c
  | _, _ => false
  end.

(** A counted KPI whose current value is at least 80% of its target. *)
Definition meets (kpi : ESGKpi) : bool :=
  match target_value kpi, current_value kpi with
  | Some t, Some c => nonzero t && nonzero c && Qgeb c (t * (8 # 10))
  | _, _ => false
  end.

Definition count_if {A : Type} (p : A -> bool) (xs : list A) : Z :=
  Z.of_nat (length (filter p xs)).

(** The step function of lines 136-148 on the two counts. *)
Definition conservative (m n : Z) : Q :=
  if (n =? 0)%Z then 0
  else if (90 * n <=? 100 * m)%Z then 100
  else if (75 * n <=? 100 * m)%Z then 75
  else if (50 * n <=? 100 * m)%Z then 50
  else 0.

(** ** Reference definitions for the SFDR assessments *)

(** A KPI that the DNSH loop reports under "pollution". *)
Definition pollution_harm (kpi : ESGKpi) : bool :=
  (contains "pollution" (lower (kpi_name kpi))
   || contains "contamination" (lower (kpi_name kpi)))
  && SfdrReport.exceeds kpi.

(** A KPI that the DNSH loop reports under "water_marine". *)
Definition water_harm (kpi : ESGKpi) : bool :=
  contains "water" (lower (kpi_name kpi)) && SfdrReport.exceeds kpi.

Definition pollution_issue (kpi : ESGKpi) : string :=
  (kpi_name kpi ++ " exceeds acceptable threshold")%string.

Definition water_issue (kpi : ESGKpi) : string :=
  (kpi_name kpi ++ " indicates potential water stress")%string.

(** The area made of the issues found: compliant when there is none. *)
Definition area_of (found : list string) : SfdrReport.Area :=
  SfdrReport.mkArea (match found with [] => true | _ :: _ => false end) found.

(** The six areas, of which only two are ever written. *)
Definition harm_state (water_marine pollution : SfdrReport.Area)
  : list (string * SfdrReport.Area) :=
  [ ("climate_mitigation"%string, SfdrReport.mkArea true []);
    ("climate_adaptation"%string, SfdrReport.mkArea true []);
    ("water_marine"%string, water_marine);
    ("circular_economy"%string, SfdrReport.mkArea true []);
    ("pollution"%string, pollution);
    ("biodiversity"%string, SfdrReport.mkArea true []) ].

(** The write of lines 212-215 and 221-224, when [b] holds. *)
Definition flag_if (b : bool) (issue : string) (a : SfdrReport.Area) : SfdrReport.Area :=
  if b then SfdrReport.mkArea false (SfdrReport.issues a ++ [issue]) else a.

(** A KPI with a non-zero, positive target: a term of the sum of
    [assess_eu_taxonomy_alignment]. *)
Definition has_target (kpi : ESGKpi) : bool :=
  match target_value kpi with
  | Some t => nonzero t && Qgtb t 0
  | None => false
  end.

(** A term of that sum whose current value is [None]. *)
Definition missing_current (kpi : ESGKpi) : bool :=
  has_target kpi &&
  match current_value kpi with
  | Some _ => false
  | None => true
  end.

(** [kpi.current_value / kpi.target_value * 100] *)
Definition performance (kpi : ESGKpi) : Q :=
  match current_value kpi, target_value kpi with
  | Some c, Some t => c / t * 100
  | _, _ => 0
  end.

(** The sum over the KPIs with a positive target, divided by the number
    of all climate KPIs. *)
Definition average_performance (climate : list ESGKpi) : Q :=
  sum (map performance (filter has_target climate)) / len climate.

Definition unassessed : SfdrReport.Alignment :=
  SfdrReport.mkAlignment false false false false 0.

(** The six objectives, of which only the first is ever written. *)
Definition taxonomy_state (mitigation : SfdrReport.Alignment)
  : list (string * SfdrReport.Alignment) :=
  [ ("climate_change_mitigation"%string, mitigation);
    ("climate_change_adaptation"%string, unassessed);
    ("sustainable_use_water"%string, unassessed);
    ("circular_economy"%string, unassessed);
    ("pollution_prevention"%string, unassessed);
    ("biodiversity_ecosystems"%string, unassessed) ].

(** The entry of the first objective for a given average. *)
Definition mitigation_of (avg : Q) : SfdrReport.Alignment :=
  SfdrReport.mkAlignment (Qgeb avg 75) (Qgeb avg 75) true true (Qmin avg 100).

(** The last element of a list that satisfies [p]. *)
Definition last_match {A : Type} (p : A -> bool) (xs : list A) : option A :=
  find p (rev xs).

Definition name_has (sub : string) (kpi : ESGKpi) : bool :=
  contains sub (lower (kpi_name kpi)).

(** The conditions of lines 89-106. *)
Definition ghg_kpi (kpi : ESGKpi) : bool :=
  name_has "carbon" kpi || name_has "emission" kpi || name_has "ghg" kpi.

Definition renewable_kpi (kpi : ESGKpi) : bool :=
  name_has "energy" kpi && name_has "renewable" kpi && truthy (current_value kpi).

Definition gender_kpi (kpi : ESGKpi) : bool :=
  name_has "gender" kpi || name_has "diversity" kpi.

(** An indicator as left by the KPI that wrote it last, if any. *)
Definition indicator (name unit quality : string) (value : ESGKpi -> option Q)
  (writer : option ESGKpi) : SfdrReport.PaiEntry :=
  match writer with
  | Some kpi => SfdrReport.mkPai name (value kpi) unit quality
  | None => SfdrReport.mkPai name None unit "estimated"
  end.

(** [100 - kpi.current_value] *)
Definition non_renewable (kpi : ESGKpi) : option Q :=
  match current_value kpi with
  | Some c => Some (100 - c)
  | None => None
  end.

Definition untouched (name unit : string) : SfdrReport.PaiEntry :=
  SfdrReport.mkPai name None unit "estimated".

(** The fourteen indicators, of which five are ever written. *)
Definition pai_state (e1 e5 e8 e9 e13 : SfdrReport.PaiEntry)
  : list (string * SfdrReport.PaiEntry) :=
  [ ("pai_1", e1);
    ("pai_2", untouched "Carbon footprint" "tCO2e per million EUR invested");
    ("pai_3", untouched "GHG intensity of investee companies"
                "tCO2e per million EUR revenue");
    ("pai_4", untouched "Exposure to companies in fossil fuel sector" "percentage");
    ("pai_5", e5);
    ("pai_6", untouched "Energy consumption intensity" "GWh per million EUR revenue");
    ("pai_7", untouched "Activities negatively affecting biodiversity" "percentage");
    ("pai_8", e8);
    ("pai_9", e9);
    ("pai_10", untouched "Violations of UN Global Compact principles" "number");
    ("pai_11", untouched "Lack of processes for UN Global Compact" "percentage");
    ("pai_12", untouched "Unadjusted gender pay gap" "percentage");
    ("pai_13", e13);
    ("pai_14", untouched "Exposure to controversial weapons" "percentage") ]%string.

(** The write of one indicator by one KPI, when [b] holds. *)
Definition write_if (b : bool) (quality : string) (value : option Q)
  (e : SfdrReport.PaiEntry) : SfdrReport.PaiEntry :=
  if b then SfdrReport.mkPai (SfdrReport.pai_name e) value (SfdrReport.pai_unit e) quality
  else e.

Definition evidence_of (kpi : ESGKpi) : string :=
  ("Social KPI tracked: " ++ kpi_name kpi)%string.

(** The four safeguards, of which only one collects evidence. *)
Definition safeguards_state (ilo_conventions : list string)
  : list (string * SfdrReport.Safeguard) :=
  [ ("oecd_guidelines"%string, SfdrReport.mkSafeguard true []);
    ("un_guiding_principles"%string, SfdrReport.mkSafeguard true []);
    ("ilo_conventions"%string, SfdrReport.mkSafeguard true ilo_conventions);
    ("international_bill_rights"%string, SfdrReport.mkSafeguard true []) ].

(** ** Reference definitions for the statements below *)

(** A KPI with both a target value and a baseline value set, as the
    specification words the "meaningful targets". *)
Definition has_both (kpi : ESGKpi) : Prop :=
  (exists t, target_value kpi = Some t) /\ (exists b, baseline_value kpi = Some b).

(** [counts P l n]: exactly [n] elements of [l] satisfy [P]. *)
Inductive counts {A : Type} (P : A -> Prop) : list A -> nat -> Prop :=
| counts_nil : counts P [] 0
| counts_in (x : A) (l : list A) (n : nat) :
    P x -> counts P l n -> counts P (x :: l) (S n)
| counts_out (x : A) (l : list A) (n : nat) :
    ~ P x -> counts P l n -> counts P (x :: l) n.

(** KPIs of loan 1 that lack a target, a baseline, or both. *)
Definition kpi_without_target : ESGKpi :=
  mkKpi 1 "water use" (Some "environmental"%string) None (Some 65) (Some 100).

Definition kpi_without_baseline : ESGKpi :=
  mkKpi 1 "board diversity" (Some "governance"%string) (Some 30) (Some 65) None.

Definition kpi_without_values : ESGKpi :=
  mkKpi 1 "training hours" (Some "social"%string) None None None.


(** *** Binary floating point

    The program computes on binary64 floats, the embedding on exact
    rationals.  One rounded operation moves a result by a relative
    2^-53 at most, so a comparison of a stored value [c] with a computed
    product [t * k] is decided by the program as it is here whenever [c]
    is further from the product than [tolerance] times [t], [t] being of
    normal magnitude.  Properties of such comparisons are stated for the
    inputs that are [clear_of] the boundary. *)
Definition tolerance : Q := 1 # 1000000000.

Definition clear_of (c t k : Q) : Prop :=
  (1 # 10 ^ 300) <= Qabs t /\ Qabs t * tolerance < Qabs (c - t * k).

(** The comparison of the current value of a KPI with [k] times its
    target is clear of the boundary, when both are set and non-zero. *)
Definition decided (k : Q) (kpi : ESGKpi) : Prop :=
  forall c t, current_value kpi = Some c -> target_value kpi = Some t ->
              ~ c == 0 -> ~ t == 0 -> clear_of c t k.



(** * Properties *)

(** ** Comparisons, division and rounding *)

Section Numeric.

Lemma Qle_bool_false (x y : Q) : Qle_bool x y = false -> y < x.
Proof.
  intros H. apply Qnot_le_lt. intros Hle.
  apply Qle_bool_iff in Hle. congruence.
Qed.

Lemma Qltb_true (x y : Q) : Qltb x y = true <-> x < y.
Proof.
  unfold Qltb. split.
  - intros H. apply negb_true_iff in H. now apply Qle_bool_false.
  - intros H. apply negb_true_iff. destruct (Qle_bool y x) eqn:E; [|reflexivity].
    apply Qle_bool_iff in E. lra.
Qed.

Lemma Qltb_false (x y : Q) : Qltb x y = false <-> y <= x.
Proof.
  unfold Qltb. rewrite negb_false_iff. apply Qle_bool_iff.
Qed.

Lemma Qgtb_true (x y : Q) : Qgtb x y = true <-> y < x.
Proof. apply (Qltb_true y x). Qed.

Lemma Qgtb_false (x y : Q) : Qgtb x y = false <-> x <= y.
Proof. apply (Qltb_false y x). Qed.

Lemma Qgeb_true (x y : Q) : Qgeb x y = true <-> y <= x.
Proof. apply Qle_bool_iff. Qed.

Lemma Qgeb_false (x y : Q) : Qgeb x y = false <-> x < y.
Proof.
  unfold Qgeb. split.
  - apply Qle_bool_false.
  - intros H. destruct (Qle_bool y x) eqn:E; [|reflexivity].
    apply Qle_bool_iff in E. lra.
Qed.

Lemma nonzero_true (x : Q) : nonzero x = true <-> ~ x == 0.
Proof.
  unfold nonzero. rewrite negb_true_iff. split.
  - intros H E. apply Qeq_bool_iff in E. congruence.
  - intros H. destruct (Qeq_bool x 0) eqn:E; [|reflexivity].
    apply Qeq_bool_iff in E. contradiction.
Qed.

Lemma nonzero_false (x : Q) : nonzero x = false <-> x == 0.
Proof.
  unfold nonzero. rewrite negb_false_iff. apply Qeq_bool_iff.
Qed.

Lemma truthy_false (o : option Q) :
  truthy o = false <-> o = None \/ exists x, o = Some x /\ x == 0.
Proof.
  destruct o as [x|]; simpl.
  - rewrite nonzero_false. split.
    + intros H. right. now exists x.
    + intros [H | (y & H & Hy)]; [discriminate | congruence].
  - split; [now left | reflexivity].
Qed.

Lemma py_div_ok (a b : Q) : ~ b == 0 -> py_div a b = Ok (a / b).
Proof.
  intros H. unfold py_div. destruct (Qeq_bool b 0) eqn:E; [|reflexivity].
  apply Qeq_bool_iff in E. contradiction.
Qed.

Lemma py_div_zero (a b : Q) : b == 0 -> py_div a b = Raise ZeroDivisionError.
Proof.
  intros H. unfold py_div. apply Qeq_bool_iff in H. now rewrite H.
Qed.

End Numeric.

(** Turn every boolean comparison in the context into its proposition. *)
Ltac qprop :=
  repeat match goal with
  | H : _ && _ = true |- _ => apply andb_true_iff in H; destruct H
  | H : _ && _ = false |- _ => apply andb_false_iff in H; destruct H
  | H : Qle_bool _ _ = true |- _ => apply Qle_bool_iff in H
  | H : Qle_bool _ _ = false |- _ => apply Qle_bool_false in H
  | H : Qltb _ _ = true |- _ => apply Qltb_true in H
  | H : Qltb _ _ = false |- _ => apply Qltb_false in H
  | H : Qgtb _ _ = true |- _ => apply Qgtb_true in H
  | H : Qgtb _ _ = false |- _ => apply Qgtb_false in H
  | H : Qgeb _ _ = true |- _ => apply Qgeb_true in H
  | H : Qgeb _ _ = false |- _ => apply Qgeb_false in H
  | H : nonzero _ = true |- _ => apply nonzero_true in H
  | H : nonzero _ = false |- _ => apply nonzero_false in H
  end.

(** Case analysis on the first comparison the goal branches on. *)
Ltac qcase :=
  match goal with
  | |- context [if ?b then _ else _] =>
      let E := fresh "E" in destruct b eqn:E; qprop
  | |- context [match (if ?b then _ else _) with _ => _ end] =>
      let E := fresh "E" in destruct b eqn:E; qprop
  end.

(** ** Risk categories *)

Section Categories.

Lemma categorize_low (s : Q) : 0 <= s -> s < 25 -> Risk.categorize_risk s = "low"%string.
Proof.
  intros H0 H1. unfold Risk.categorize_risk. simpl.
  repeat (qcase; simpl; try reflexivity; try lra).
Qed.

Lemma categorize_moderate (s : Q) :
  25 <= s -> s < 50 -> Risk.categorize_risk s = "moderate"%string.
Proof.
  intros H0 H1. unfold Risk.categorize_risk. simpl.
  repeat (qcase; simpl; try reflexivity; try lra).
Qed.

Lemma categorize_elevated (s : Q) :
  50 <= s -> s < 75 -> Risk.categorize_risk s = "elevated"%string.
Proof.
  intros H0 H1. unfold Risk.categorize_risk. simpl.
  repeat (qcase; simpl; try reflexivity; try lra).
Qed.

Lemma categorize_high (s : Q) : 75 <= s -> Risk.categorize_risk s = "high"%string.
Proof.
  intros H0. unfold Risk.categorize_risk. simpl.
  repeat (qcase; simpl; try reflexivity; try lra).
Qed.

(** Scores below the table fall back to "low". *)
Lemma categorize_negative (s : Q) : s < 0 -> Risk.categorize_risk s = "low"%string.
Proof.
  intros H0. unfold Risk.categorize_risk. simpl.
  repeat (qcase; simpl; try reflexivity; try lra).
Qed.

(** C3: [categorize_risk] maps [0,25) to "low", [25,50) to "moderate",
    [50,75) to "elevated" and [75,100] to "high", the top bound included;
    24.999 is "low", 25.0 is "moderate" and 100.0 is "high". *)
Theorem categorize_risk_bands :
  (forall s : Q,
      (0 <= s -> s < 25 -> Risk.categorize_risk s = "low"%string) /\
      (25 <= s -> s < 50 -> Risk.categorize_risk s = "moderate"%string) /\
      (50 <= s -> s < 75 -> Risk.categorize_risk s = "elevated"%string) /\
      (75 <= s -> s <= 100 -> Risk.categorize_risk s = "high"%string)) /\
  Risk.categorize_risk 24.999 = "low"%string /\
  Risk.categorize_risk 25.0 = "moderate"%string /\
  Risk.categorize_risk 100.0 = "high"%string.
Proof.
  split; [|repeat split; reflexivity].
  intros s. repeat split; intros.
  - now apply categorize_low.
  - now apply categorize_moderate.
  - now apply categorize_elevated.
  - now apply categorize_high.
Qed.

Lemma categorize_risk_bands_witness :
  Risk.categorize_risk 10 = "low"%string /\
  Risk.categorize_risk 30 = "moderate"%string /\
  Risk.categorize_risk 60 = "elevated"%string /\
  Risk.categorize_risk 100 = "high"%string.
Proof.
  split; [|split; [|split]].
  - apply (proj1 categorize_risk_bands 10); lra.
  - apply (proj1 categorize_risk_bands 30); lra.
  - apply (proj1 categorize_risk_bands 60); lra.
  - apply (proj1 categorize_risk_bands 100); lra.
Defined.

End Categories.

(** ** Pricing tiers *)

Section Tiers.

Lemma determine_pricing_tier_eq (s : Q) :
  Pricing.determine_pricing_tier s = fst (tier_of s).
Proof.
  unfold Pricing.determine_pricing_tier, tier_of. simpl.
  repeat (destruct (Qgeb s _); simpl; try reflexivity).
Qed.

Lemma calculate_margin_adjustment_eq (s : Q) :
  Pricing.calculate_margin_adjustment s = Ok (snd (tier_of s)).
Proof.
  unfold Pricing.calculate_margin_adjustment.
  rewrite determine_pricing_tier_eq. unfold tier_of.
  repeat (destruct (Qgeb s _); simpl; try reflexivity).
Qed.

(** C6: tier selection is monotonic, a higher score never gets a higher
    margin adjustment; the tiers are excellent from 90 (-0.50), good from
    75 (-0.25), fair from 60 (0.00), poor from 40 (+0.25) and critical
    below (+0.50). *)
Theorem margin_adjustment_monotonic (a b : Q) :
  a < b ->
  exists ma mb : Q,
    Pricing.calculate_margin_adjustment a = Ok ma /\
    Pricing.calculate_margin_adjustment b = Ok mb /\
    mb <= ma /\
    (Pricing.determine_pricing_tier a, ma) =
      (if Qgeb a 90 then ("excellent"%string, - (1 # 2))
       else if Qgeb a 75 then ("good"%string, - (1 # 4))
       else if Qgeb a 60 then ("fair"%string, 0)
       else if Qgeb a 40 then ("poor"%string, 1 # 4)
       else ("critical"%string, 1 # 2)).
Proof.
  intros Hab.
  exists (snd (tier_of a)), (snd (tier_of b)).
  rewrite !calculate_margin_adjustment_eq, determine_pricing_tier_eq.
  split; [reflexivity|]. split; [reflexivity|]. split.
  - unfold tier_of.
    repeat (qcase; simpl; try lra).
  - fold (tier_of a). now destruct (tier_of a).
Qed.

Lemma margin_adjustment_monotonic_witness :
  exists ma mb : Q,
    Pricing.calculate_margin_adjustment 50 = Ok ma /\
    Pricing.calculate_margin_adjustment 80 = Ok mb /\
    mb <= ma /\
    (Pricing.determine_pricing_tier 50, ma) = ("poor"%string, 1 # 4).
Proof.
  apply (margin_adjustment_monotonic 50 80). lra.
Defined.

End Tiers.

(** ** SFDR article classification *)

Section Classification.

Variable db : Db.
Variable id : Z.
Variable loan : Loan.
Hypothesis Hloan : query_loan db id = Some loan.

Lemma classify_not_linked :
  sustainability_linked loan <> Some true ->
  Sfdr.classify_loan_sfdr_article db id = Ok Sfdr.article_6.
Proof using Hloan.
  intros H. unfold Sfdr.classify_loan_sfdr_article. rewrite Hloan.
  unfold Sfdr.not_linked.
  destruct (sustainability_linked loan) as [[|]|]; congruence.
Qed.

Lemma classify_linked :
  sustainability_linked loan = Some true ->
  Sfdr.classify_loan_sfdr_article db id =
    Ok (if (5 <=? meaningful_targets db id)%nat then Sfdr.article_9
        else if (2 <=? meaningful_targets db id)%nat then Sfdr.article_8
        else Sfdr.article_6).
Proof using Hloan.
  intros H. unfold Sfdr.classify_loan_sfdr_article, meaningful_targets.
  rewrite Hloan. unfold Sfdr.not_linked. rewrite H.
  destruct (query_kpis db id) as [|k ks]; [reflexivity|].
  set (n := length (filter Sfdr.meaningful (k :: ks))).
  destruct (5 <=? n)%nat; [reflexivity|].
  destruct (2 <=? n)%nat; reflexivity.
Qed.

(** The code's test counts the KPIs with both values set. *)
Lemma counts_meaningful (kpis : list ESGKpi) (n : nat) :
  counts has_both kpis n -> length (filter Sfdr.meaningful kpis) = n.
Proof.
  induction 1 as [|k l n [[t Ht] [b Hb]] _ IH|k l n Hn _ IH]; [reflexivity| |].
  - cbn [filter]. unfold Sfdr.meaningful at 1. rewrite Ht, Hb.
    cbn [length]. now f_equal.
  - cbn [filter]. unfold Sfdr.meaningful at 1.
    destruct (target_value k) as [t|] eqn:Et; [|exact IH].
    destruct (baseline_value k) as [b|] eqn:Eb; [|exact IH].
    elim Hn. split; eauto.
Qed.

Lemma counts_total (kpis : list ESGKpi) : exists n, counts has_both kpis n.
Proof.
  induction kpis as [|k l [n IH]]; [exists 0%nat; constructor|].
  destruct (target_value k) as [t|] eqn:Et.
  - destruct (baseline_value k) as [b|] eqn:Eb.
    + exists (S n). apply counts_in; [split; eauto|exact IH].
    + exists n. apply counts_out; [|exact IH].
      intros [_ [b Hb]]. congruence.
  - exists n. apply counts_out; [|exact IH].
    intros [[t Ht] _]. congruence.
Qed.

(** C7: a loan that is not sustainability-linked is classified
    "article_6" whatever its KPIs; otherwise, with n the number of its
    KPIs that have both target_value and baseline_value set (a KPI that
    lacks either is not counted), n >= 5 gives "article_9", 2 <= n < 5
    gives "article_8" and n < 2 (no KPI at all included) gives
    "article_6". *)
Theorem classify_loan_sfdr_article_spec :
  (exists n, counts has_both (query_kpis db id) n) /\
  forall n, counts has_both (query_kpis db id) n ->
    (sustainability_linked loan <> Some true ->
     Sfdr.classify_loan_sfdr_article db id = Ok Sfdr.article_6) /\
    (sustainability_linked loan = Some true -> (5 <= n)%nat ->
     Sfdr.classify_loan_sfdr_article db id = Ok Sfdr.article_9) /\
    (sustainability_linked loan = Some true -> (2 <= n < 5)%nat ->
     Sfdr.classify_loan_sfdr_article db id = Ok Sfdr.article_8) /\
    (sustainability_linked loan = Some true -> (n < 2)%nat ->
     Sfdr.classify_loan_sfdr_article db id = Ok Sfdr.article_6) /\
    (query_kpis db id = [] ->
     Sfdr.classify_loan_sfdr_article db id = Ok Sfdr.article_6).
Proof using Hloan.
  split; [apply counts_total|]. intros n Hn.
  assert (M : meaningful_targets db id = n) by now apply counts_meaningful.
  split; [apply classify_not_linked|].
  split; [|split; [|split]].
  - intros H H5. rewrite (classify_linked H), M.
    apply Nat.leb_le in H5. now rewrite H5.
  - intros H [H2 H5]. rewrite (classify_linked H), M.
    apply Nat.leb_le in H2. apply Nat.leb_gt in H5. now rewrite H5, H2.
  - intros H H2. rewrite (classify_linked H), M.
    assert (H5 : (n < 5)%nat) by lia.
    apply Nat.leb_gt in H2. apply Nat.leb_gt in H5. now rewrite H5, H2.
  - intros Hk. unfold Sfdr.classify_loan_sfdr_article.
    rewrite Hloan, Hk. now destruct (Sfdr.not_linked loan).
Qed.

End Classification.

(** Counts the KPIs of a concrete list that have both values set. *)
Ltac count_kpis :=
  repeat first
    [ apply counts_nil
    | apply counts_in; [split; eexists; reflexivity|]
    | apply counts_out; [intros [[? Ht] [? Hb]]; discriminate|] ].

Lemma classify_loan_sfdr_article_spec_witness :
  Sfdr.classify_loan_sfdr_article (sfdr_db false 6) 1 = Ok Sfdr.article_6 /\
  Sfdr.classify_loan_sfdr_article
    (db_of [ sfdr_kpi; sfdr_kpi; kpi_without_target; sfdr_kpi; sfdr_kpi;
             kpi_without_baseline; sfdr_kpi ]) 1 = Ok Sfdr.article_9 /\
  Sfdr.classify_loan_sfdr_article
    (db_of [ sfdr_kpi; kpi_without_baseline; sfdr_kpi; kpi_without_values;
             sfdr_kpi ]) 1 = Ok Sfdr.article_8 /\
  Sfdr.classify_loan_sfdr_article
    (db_of [ kpi_without_target; kpi_without_target; kpi_without_target;
             kpi_without_target; kpi_without_target; sfdr_kpi ]) 1 =
    Ok Sfdr.article_6 /\
  Sfdr.classify_loan_sfdr_article (db_of []) 1 = Ok Sfdr.article_6.
Proof.
  split; [|split; [|split; [|split]]].
  - apply (proj1 (proj2 (classify_loan_sfdr_article_spec (sfdr_db false 6) 1
                           (sfdr_loan false) eq_refl) 6%nat ltac:(count_kpis))).
    discriminate.
  - apply (proj1 (proj2 (proj2 (classify_loan_sfdr_article_spec
             (db_of [ sfdr_kpi; sfdr_kpi; kpi_without_target; sfdr_kpi; sfdr_kpi;
                      kpi_without_baseline; sfdr_kpi ]) 1
             (sfdr_loan true) eq_refl) 5%nat ltac:(count_kpis))) eq_refl).
    lia.
  - apply (proj1 (proj2 (proj2 (proj2 (classify_loan_sfdr_article_spec
             (db_of [ sfdr_kpi; kpi_without_baseline; sfdr_kpi; kpi_without_values;
                      sfdr_kpi ]) 1
             (sfdr_loan true) eq_refl) 3%nat ltac:(count_kpis)))) eq_refl).
    lia.
  - apply (proj1 (proj2 (proj2 (proj2 (proj2 (classify_loan_sfdr_article_spec
             (db_of [ kpi_without_target; kpi_without_target; kpi_without_target;
                      kpi_without_target; kpi_without_target; sfdr_kpi ]) 1
             (sfdr_loan true) eq_refl) 1%nat ltac:(count_kpis))))) eq_refl).
    lia.
  - apply (proj2 (proj2 (proj2 (proj2 (proj2 (classify_loan_sfdr_article_spec
             (db_of []) 1 (sfdr_loan true) eq_refl) 0%nat ltac:(count_kpis)))))).
    reflexivity.
Defined.

(** ** Rounding *)

Section Rounding.

Lemma round_half_even_lower (x : Q) (n : Z) :
  inject_Z n <= x -> (n <= round_half_even x)%Z.
Proof.
  intros H. assert (Hf : (n <= Qfloor x)%Z).
  { rewrite <- (Qfloor_Z n). now apply Qfloor_resp_le. }
  unfold round_half_even.
  destruct (Qltb _ _); [exact Hf|].
  destruct (Qltb _ _); [lia|].
  destruct (Z.even _); lia.
Qed.

Lemma round_half_even_upper (x : Q) (n : Z) :
  x <= inject_Z n -> (round_half_even x <= n)%Z.
Proof.
  intros H. pose proof (Qfloor_le x) as Hfl.
  assert (Hf : (Qfloor x <= n)%Z).
  { rewrite Zle_Qle. lra. }
  unfold round_half_even.
  destruct (Qltb (x - inject_Z (Qfloor x)) (1 # 2)) eqn:E; [exact Hf|].
  qprop.
  assert (Hlt : (Qfloor x < n)%Z).
  { rewrite Zlt_Qlt. lra. }
  destruct (Qltb _ _); [lia|].
  destruct (Z.even _); lia.
Qed.



Lemma round2_bounds (x : Q) : 0 <= x -> x <= 100 -> 0 <= round2 x /\ round2 x <= 100.
Proof.
  intros H0 H1.
  assert (L : (0 <= round_half_even (x * 100))%Z).
  { apply round_half_even_lower. change (inject_Z 0) with 0. lra. }
  assert (U : (round_half_even (x * 100) <= 10000)%Z).
  { apply round_half_even_upper. change (inject_Z 10000) with 10000. lra. }
  unfold round2, Qle. simpl. lia.
Qed.

End Rounding.

(** ** Loops *)

Section Loops.

Context {A S : Type}.
Variable body : S -> A -> result S.

(** An element on which the body leaves every state as it is can be
    dropped from the loop. *)
Lemma for_each_skip (x : A) (l1 l2 : list A) (s : S) :
  (forall s', body s' x = Ok s') ->
  for_each body (l1 ++ x :: l2) s = for_each body (l1 ++ l2) s.
Proof.
  intros Hx. revert s. induction l1 as [|y l1 IH]; intros s; simpl.
  - now rewrite Hx.
  - destruct (body s y) as [s'|e]; simpl; [apply IH | reflexivity].
Qed.

End Loops.

(** ** Sums and means *)

Section Means.

Lemma sum_from (l : list Q) (a : Q) : fold_left Qplus l a == a + sum l.
Proof.
  unfold sum. revert a. induction l as [|x l IH]; intros a; simpl.
  - lra.
  - rewrite (IH (a + x)), (IH (0 + x)). lra.
Qed.

Lemma sum_cons (x : Q) (l : list Q) : sum (x :: l) == x + sum l.
Proof.
  unfold sum at 1. simpl. rewrite sum_from. lra.
Qed.

Lemma len_cons {A : Type} (x : A) (l : list A) : len (x :: l) == 1 + len l.
Proof.
  unfold len. rewrite <- (inject_Z_plus 1).
  apply inject_Z_injective. simpl length. lia.
Qed.

Lemma len_nonneg {A : Type} (l : list A) : 0 <= len l.
Proof.
  unfold len. change 0 with (inject_Z 0). rewrite <- Zle_Qle. lia.
Qed.

Lemma len_pos {A : Type} (x : A) (l : list A) : 0 < len (x :: l).
Proof.
  rewrite len_cons. pose proof (len_nonneg l). lra.
Qed.

Lemma sum_bounds (l : list Q) :
  Forall (fun a => 0 <= a /\ a <= 100) l -> 0 <= sum l /\ sum l <= 100 * len l.
Proof.
  induction 1 as [|x l [Hx0 Hx1] _ [IH0 IH1]].
  - split; unfold sum, len, Qle; simpl; lia.
  - rewrite sum_cons, len_cons. lra.
Qed.

Lemma mean_bounds (l : list Q) :
  l <> [] -> Forall (fun a => 0 <= a /\ a <= 100) l -> 0 <= mean l /\ mean l <= 100.
Proof.
  intros Hne Hall. destruct l as [|x l]; [congruence|].
  pose proof (@sum_bounds (x :: l) Hall) as [H0 H1].
  pose proof (len_pos x l) as Hlen.
  unfold mean. split.
  - apply Qle_shift_div_l; lra.
  - apply Qle_shift_div_r; lra.
Qed.

Lemma mean_ok (x : Q) (l : list Q) :
  py_div (sum (x :: l)) (len (x :: l)) = Ok (mean (x :: l)).
Proof.
  apply py_div_ok. pose proof (len_pos x l). lra.
Qed.

End Means.

(** ** KPI achievement *)

Section Achievement.

Lemma Qabs_diff_pos (t b : Q) : ~ t == b -> 0 < Qabs (t - b).
Proof.
  intros Htb. destruct (Qlt_le_dec 0 (Qabs (t - b))) as [H|H]; [exact H|].
  exfalso. apply Htb. apply Qabs_Qle_condition in H. lra.
Qed.

Lemma Qabs_diff_zero (t b : Q) : t == b -> Qabs (t - b) == 0.
Proof.
  intros Htb. setoid_replace (t - b) with 0 by lra. reflexivity.
Qed.

Lemma achievement_bounds (t c b : Q) :
  ~ t == b -> 0 <= achievement t c b /\ achievement t c b <= 100.
Proof.
  intros Htb. unfold achievement.
  pose proof (Qabs_diff_pos t b Htb) as Hpos.
  assert (Hratio : 0 <= Qabs (c - b) / Qabs (t - b)).
  { apply Qle_shift_div_l; [exact Hpos|]. pose proof (Qabs_nonneg (c - b)). lra. }
  split.
  - apply Q.min_glb; lra.
  - apply Q.le_min_r.
Qed.


(** No KPI makes the achievement computation raise, and a computed
    achievement lies in [0, 100]. *)
Lemma achievement_of_total (kpi : ESGKpi) :
  exists o, Pricing.achievement_of kpi = Ok o /\
            forall a, o = Some a -> 0 <= a /\ a <= 100.
Proof.
  unfold Pricing.achievement_of.
  destruct (target_value kpi) as [t|]; [|exists None; split; [reflexivity|discriminate]].
  destruct (current_value kpi) as [c|]; [|exists None; split; [reflexivity|discriminate]].
  destruct (baseline_value kpi) as [b|]; [|exists None; split; [reflexivity|discriminate]].
  destruct (nonzero t && nonzero c && nonzero b);
    [|exists None; split; [reflexivity|discriminate]].
  destruct (Qgtb (Qabs (t - b)) 0) eqn:E;
    [|exists None; split; [reflexivity|discriminate]].
  qprop. rewrite py_div_ok by lra. simpl.
  exists (Some (achievement t c b)). split; [reflexivity|].
  intros a [= <-]. apply achievement_bounds.
  intros Htb. rewrite (Qabs_diff_zero t b Htb) in E. lra.
Qed.

Lemma achievement_of_falsy (kpi : ESGKpi) :
  falsy (target_value kpi) \/ falsy (current_value kpi) \/
  falsy (baseline_value kpi) ->
  Pricing.achievement_of kpi = Ok None.
Proof.
  unfold falsy, Pricing.achievement_of.
  intros [[H|(x & H & Hx)]|[[H|(x & H & Hx)]|[H|(x & H & Hx)]]]; rewrite H;
    try apply nonzero_false in Hx; try rewrite Hx;
    destruct (target_value kpi) as [t|]; try reflexivity;
    destruct (current_value kpi) as [c|]; try reflexivity;
    try (destruct (baseline_value kpi) as [b|]; try reflexivity);
    try (destruct (nonzero t); reflexivity);
    destruct (nonzero t), (nonzero c); reflexivity.
Qed.


End Achievement.

(** ** ESG performance score *)

Section PerformanceScore.

Lemma contributions_cons (c : string) (k : ESGKpi) (ks : list ESGKpi) :
  contributions c (k :: ks) =
    match Pricing.achievement_of k with
    | Ok (Some a) => if String.eqb c (Pricing.category_of k) then [a] else []
    | _ => []
    end ++ contributions c ks.
Proof. reflexivity. Qed.

Lemma contributions_app (c : string) (l1 l2 : list ESGKpi) :
  contributions c (l1 ++ l2) = contributions c l1 ++ contributions c l2.
Proof. apply flat_map_app. Qed.

Lemma contributions_bounds (c : string) (kpis : list ESGKpi) :
  Forall (fun a => 0 <= a /\ a <= 100) (contributions c kpis).
Proof.
  induction kpis as [|k ks IH]; [constructor|].
  rewrite contributions_cons. apply Forall_app. split; [|exact IH].
  destruct (achievement_of_total k) as (o & Ho & Hb). rewrite Ho.
  destruct o as [a|]; [|constructor].
  destruct (String.eqb c _); constructor; [now apply Hb | constructor].
Qed.

(** One turn of the loop over the KPIs. *)
Lemma score_kpi_step (k : ESGKpi) (e s g : list Q) :
  Pricing.score_kpi
    [ ("environmental"%string, e); ("social"%string, s); ("governance"%string, g) ] k =
  Ok [ ("environmental"%string, e ++ contributions "environmental" [k]);
       ("social"%string, s ++ contributions "social" [k]);
       ("governance"%string, g ++ contributions "governance" [k]) ].
Proof.
  rewrite !contributions_cons. unfold Pricing.score_kpi.
  destruct (achievement_of_total k) as (o & Ho & _). rewrite Ho. cbn [bind].
  destruct o as [a|]; [|cbn; now rewrite !app_nil_r].
  remember (Pricing.category_of k) as cat eqn:Hcat. clear Hcat.
  unfold dict_mem, dict_update. cbn [existsb map fst snd].
  destruct (String.eqb "environmental" cat) eqn:Ee.
  { apply String.eqb_eq in Ee. subst cat. cbn. now rewrite !app_nil_r. }
  destruct (String.eqb "social" cat) eqn:Es.
  { apply String.eqb_eq in Es. subst cat. cbn. now rewrite !app_nil_r. }
  destruct (String.eqb "governance" cat) eqn:Eg.
  { apply String.eqb_eq in Eg. subst cat. cbn. now rewrite !app_nil_r. }
  cbn. now rewrite !app_nil_r.
Qed.

(** The loop over the KPIs appends, category by category, the
    contributions of the list. *)
Lemma score_loop (kpis : list ESGKpi) (e s g : list Q) :
  for_each Pricing.score_kpi kpis
    [ ("environmental"%string, e); ("social"%string, s); ("governance"%string, g) ] =
  Ok [ ("environmental"%string, e ++ contributions "environmental" kpis);
       ("social"%string, s ++ contributions "social" kpis);
       ("governance"%string, g ++ contributions "governance" kpis) ].
Proof.
  revert e s g. induction kpis as [|k ks IH]; intros e s g.
  - simpl. now rewrite !app_nil_r.
  - cbn [for_each]. rewrite score_kpi_step. cbn [bind]. rewrite IH.
    change (k :: ks) with ([k] ++ ks).
    now rewrite !contributions_app, !app_assoc.
Qed.

Lemma add_category_ok (cs : list (string * list Q)) (acc : Q * Q)
  (c : string) (w : Q) (l : list Q) :
  dict_get cs c = Ok l ->
  Pricing.weigh cs acc (c, w) = Ok (add_category acc l w).
Proof.
  intros H. unfold Pricing.weigh. destruct acc as [ts tw]. rewrite H. cbn [bind].
  destruct l as [|x l]; [reflexivity|].
  rewrite mean_ok. reflexivity.
Qed.

(** The loop over the weights. *)
Lemma weigh_loop (E S G : list Q) :
  for_each
    (Pricing.weigh [ ("environmental"%string, E); ("social"%string, S);
                     ("governance"%string, G) ])
    Pricing.weights (0, 0) = Ok (weighted_totals E S G).
Proof.
  unfold Pricing.weights, weighted_totals. cbn [for_each].
  rewrite (add_category_ok _ _ _ _ E) by reflexivity. cbn [bind].
  rewrite (add_category_ok _ _ _ _ S) by reflexivity. cbn [bind].
  rewrite (add_category_ok _ _ _ _ G) by reflexivity. reflexivity.
Qed.

(** Closed form of the score of a non-empty KPI list. *)
Lemma esg_performance_of_cons (k : ESGKpi) (ks : list ESGKpi) :
  Pricing.esg_performance_of (k :: ks) =
    Ok (weighted_score (contributions "environmental" (k :: ks))
                       (contributions "social" (k :: ks))
                       (contributions "governance" (k :: ks))).
Proof.
  unfold Pricing.esg_performance_of, Pricing.category_scores_init.
  rewrite score_loop. cbn [bind app].
  rewrite weigh_loop. cbn [bind]. unfold weighted_score.
  destruct (weighted_totals _ _ _) as [ts tw]. cbn [fst snd].
  destruct (Qgtb tw 0) eqn:E; [|reflexivity].
  qprop. rewrite py_div_ok by lra. reflexivity.
Qed.

Lemma weighted_score_none : weighted_score [] [] [] == 50.
Proof. reflexivity. Qed.

(** The score of any KPI list, as a value. *)
Lemma esg_performance_of_value (kpis : list ESGKpi) :
  returns (Pricing.esg_performance_of kpis)
          (weighted_score (contributions "environmental" kpis)
                          (contributions "social" kpis)
                          (contributions "governance" kpis)).
Proof.
  destruct kpis as [|k ks].
  - simpl. symmetry. apply weighted_score_none.
  - rewrite esg_performance_of_cons. simpl. reflexivity.
Qed.

Lemma weighted_totals_bounds (E S G : list Q) :
  Forall (fun a => 0 <= a /\ a <= 100) E ->
  Forall (fun a => 0 <= a /\ a <= 100) S ->
  Forall (fun a => 0 <= a /\ a <= 100) G ->
  0 <= fst (weighted_totals E S G) /\
  fst (weighted_totals E S G) <= 100 * snd (weighted_totals E S G) /\
  0 <= snd (weighted_totals E S G).
Proof.
  intros HE HS HG. unfold weighted_totals.
  assert (step : forall acc l w,
             0 <= w -> Forall (fun a => 0 <= a /\ a <= 100) l ->
             0 <= fst acc /\ fst acc <= 100 * snd acc /\ 0 <= snd acc ->
             0 <= fst (add_category acc l w) /\
             fst (add_category acc l w) <= 100 * snd (add_category acc l w) /\
             0 <= snd (add_category acc l w)).
  { intros acc l w Hw Hl Hacc. destruct l as [|x l]; [exact Hacc|].
    destruct (mean_bounds (x :: l)) as [M0 M1]; [discriminate | exact Hl |].
    unfold add_category. cbn [fst snd]. destruct Hacc as (A0 & A1 & A2).
    repeat split; nra. }
  apply step; [lra | exact HG |].
  apply step; [lra | exact HS |].
  apply step; [lra | exact HE |].
  cbn [fst snd]. lra.
Qed.

Lemma weighted_score_bounds (E S G : list Q) :
  Forall (fun a => 0 <= a /\ a <= 100) E ->
  Forall (fun a => 0 <= a /\ a <= 100) S ->
  Forall (fun a => 0 <= a /\ a <= 100) G ->
  0 <= weighted_score E S G /\ weighted_score E S G <= 100.
Proof.
  intros HE HS HG.
  destruct (weighted_totals_bounds E S G HE HS HG) as (T0 & T1 & T2).
  unfold weighted_score. apply round2_bounds.
  - destruct (Qgtb _ 0) eqn:E0; qprop; [|lra].
    apply Qle_shift_div_l; lra.
  - destruct (Qgtb _ 0) eqn:E0; qprop; [|lra].
    apply Qle_shift_div_r; lra.
Qed.

(** The scorer never raises and its score lies in [0, 100]. *)
Lemma esg_performance_of_total (kpis : list ESGKpi) :
  exists v, Pricing.esg_performance_of kpis = Ok v /\ 0 <= v /\ v <= 100.
Proof.
  destruct kpis as [|k ks].
  - exists 50. split; [reflexivity|lra].
  - rewrite esg_performance_of_cons. eexists. split; [reflexivity|].
    apply weighted_score_bounds; apply contributions_bounds.
Qed.





End PerformanceScore.

(** ** Claims on the KPI achievement and the ESG performance score *)

Section PerformanceClaims.

Lemma score_kpi_excluded (kpi : ESGKpi) (cs : list (string * list Q)) :
  Pricing.achievement_of kpi = Ok None -> Pricing.score_kpi cs kpi = Ok cs.
Proof.
  intros H. unfold Pricing.score_kpi. now rewrite H.
Qed.

(** A KPI without achievement can be dropped from the list without
    changing the score. *)
Lemma esg_performance_of_excluded (kpi : ESGKpi) (l1 l2 : list ESGKpi) :
  Pricing.achievement_of kpi = Ok None ->
  same_result (Pricing.esg_performance_of (l1 ++ kpi :: l2))
              (Pricing.esg_performance_of (l1 ++ l2)).
Proof.
  intros H.
  pose proof (esg_performance_of_value (l1 ++ kpi :: l2)) as V1.
  pose proof (esg_performance_of_value (l1 ++ l2)) as V2.
  assert (C : forall c, contributions c (l1 ++ kpi :: l2) = contributions c (l1 ++ l2)).
  { intros c. rewrite !contributions_app, contributions_cons, H. reflexivity. }
  rewrite !C in V1.
  destruct (Pricing.esg_performance_of (l1 ++ kpi :: l2)) as [x|e1]; [|contradiction].
  destruct (Pricing.esg_performance_of (l1 ++ l2)) as [y|e2]; [|contradiction].
  simpl in *. now rewrite V1, V2.
Qed.










End PerformanceClaims.

(** ** Zero-valued KPI fields *)

Section ZeroValues.

Lemma risk_factor_falsy (kpi : ESGKpi) (rf : list Q) :
  falsy (target_value kpi) \/ falsy (current_value kpi) \/
  falsy (baseline_value kpi) ->
  Risk.risk_factor rf kpi = Ok rf.
Proof.
  unfold falsy, Risk.risk_factor.
  intros [[H|(x & H & Hx)]|[[H|(x & H & Hx)]|[H|(x & H & Hx)]]]; rewrite H;
    try apply nonzero_false in Hx; try rewrite Hx;
    destruct (target_value kpi) as [t|]; try reflexivity;
    destruct (current_value kpi) as [c|]; try reflexivity;
    try (destruct (baseline_value kpi) as [b|]; try reflexivity);
    try (destruct (nonzero t); reflexivity);
    destruct (nonzero t), (nonzero c); reflexivity.
Qed.

Lemma count_dnsh_falsy (kpi : ESGKpi) (acc : Z * Z) :
  falsy (target_value kpi) \/ falsy (current_value kpi) ->
  Sfdr.count_dnsh acc kpi = Ok acc.
Proof.
  unfold falsy, Sfdr.count_dnsh. destruct acc as [d n].
  intros [[H|(x & H & Hx)]|[H|(x & H & Hx)]]; rewrite H;
    try apply nonzero_false in Hx; try rewrite Hx;
    destruct (target_value kpi) as [t|]; try reflexivity;
    try (destruct (current_value kpi) as [c|]; reflexivity);
    destruct (nonzero t); reflexivity.
Qed.

Lemma count_dnsh_baseline (kpi : ESGKpi) (o : option Q) (acc : Z * Z) :
  Sfdr.count_dnsh acc (with_baseline kpi o) = Sfdr.count_dnsh acc kpi.
Proof. reflexivity. Qed.

Lemma esg_risk_of_excluded (kpi : ESGKpi) (l1 l2 : list ESGKpi) :
  (forall rf, Risk.risk_factor rf kpi = Ok rf) ->
  Risk.esg_risk_of (l1 ++ kpi :: l2) = Risk.esg_risk_of (l1 ++ l2).
Proof.
  intros H. unfold Risk.esg_risk_of.
  rewrite (for_each_skip Risk.risk_factor kpi l1 l2 [] H).
  destruct l1 as [|x l1]; [|reflexivity].
  destruct l2 as [|y l2]; reflexivity.
Qed.

Lemma sustainable_investment_of_excluded (kpi : ESGKpi) (l1 l2 : list ESGKpi) :
  (forall acc, Sfdr.count_dnsh acc kpi = Ok acc) ->
  Sfdr.sustainable_investment_of (l1 ++ kpi :: l2) =
  Sfdr.sustainable_investment_of (l1 ++ l2).
Proof.
  intros H. unfold Sfdr.sustainable_investment_of.
  rewrite (for_each_skip Sfdr.count_dnsh kpi l1 l2 (0, 0)%Z H).
  destruct l1 as [|x l1]; [|reflexivity].
  destruct l2 as [|y l2]; reflexivity.
Qed.

(** C9, amended: a KPI whose target, current or baseline value is zero
    is left out by the ESG performance scorer and by the ESG risk scorer
    exactly like a KPI where that value is missing; the
    sustainable-investment calculator leaves out a KPI whose target or
    current value is zero or missing, and never reads the baseline. *)
Theorem zero_valued_kpi_excluded (kpi : ESGKpi) :
  (falsy (target_value kpi) \/ falsy (current_value kpi) \/
   falsy (baseline_value kpi) ->
   (forall cs, Pricing.score_kpi cs kpi = Ok cs) /\
   (forall l1 l2,
       same_result (Pricing.esg_performance_of (l1 ++ kpi :: l2))
                   (Pricing.esg_performance_of (l1 ++ l2))) /\
   (forall rf, Risk.risk_factor rf kpi = Ok rf) /\
   (forall l1 l2,
       Risk.esg_risk_of (l1 ++ kpi :: l2) = Risk.esg_risk_of (l1 ++ l2))) /\
  (falsy (target_value kpi) \/ falsy (current_value kpi) ->
   (forall acc, Sfdr.count_dnsh acc kpi = Ok acc) /\
   (forall l1 l2,
       Sfdr.sustainable_investment_of (l1 ++ kpi :: l2) =
       Sfdr.sustainable_investment_of (l1 ++ l2))) /\
  (forall o acc, Sfdr.count_dnsh acc (with_baseline kpi o) = Sfdr.count_dnsh acc kpi).
Proof.
  split; [|split].
  - intros H.
    pose proof (achievement_of_falsy kpi H) as N.
    split; [intros cs; now apply score_kpi_excluded|].
    split; [intros l1 l2; now apply esg_performance_of_excluded|].
    split; [intros rf; now apply risk_factor_falsy|].
    intros l1 l2. apply esg_risk_of_excluded.
    intros rf. now apply risk_factor_falsy.
  - intros H. split; [intros acc; now apply count_dnsh_falsy|].
    intros l1 l2. apply sustainable_investment_of_excluded.
    intros acc. now apply count_dnsh_falsy.
  - intros o acc. apply count_dnsh_baseline.
Qed.

Lemma zero_valued_kpi_excluded_witness :
  ((forall cs, Pricing.score_kpi cs (kpi_of "social" 10 5 0) = Ok cs) /\
   (forall l1 l2,
       same_result
         (Pricing.esg_performance_of (l1 ++ kpi_of "social" 10 5 0 :: l2))
         (Pricing.esg_performance_of (l1 ++ l2))) /\
   (forall rf, Risk.risk_factor rf (kpi_of "social" 10 5 0) = Ok rf) /\
   (forall l1 l2,
       Risk.esg_risk_of (l1 ++ kpi_of "social" 10 5 0 :: l2) =
       Risk.esg_risk_of (l1 ++ l2))) /\
  ((forall acc, Sfdr.count_dnsh acc (kpi_of "social" 10 0 2) = Ok acc) /\
   (forall l1 l2,
       Sfdr.sustainable_investment_of (l1 ++ kpi_of "social" 10 0 2 :: l2) =
       Sfdr.sustainable_investment_of (l1 ++ l2))).
Proof.
  split.
  - apply (proj1 (zero_valued_kpi_excluded (kpi_of "social" 10 5 0))).
    right. right. right. exists 0. split; reflexivity.
  - apply (proj1 (proj2 (zero_valued_kpi_excluded (kpi_of "social" 10 0 2)))).
    right. right. exists 0. split; reflexivity.
Defined.

(** C9 as stated fails on the sustainable-investment calculator: a KPI
    with baseline zero (target 10, current 10) is counted; alone, it takes
    the percentage of its loan from 0 to 100. *)
Lemma zero_baseline_counted_by_sfdr :
  ~ (forall kpi : ESGKpi,
        (exists x, baseline_value kpi = Some x /\ x == 0) ->
        forall acc, Sfdr.count_dnsh acc kpi = Ok acc).
Proof.
  intros H.
  assert (B : exists x, baseline_value (kpi_of "social" 10 10 0) = Some x /\ x == 0).
  { exists 0. split; reflexivity. }
  specialize (H (kpi_of "social" 10 10 0) B (0, 0)%Z).
  vm_compute in H. discriminate.
Qed.

Example zero_baseline_percentage :
  Sfdr.calculate_sustainable_investment_percentage
    (db_of [kpi_of "social" 10 10 0]) 1 = Ok 100 /\
  Sfdr.calculate_sustainable_investment_percentage (db_of []) 1 = Ok 0.
Proof. split; reflexivity. Qed.

End ZeroValues.

(** ** Division by zero *)

Section Division.

(** The guarded ratio computations never raise. *)
Lemma risk_factor_total (kpi : ESGKpi) (rf : list Q) :
  exists rf', Risk.risk_factor rf kpi = Ok rf'.
Proof.
  unfold Risk.risk_factor.
  destruct (target_value kpi) as [t|]; [|now eexists].
  destruct (current_value kpi) as [c|]; [|now eexists].
  destruct (baseline_value kpi) as [b|]; [|now eexists].
  destruct (nonzero t && nonzero c && nonzero b); [|now eexists].
  destruct (Qgtb (Qabs (t - b)) 0) eqn:E; [|now eexists].
  qprop. rewrite py_div_ok by lra. now eexists.
Qed.

Lemma risk_factor_loop_total (kpis : list ESGKpi) (rf : list Q) :
  exists rf', for_each Risk.risk_factor kpis rf = Ok rf'.
Proof.
  revert rf. induction kpis as [|k ks IH]; intros rf; simpl.
  - now eexists.
  - destruct (risk_factor_total k rf) as (rf' & H). rewrite H. apply IH.
Qed.

Lemma esg_risk_of_total (kpis : list ESGKpi) :
  exists v, Risk.esg_risk_of kpis = Ok v.
Proof.
  unfold Risk.esg_risk_of. destruct kpis as [|k ks]; [now eexists|].
  destruct (risk_factor_loop_total (k :: ks) []) as (rf & H). rewrite H.
  destruct rf as [|x rf]; [now eexists|].
  cbn [bind]. rewrite mean_ok. now eexists.
Qed.

Lemma count_dnsh_loop (kpis : list ESGKpi) (d n : Z) :
  (0 <= n)%Z ->
  exists d' n', for_each Sfdr.count_dnsh kpis (d, n) = Ok (d', n') /\ (0 <= n')%Z.
Proof.
  revert d n. induction kpis as [|k ks IH]; intros d n Hn; simpl.
  - now exists d, n.
  - destruct (target_value k) as [t|]; [|now apply IH].
    destruct (current_value k) as [c|]; [|now apply IH].
    destruct (nonzero t && nonzero c); [|now apply IH].
    destruct (Qgeb c (t * (8 # 10))); apply IH; lia.
Qed.

Lemma sustainable_investment_of_total (kpis : list ESGKpi) :
  exists v, Sfdr.sustainable_investment_of kpis = Ok v.
Proof.
  unfold Sfdr.sustainable_investment_of. destruct kpis as [|k ks]; [now eexists|].
  destruct (count_dnsh_loop (k :: ks) 0 0) as (d & n & H & Hn); [lia|].
  rewrite H. cbn [bind].
  destruct (n =? 0)%Z eqn:E; [now eexists|].
  apply Z.eqb_neq in E.
  rewrite py_div_ok.
  - cbn [bind]. repeat (destruct (Qgeb _ _); [now eexists|]). now eexists.
  - intros Hz. apply E. apply inject_Z_injective. exact Hz.
Qed.

(** The breach distance is not guarded: one covenant with both values
    set and threshold zero makes the covenant loop raise. *)
Lemma breach_indicator_raises (covenant : Covenant) (acc : list Q) :
  (exists acc', Risk.breach_indicator acc covenant = Ok acc') \/
  Risk.breach_indicator acc covenant = Raise ZeroDivisionError.
Proof.
  unfold Risk.breach_indicator.
  destruct (cov_current_value covenant) as [c|]; [|left; now eexists].
  destruct (threshold covenant) as [t|]; [|left; now eexists].
  unfold py_div.
  destruct (Qeq_bool t 0).
  - right. repeat (destruct (in_strings _ _)); reflexivity.
  - left. repeat (destruct (in_strings _ _)); now eexists.
Qed.

Lemma breach_indicator_zero (covenant : Covenant) (acc : list Q) (c t : Q) :
  cov_current_value covenant = Some c -> threshold covenant = Some t -> t == 0 ->
  Risk.breach_indicator acc covenant = Raise ZeroDivisionError.
Proof.
  intros Hc Ht Hz. unfold Risk.breach_indicator. rewrite Hc, Ht.
  rewrite !(py_div_zero _ t Hz).
  repeat (destruct (in_strings _ _)); reflexivity.
Qed.

Lemma covenant_breach_zero_threshold (covenants : list Covenant) :
  (exists covenant c t,
      In covenant covenants /\ cov_current_value covenant = Some c /\
      threshold covenant = Some t /\ t == 0) ->
  Risk.covenant_breach_probability_of covenants = Raise ZeroDivisionError.
Proof.
  intros (cov & c & t & Hin & Hc & Ht & Hz).
  assert (L : forall acc, for_each Risk.breach_indicator covenants acc =
                          Raise ZeroDivisionError).
  { induction covenants as [|x xs IH]; [contradiction|]. intros acc.
    cbn [for_each]. destruct Hin as [->|Hin].
    - now rewrite (breach_indicator_zero cov acc c t).
    - destruct (breach_indicator_raises x acc) as [(acc' & H)|H]; rewrite H.
      + cbn [bind]. now apply IH.
      + reflexivity. }
  unfold Risk.covenant_breach_probability_of.
  destruct covenants as [|x xs]; [contradiction|].
  now rewrite L.
Qed.

(** C1: the claim fails on the covenant ratio.  For a loan with one
    "minimum_ebitda" covenant in status "compliant" with threshold 0.0 and
    current value 1.0, [calculate_covenant_breach_probability] raises
    [ZeroDivisionError], and [create_risk_assessment] with it; the KPI
    achievement and the DNSH compliance rate are guarded. *)
Theorem covenant_breach_probability_raises :
  Risk.calculate_covenant_breach_probability
    (db_with_covenants [covenant_of "minimum_ebitda" 0 1]) 1 =
    Raise ZeroDivisionError /\
  Risk.create_risk_assessment
    (db_with_covenants [covenant_of "minimum_ebitda" 0 1]) 0%Z 1 =
    Raise ZeroDivisionError.
Proof. split; reflexivity. Qed.

End Division.

(** ** Pricing update *)

Section PricingUpdate.


Lemma or_default_truthy (x d : Q) : ~ x == 0 -> or_default (Some x) d = x.
Proof.
  intros Hx. simpl. apply nonzero_true in Hx. now rewrite Hx.
Qed.

Lemma find_update (id : Z) (f : Loan -> Loan) (ls : list Loan) :
  (forall l, loan_id (f l) = loan_id l) ->
  find (fun l => (loan_id l =? id)%Z) (update_first id f ls) =
  option_map f (find (fun l => (loan_id l =? id)%Z) ls).
Proof.
  intros Hf. induction ls as [|l ls IH]; [reflexivity|]. simpl.
  destruct (loan_id l =? id)%Z eqn:E; simpl.
  - now rewrite Hf, E.
  - now rewrite E.
Qed.



End PricingUpdate.

(** ** Breach-date projection *)

Section BreachDate.

Variable now : datetime.








Lemma maximum_not_considered (cov : Covenant) :
  in_strings (covenant_type cov) Risk.maximum_types = true -> considered cov = None.
Proof.
  intros H. unfold considered.
  destruct (cov_current_value cov) as [c|]; [|reflexivity].
  destruct (threshold cov) as [t|]; [|reflexivity].
  assert (N : in_strings (covenant_type cov) Risk.minimum_types = false).
  { unfold in_strings, Risk.maximum_types in H. cbn [existsb] in H.
    apply orb_true_iff in H. destruct H as [H|H].
    - apply String.eqb_eq in H. now rewrite H.
    - apply orb_true_iff in H. destruct H as [H|H]; [|discriminate].
      apply String.eqb_eq in H. now rewrite H. }
  now rewrite N.
Qed.

Lemma spec_projected_dates_none (covs : list Covenant) :
  (forall cov, In cov covs -> considered cov = None) ->
  spec_projected_dates now covs = Ok [].
Proof.
  induction covs as [|cov rest IH]; intros H; [reflexivity|].
  cbn [spec_projected_dates]. rewrite (H cov (or_introl eq_refl)).
  apply IH. intros x Hx. apply H. now right.
Qed.

End BreachDate.

Lemma query_covenants_spec (db : Db) (id : Z) (cov : Covenant) :
  In cov (query_covenants db id) <->
  In cov (covenants db) /\ cov_loan_id cov = id /\
  exists s, cov_status cov = Some s /\ s <> "terminated"%string.
Proof.
  unfold query_covenants. rewrite filter_In, andb_true_iff, Z.eqb_eq.
  unfold str_isnt. destruct (cov_status cov) as [s|].
  - rewrite negb_true_iff, String.eqb_neq. split.
    + intros (H1 & H2 & H3). repeat split; try assumption. now exists s.
    + intros (H1 & H2 & s' & [= <-] & H3). now repeat split.
  - split.
    + intros (_ & _ & H). discriminate.
    + intros (_ & _ & s & H & _). discriminate.
Qed.


Example predict_breach_date_earliest :
  Risk.predict_breach_date
    (db_with_covenants [ covenant_of "minimum_ebitda" 100 105;
                         covenant_of "minimum_equity" 100 102 ]) 0%Z 1 =
    Ok (Some (timedelta_days 12)).
Proof. reflexivity. Qed.

(** C8: the claim is right about which covenants are projected, but the
    projection divides by [threshold * 0.05] without a guard.  For a loan
    with one "minimum_ebitda" covenant in status "compliant" with
    threshold 0.0 and current value -1.0 the covenant qualifies
    (-1.0 < 0.0 * 1.1) and [predict_breach_date] raises
    [ZeroDivisionError] instead of returning a date or no date;
    [create_risk_assessment] raises with it. *)
Theorem predict_breach_date_raises :
  Risk.predict_breach_date
    (db_with_covenants [ covenant_of "minimum_ebitda" 0 (-1) ]) 0%Z 1 =
    Raise ZeroDivisionError /\
  Risk.create_risk_assessment
    (db_with_covenants [ covenant_of "minimum_ebitda" 0 (-1) ]) 0%Z 1 =
    Raise ZeroDivisionError.
Proof. split; reflexivity. Qed.

(** ** Risk trend *)

Section Trend.

Lemma insert_desc_front {A : Type} (key : A -> Z) (x : A) (l : list A) :
  (forall y, In y l -> (key y < key x)%Z) ->
  fold_right (insert_desc key) [x] l = x :: fold_right (insert_desc key) [] l.
Proof.
  induction l as [|y l IH]; intros H; [reflexivity|].
  cbn [fold_right]. rewrite IH by (intros z Hz; apply H; now right).
  cbn [insert_desc].
  assert (Hy : (key y < key x)%Z) by (apply H; now left).
  apply Z.leb_gt in Hy. now rewrite Hy.
Qed.

(** A row later than all the others comes first in the descending order. *)
Lemma order_by_desc_latest {A : Type} (key : A -> Z) (x : A) (l : list A) :
  (forall y, In y l -> (key y < key x)%Z) ->
  order_by_desc key (l ++ [x]) = x :: order_by_desc key l.
Proof.
  intros H. unfold order_by_desc. rewrite fold_right_app. cbn [fold_right insert_desc].
  now apply insert_desc_front.
Qed.

Lemma trend_after_insert (db db' : Db) (id : Z) (row : RiskAssessment) :
  risk_assessments db' = risk_assessments db ++ [row] ->
  ra_loan_id row = id ->
  (forall a, In a (assessments_of db id) ->
             (assessment_date a < assessment_date row)%Z) ->
  Risk._calculate_risk_trend db' id =
    match query_recent_assessments db id with
    | [] => Risk.stable
    | previous :: _ => compare_scores (ra_risk_score row) (ra_risk_score previous)
    end.
Proof.
  intros Hrows Hid Hlate.
  unfold Risk._calculate_risk_trend, query_recent_assessments.
  rewrite Hrows, filter_app. cbn [filter]. rewrite Hid, Z.eqb_refl.
  fold (assessments_of db id).
  rewrite order_by_desc_latest by exact Hlate.
  destruct (order_by_desc assessment_date (assessments_of db id)) as [|p l];
    [reflexivity|].
  cbn [firstn]. reflexivity.
Qed.

(** What [create_risk_assessment] stores and reports. *)
Lemma create_risk_assessment_row (db db' : Db) (now : datetime) (id : Z)
  (rep : Risk.RiskReport) :
  Risk.create_risk_assessment db now id = Ok (db', rep) ->
  exists row,
    risk_assessments db' = risk_assessments db ++ [row] /\
    ra_loan_id row = id /\ assessment_date row = now /\
    ra_risk_score row = Risk.overall_risk_score rep /\
    Risk.calculate_comprehensive_risk_score db now id =
      Ok (Risk.overall_risk_score rep) /\
    Risk.trend rep = Risk._calculate_risk_trend db' id.
Proof.
  unfold Risk.create_risk_assessment.
  destruct (query_loan db id) as [loan|]; [|discriminate].
  destruct (Risk.calculate_comprehensive_risk_score db now id) as [overall|];
    [|discriminate]. cbn [bind].
  destruct (Risk.calculate_covenant_breach_probability db id); [|discriminate].
  cbn [bind].
  destruct (Risk.calculate_esg_risk_score db id); [|discriminate]. cbn [bind].
  destruct (Risk.calculate_financial_risk_score db now id); [|discriminate].
  cbn [bind].
  destruct (Risk.predict_breach_date db now id); [|discriminate]. cbn [bind].
  destruct (Risk.generate_risk_factors db now id); [|discriminate]. cbn [bind].
  destruct (Risk.generate_recommendations db id overall); [|discriminate].
  cbn [bind].
  destruct (dict_get Risk.risk_categories (Risk.categorize_risk overall));
    [|discriminate]. cbn [bind].
  intros [= <- <-]. eexists. cbn.
  repeat split; reflexivity.
Qed.

Lemma compare_scores_cases (recent previous : Q) :
  (previous + 5 < recent -> compare_scores recent previous = Risk.increasing) /\
  (recent < previous - 5 -> compare_scores recent previous = Risk.decreasing) /\
  (previous - 5 <= recent -> recent <= previous + 5 ->
   compare_scores recent previous = Risk.stable).
Proof.
  unfold compare_scores. repeat split; intros;
    repeat (qcase; try reflexivity; try lra).
Qed.

(** C2, amended: the assessment is stored before the trend is read, so
    the trend reported by [create_risk_assessment] is "stable" when the
    loan has no earlier assessment; with an earlier assessment (all dated
    before now) it compares the score just stored with the score of the
    latest earlier one, in floating point: at least 5.01 points higher
    is "increasing", at least 5.01 points lower is "decreasing", and a
    difference of at most 4.99 points is "stable".  Scores are rounded
    to two decimals; for two scores exactly 5.00 apart the outcome
    depends on their binary representation and is left open. *)
Theorem risk_trend_after_assessment (db db' : Db) (now : datetime) (id : Z)
  (rep : Risk.RiskReport) :
  Risk.create_risk_assessment db now id = Ok (db', rep) ->
  (forall a, In a (assessments_of db id) -> (assessment_date a < now)%Z) ->
  (assessments_of db id = [] -> Risk.trend rep = Risk.stable) /\
  (forall previous rest,
      query_recent_assessments db id = previous :: rest ->
      (ra_risk_score previous + 5 + (1 # 100) <= Risk.overall_risk_score rep ->
       Risk.trend rep = Risk.increasing) /\
      (Risk.overall_risk_score rep <= ra_risk_score previous - 5 - (1 # 100) ->
       Risk.trend rep = Risk.decreasing) /\
      (ra_risk_score previous - 5 + (1 # 100) <= Risk.overall_risk_score rep ->
       Risk.overall_risk_score rep <= ra_risk_score previous + 5 - (1 # 100) ->
       Risk.trend rep = Risk.stable)).
Proof.
  intros Hc Hlate.
  destruct (create_risk_assessment_row db db' now id rep Hc)
    as (row & Hrows & Hid & Hdate & Hscore & _ & Htrend).
  rewrite Htrend, (trend_after_insert db db' id row Hrows Hid)
    by (rewrite Hdate; exact Hlate).
  rewrite Hscore. split.
  - intros He. unfold query_recent_assessments. fold (assessments_of db id).
    now rewrite He.
  - intros previous rest Hq. rewrite Hq.
    destruct (compare_scores_cases (Risk.overall_risk_score rep)
                (ra_risk_score previous)) as (Hi & Hd & Hs).
    split; [|split].
    + intros H. apply Hi. lra.
    + intros H. apply Hd. lra.
    + intros H1 H2. apply Hs; lra.
Qed.

Lemma risk_trend_after_assessment_witness :
  exists (db' : Db) (rep : Risk.RiskReport),
    Risk.create_risk_assessment
      (db_with_assessments [assessment_row 0%Z 90]) 1000%Z 1 = Ok (db', rep) /\
    Risk.overall_risk_score rep == 21 /\
    Risk.trend rep = Risk.decreasing.
Proof.
  destruct (Risk.create_risk_assessment
              (db_with_assessments [assessment_row 0%Z 90]) 1000%Z 1)
    as [[db' rep]|e] eqn:E; [|vm_compute in E; discriminate].
  exists db', rep. split; [reflexivity|].
  assert (S : Risk.overall_risk_score rep == 21).
  { vm_compute in E. injection E as _ <-. reflexivity. }
  split; [exact S|].
  assert (L : forall a, In a (assessments_of (db_with_assessments
                                               [assessment_row 0%Z 90]) 1) ->
                        (assessment_date a < 1000)%Z).
  { intros a [<-|[]]. reflexivity. }
  apply (proj1 (proj2 (proj2 (risk_trend_after_assessment _ _ _ _ _ E L)
                         (assessment_row 0%Z 90) [] eq_refl))).
  rewrite S. vm_compute. discriminate.
Defined.

(** C2 as stated fails with exactly one earlier assessment (fewer than
    two): earlier score 90, new score 21, reported trend "decreasing". *)
Lemma risk_trend_one_prior_row :
  ~ (forall (db db' : Db) (now : datetime) (id : Z) (rep : Risk.RiskReport),
        Risk.create_risk_assessment db now id = Ok (db', rep) ->
        (length (assessments_of db id) < 2)%nat ->
        Risk.trend rep = Risk.stable).
Proof.
  intros H.
  destruct (Risk.create_risk_assessment
              (db_with_assessments [assessment_row 0%Z 90]) 1000%Z 1)
    as [[db' rep]|e] eqn:E; [|vm_compute in E; discriminate].
  assert (L : (length (assessments_of (db_with_assessments
                                         [assessment_row 0%Z 90]) 1) < 2)%nat).
  { simpl. lia. }
  specialize (H _ _ _ _ _ E L).
  vm_compute in E. injection E as _ <-. discriminate.
Qed.

End Trend.

(** ** Worked scenarios *)

Section Scenarios.

(** One environmental KPI with baseline 100, target 30 and current 65:
    achievement 50, score 50, tier "poor", adjustment +0.25. *)
Example scenario_single_kpi :
  returns (Pricing.calculate_esg_performance_score
             (db_of [kpi_of "environmental" 30 65 100]) 1) 50 /\
  Pricing.determine_pricing_tier 50 = "poor"%string /\
  returns (Pricing.calculate_margin_adjustment 50) (1 # 4).
Proof. repeat split. Qed.

(** A "minimum_ebitda" covenant with threshold 100 and current value 95
    is already breached: probability 100. *)
Example scenario_breached_covenant :
  returns (Risk.calculate_covenant_breach_probability
             (db_with_covenants [covenant_of "minimum_ebitda" 100 95]) 1) 100.
Proof. reflexivity. Qed.

(** No covenants, KPIs or verifications and status "active": the
    composite score is 21, category "low". *)
Example scenario_empty_loan :
  returns (Risk.calculate_comprehensive_risk_score (db_of []) 0%Z 1) 21 /\
  Risk.categorize_risk 21 = "low"%string.
Proof. repeat split. Qed.

End Scenarios.

(** * Further properties of the engines *)

(** ** Bounds of the risk sub-scores *)

Section SubScores.

Lemma round2_ge (x : Q) (n : Z) : inject_Z n <= x -> inject_Z n <= round2 x.
Proof.
  intros H.
  assert (L : (n * 100 <= round_half_even (x * 100))%Z).
  { apply round_half_even_lower. rewrite inject_Z_mult.
    change (inject_Z 100) with 100. lra. }
  unfold round2, Qle. simpl. lia.
Qed.

Lemma round2_le (x : Q) (n : Z) : x <= inject_Z n -> round2 x <= inject_Z n.
Proof.
  intros H.
  assert (U : (round_half_even (x * 100) <= n * 100)%Z).
  { apply round_half_even_upper. rewrite inject_Z_mult.
    change (inject_Z 100) with 100. lra. }
  unfold round2, Qle. simpl. lia.
Qed.

Lemma sum_between (lo hi : Q) (l : list Q) :
  Forall (fun a => lo <= a /\ a <= hi) l ->
  lo * len l <= sum l /\ sum l <= hi * len l.
Proof.
  induction 1 as [|x l [Hx0 Hx1] _ [IH0 IH1]].
  - unfold sum, len. cbn [fold_left length].
    change (inject_Z (Z.of_nat 0)) with 0. lra.
  - rewrite sum_cons, len_cons. lra.
Qed.

Lemma mean_between (lo hi : Q) (l : list Q) :
  l <> [] -> Forall (fun a => lo <= a /\ a <= hi) l ->
  lo <= mean l /\ mean l <= hi.
Proof.
  intros Hne Hall. destruct l as [|x l]; [congruence|].
  pose proof (sum_between lo hi (x :: l) Hall) as [H0 H1].
  pose proof (len_pos x l) as Hlen.
  unfold mean. split.
  - apply Qle_shift_div_l; lra.
  - apply Qle_shift_div_r; lra.
Qed.

(** Every breach indicator is one of 1.0, 0.8, 0.5 and 0.1. *)
Lemma breach_indicator_range (cov : Covenant) (acc acc' : list Q) :
  Forall (fun a => 1 # 10 <= a /\ a <= 1) acc ->
  Risk.breach_indicator acc cov = Ok acc' ->
  Forall (fun a => 1 # 10 <= a /\ a <= 1) acc'.
Proof.
  intros Hacc. unfold Risk.breach_indicator.
  destruct (cov_current_value cov) as [c|]; [|now intros [= <-]].
  destruct (threshold cov) as [t|]; [|now intros [= <-]].
  destruct (if in_strings _ _ then _ else _) as [d|e]; [|discriminate].
  cbn [bind]. intros [= <-]. apply Forall_app. split; [exact Hacc|].
  constructor; [|constructor].
  repeat (destruct (Qltb d _)); split; lra.
Qed.

Lemma breach_loop_range (covs : list Covenant) (acc acc' : list Q) :
  Forall (fun a => 1 # 10 <= a /\ a <= 1) acc ->
  for_each Risk.breach_indicator covs acc = Ok acc' ->
  Forall (fun a => 1 # 10 <= a /\ a <= 1) acc'.
Proof.
  revert acc. induction covs as [|cov rest IH]; intros acc Hacc; cbn [for_each].
  - now intros [= <-].
  - destruct (Risk.breach_indicator acc cov) as [acc1|e] eqn:E; [|discriminate].
    cbn [bind]. apply IH. exact (breach_indicator_range cov acc acc1 Hacc E).
Qed.

Lemma breach_indicator_returns (cov : Covenant) (acc : list Q) :
  ~ zero_threshold cov -> exists acc', Risk.breach_indicator acc cov = Ok acc'.
Proof.
  intros Hz. unfold Risk.breach_indicator.
  destruct (cov_current_value cov) as [c|] eqn:Ec; [|now eexists].
  destruct (threshold cov) as [t|] eqn:Et; [|now eexists].
  assert (Ht : ~ t == 0).
  { intros H. apply Hz. now exists c, t. }
  rewrite !(py_div_ok _ t Ht).
  repeat (destruct (in_strings _ _)); cbn [bind]; now eexists.
Qed.

Lemma breach_loop_returns (covs : list Covenant) (acc : list Q) :
  (forall cov, In cov covs -> ~ zero_threshold cov) ->
  exists acc', for_each Risk.breach_indicator covs acc = Ok acc'.
Proof.
  revert acc. induction covs as [|cov rest IH]; intros acc H; cbn [for_each].
  - now eexists.
  - destruct (breach_indicator_returns cov acc) as (acc1 & E).
    { apply H. now left. }
    rewrite E. cbn [bind]. apply IH. intros x Hx. apply H. now right.
Qed.

(** The covenant score, when the call returns: 0 or between 10 and 100. *)
Lemma covenant_breach_probability_range (covs : list Covenant) (v : Q) :
  Risk.covenant_breach_probability_of covs = Ok v ->
  v == 0 \/ (10 <= v /\ v <= 100).
Proof.
  unfold Risk.covenant_breach_probability_of.
  destruct covs as [|cov rest]; [intros [= <-]; now left|].
  destruct (for_each Risk.breach_indicator (cov :: rest) []) as [ind|e] eqn:E;
    [|discriminate].
  cbn [bind]. destruct ind as [|x ind]; [intros [= <-]; now left|].
  rewrite mean_ok. cbn [bind]. intros [= <-]. right.
  pose proof (breach_loop_range _ _ _ (Forall_nil _) E) as R.
  destruct (mean_between (1 # 10) 1 (x :: ind)) as [M0 M1];
    [discriminate | exact R |].
  split.
  - apply (round2_ge _ 10). change (inject_Z 10) with 10. lra.
  - apply (round2_le _ 100). change (inject_Z 100) with 100. lra.
Qed.

Lemma covenant_breach_probability_returns (covs : list Covenant) :
  (forall cov, In cov covs -> ~ zero_threshold cov) ->
  exists v, Risk.covenant_breach_probability_of covs = Ok v.
Proof.
  intros H. unfold Risk.covenant_breach_probability_of.
  destruct covs as [|cov rest]; [now eexists|].
  destruct (breach_loop_returns (cov :: rest) [] H) as (ind & E). rewrite E.
  cbn [bind]. destruct ind as [|x ind]; [now eexists|].
  rewrite mean_ok. now eexists.
Qed.

(** X1: [calculate_covenant_breach_probability] returns exactly when no
    non-terminated covenant of the loan has both values set and threshold
    zero; otherwise it raises [ZeroDivisionError]; a returned probability
    is 0 or lies between 10 and 100. *)
Theorem covenant_breach_probability_outcome (db : Db) (id : Z) :
  ((forall cov, In cov (query_covenants db id) -> ~ zero_threshold cov) ->
   exists v, Risk.calculate_covenant_breach_probability db id = Ok v /\
             (v == 0 \/ (10 <= v /\ v <= 100))) /\
  ((exists cov, In cov (query_covenants db id) /\ zero_threshold cov) ->
   Risk.calculate_covenant_breach_probability db id = Raise ZeroDivisionError).
Proof.
  unfold Risk.calculate_covenant_breach_probability. split.
  - intros H. destruct (covenant_breach_probability_returns _ H) as (v & E).
    exists v. split; [exact E|]. exact (covenant_breach_probability_range _ v E).
  - intros (cov & Hin & c & t & Hc & Ht & Hz).
    apply covenant_breach_zero_threshold. now exists cov, c, t.
Qed.

Lemma covenant_breach_probability_outcome_witness :
  (exists v,
      Risk.calculate_covenant_breach_probability
        (db_with_covenants [covenant_of "maximum_leverage" 4 3]) 1 = Ok v /\
      (v == 0 \/ (10 <= v /\ v <= 100))) /\
  Risk.calculate_covenant_breach_probability
    (db_with_covenants [covenant_of "maximum_leverage" 0 3]) 1 =
    Raise ZeroDivisionError.
Proof.
  split.
  - apply (proj1 (covenant_breach_probability_outcome
                    (db_with_covenants [covenant_of "maximum_leverage" 4 3]) 1)).
    intros cov [<-|[]] (c & t & Hc & Ht & Hz).
    injection Ht as <-. vm_compute in Hz. discriminate.
  - apply (proj2 (covenant_breach_probability_outcome
                    (db_with_covenants [covenant_of "maximum_leverage" 0 3]) 1)).
    exists (covenant_of "maximum_leverage" 0 3). split; [now left|].
    exists 3, 0. repeat split; reflexivity.
Defined.

End SubScores.

(** ** Direction of the covenant thresholds *)

Section Direction.

Lemma div_lt_pos (x t k : Q) : 0 < t -> (x / t < k <-> x < k * t).
Proof.
  intros Ht. assert (E : x / t * t == x) by (field; lra).
  set (q := x / t) in *. split; intros H; nra.
Qed.

Lemma div_lt_neg (x t k : Q) : t < 0 -> (x / t < k <-> k * t < x).
Proof.
  intros Ht. assert (E : x / t * t == x) by (field; lra).
  set (q := x / t) in *. split; intros H; nra.
Qed.

(** The indicator that the covenant loop appends for a distance. *)
Lemma breach_indicator_distance (cov : Covenant) (acc : list Q) (c t : Q) :
  cov_current_value cov = Some c -> threshold cov = Some t -> ~ t == 0 ->
  Risk.breach_indicator acc cov =
    Ok (acc ++ [indicator_of (breach_distance cov c t)]).
Proof.
  intros Hc Ht Hz. unfold Risk.breach_indicator, breach_distance, indicator_of.
  rewrite Hc, Ht. rewrite !(py_div_ok _ t Hz).
  repeat (destruct (in_strings _ _)); reflexivity.
Qed.

(** X2: with a positive threshold a covenant of a "maximum" type counts
    as breached (indicator 1.0) exactly when its current value is above
    the threshold and as low risk (0.1) exactly when it is at most 80% of
    it; any other covenant counts as breached exactly when its current
    value is below the threshold and as low risk exactly when it is at
    least 120% of it.  With a negative threshold the test is reversed: a
    covenant of another than a "maximum" type counts as breached exactly
    when its current value is above the threshold. *)
Theorem breach_indicator_direction (cov : Covenant) (acc : list Q) (c t : Q) :
  cov_current_value cov = Some c -> threshold cov = Some t -> ~ t == 0 ->
  exists v,
    Risk.breach_indicator acc cov = Ok (acc ++ [v]) /\
    (in_strings (covenant_type cov) Risk.maximum_types = true -> 0 < t ->
     (v == 1 <-> t < c) /\ (v == 1 # 10 <-> c <= (8 # 10) * t)) /\
    (in_strings (covenant_type cov) Risk.maximum_types = false -> 0 < t ->
     (v == 1 <-> c < t) /\ (v == 1 # 10 <-> (12 # 10) * t <= c)) /\
    (in_strings (covenant_type cov) Risk.maximum_types = false -> t < 0 ->
     (v == 1 <-> t < c)).
Proof.
  intros Hc Ht Hz. exists (indicator_of (breach_distance cov c t)).
  split; [now apply breach_indicator_distance|].
  unfold breach_distance, indicator_of.
  assert (Hmin : in_strings (covenant_type cov) Risk.maximum_types = true ->
                 in_strings (covenant_type cov) Risk.minimum_types = false).
  { intros H. unfold in_strings, Risk.maximum_types in H. cbn [existsb] in H.
    apply orb_true_iff in H. destruct H as [H|H].
    - apply String.eqb_eq in H. now rewrite H.
    - apply orb_true_iff in H. destruct H as [H|H]; [|discriminate].
      apply String.eqb_eq in H. now rewrite H. }
  split; [|split].
  - intros Hmax Hpos. rewrite (Hmin Hmax), Hmax.
    pose proof (div_lt_pos (t - c) t 0 Hpos) as D0.
    pose proof (div_lt_pos (t - c) t (1 # 10) Hpos) as D1.
    pose proof (div_lt_pos (t - c) t (2 # 10) Hpos) as D2.
    set (d := (t - c) / t) in *.
    destruct (Qltb d 0) eqn:E0; [|destruct (Qltb d (1 # 10)) eqn:E1;
      [|destruct (Qltb d (2 # 10)) eqn:E2]]; qprop;
      (split; split; intros H; try lra; try (exfalso; revert H; vm_compute;
                                             discriminate)).
  - intros Hmax Hpos. rewrite Hmax.
    assert (Hd : (if in_strings (covenant_type cov) Risk.minimum_types
                  then (c - t) / t else (c - t) / t) = (c - t) / t)
      by (destruct (in_strings (covenant_type cov) Risk.minimum_types); reflexivity).
    rewrite Hd.
    pose proof (div_lt_pos (c - t) t 0 Hpos) as D0.
    pose proof (div_lt_pos (c - t) t (1 # 10) Hpos) as D1.
    pose proof (div_lt_pos (c - t) t (2 # 10) Hpos) as D2.
    set (d := (c - t) / t) in *.
    destruct (Qltb d 0) eqn:E0; [|destruct (Qltb d (1 # 10)) eqn:E1;
      [|destruct (Qltb d (2 # 10)) eqn:E2]]; qprop;
      (split; split; intros H; try lra; try (exfalso; revert H; vm_compute;
                                             discriminate)).
  - intros Hmax Hneg. rewrite Hmax.
    assert (Hd : (if in_strings (covenant_type cov) Risk.minimum_types
                  then (c - t) / t else (c - t) / t) = (c - t) / t)
      by (destruct (in_strings (covenant_type cov) Risk.minimum_types); reflexivity).
    rewrite Hd.
    pose proof (div_lt_neg (c - t) t 0 Hneg) as D0.
    set (d := (c - t) / t) in *.
    destruct (Qltb d 0) eqn:E0; [|destruct (Qltb d (1 # 10)) eqn:E1;
      [|destruct (Qltb d (2 # 10)) eqn:E2]]; qprop;
      (split; intros H; try lra; try (exfalso; revert H; vm_compute;
                                      discriminate)).
Qed.

Lemma breach_indicator_direction_witness :
  exists v,
    Risk.breach_indicator [] (covenant_of "maximum_leverage" 4 5) = Ok ([] ++ [v]) /\
    v == 1.
Proof.
  destruct (breach_indicator_direction (covenant_of "maximum_leverage" 4 5) [] 5 4
              eq_refl eq_refl) as (v & Hv & Hmax & _).
  { intros H. vm_compute in H. discriminate. }
  exists v. split; [exact Hv|].
  apply (proj1 (Hmax eq_refl eq_refl)). reflexivity.
Defined.

End Direction.

(** ** ESG risk against ESG performance *)

Section EsgRisk.

(** One turn of the ESG risk loop, read off the achievement of the KPI. *)
Lemma risk_factor_of_achievement (kpi : ESGKpi) (rf : list Q) :
  match Pricing.achievement_of kpi with
  | Ok (Some a) => Risk.risk_factor rf kpi = Ok (rf ++ [risk_bucket a])
  | Ok None => Risk.risk_factor rf kpi = Ok rf
  | Raise _ => False
  end.
Proof.
  unfold Pricing.achievement_of, Risk.risk_factor.
  destruct (target_value kpi) as [t|]; [|reflexivity].
  destruct (current_value kpi) as [c|]; [|reflexivity].
  destruct (baseline_value kpi) as [b|]; [|reflexivity].
  destruct (nonzero t && nonzero c && nonzero b); [|reflexivity].
  destruct (Qgtb (Qabs (t - b)) 0) eqn:E; [|reflexivity].
  qprop. rewrite py_div_ok by lra. cbn [bind].
  f_equal. f_equal. unfold risk_bucket.
  set (p := Qabs (c - b) / Qabs (t - b)).
  assert (M : forall k, k <= 100 -> Qltb (Qmin (p * 100) 100) k = Qltb p (k / 100)).
  { intros k Hk.
    destruct (Qltb p (k / 100)) eqn:E1; qprop.
    - apply Qltb_true. apply Q.min_lt_iff. left.
      assert (k / 100 * 100 == k) by field. nra.
    - apply Qltb_false. apply Q.min_glb; [|exact Hk].
      assert (k / 100 * 100 == k) by field. nra. }
  rewrite (M 25), (M 50), (M 75) by lra.
  assert (R : forall x y, x == y -> Qltb p x = Qltb p y).
  { intros x y Hxy. destruct (Qltb p x) eqn:E1, (Qltb p y) eqn:E2; qprop;
      try reflexivity; lra. }
  rewrite (R (25 / 100) (1 # 4)), (R (50 / 100) (1 # 2)), (R (75 / 100) (3 # 4))
    by reflexivity.
  reflexivity.
Qed.

Lemma risk_bucket_range (a : Q) : 20 <= risk_bucket a /\ risk_bucket a <= 80.
Proof.
  unfold risk_bucket. repeat (destruct (Qltb a _)); split; lra.
Qed.

Lemma risk_factor_range (kpi : ESGKpi) (rf rf' : list Q) :
  Forall (fun a => 20 <= a /\ a <= 80) rf ->
  Risk.risk_factor rf kpi = Ok rf' ->
  Forall (fun a => 20 <= a /\ a <= 80) rf'.
Proof.
  intros Hrf H. pose proof (risk_factor_of_achievement kpi rf) as A.
  destruct (Pricing.achievement_of kpi) as [[a|]|e]; [| |contradiction].
  - rewrite A in H. injection H as <-. apply Forall_app. split; [exact Hrf|].
    constructor; [apply risk_bucket_range | constructor].
  - rewrite A in H. now injection H as <-.
Qed.

Lemma risk_loop_range (kpis : list ESGKpi) (rf rf' : list Q) :
  Forall (fun a => 20 <= a /\ a <= 80) rf ->
  for_each Risk.risk_factor kpis rf = Ok rf' ->
  Forall (fun a => 20 <= a /\ a <= 80) rf'.
Proof.
  revert rf. induction kpis as [|k ks IH]; intros rf Hrf; cbn [for_each].
  - now intros [= <-].
  - destruct (Risk.risk_factor rf k) as [rf1|e] eqn:E; [|discriminate].
    cbn [bind]. apply IH. exact (risk_factor_range k rf rf1 Hrf E).
Qed.

Lemma esg_risk_of_range (kpis : list ESGKpi) :
  exists v, Risk.esg_risk_of kpis = Ok v /\ 20 <= v /\ v <= 80.
Proof.
  unfold Risk.esg_risk_of. destruct kpis as [|k ks].
  { exists 50. split; [reflexivity|lra]. }
  destruct (risk_factor_loop_total (k :: ks) []) as (rf & E). rewrite E.
  cbn [bind]. destruct rf as [|x rf].
  { exists 50. split; [reflexivity|lra]. }
  rewrite mean_ok. cbn [bind]. eexists. split; [reflexivity|].
  pose proof (risk_loop_range _ _ _ (Forall_nil _) E) as R.
  destruct (mean_between 20 80 (x :: rf)) as [M0 M1]; [discriminate | exact R |].
  split.
  - apply (round2_ge _ 20). change (inject_Z 20) with 20. lra.
  - apply (round2_le _ 80). change (inject_Z 80) with 80. lra.
Qed.

(** The risk factors of a KPI list are the buckets of its achievements,
    whatever their category. *)
Lemma risk_loop_buckets (kpis : list ESGKpi) (rf : list Q) :
  for_each Risk.risk_factor kpis rf =
    Ok (rf ++ flat_map (fun k => match Pricing.achievement_of k with
                                 | Ok (Some a) => [risk_bucket a]
                                 | _ => []
                                 end) kpis).
Proof.
  revert rf. induction kpis as [|k ks IH]; intros rf; cbn [for_each flat_map].
  - now rewrite app_nil_r.
  - pose proof (risk_factor_of_achievement k rf) as A.
    destruct (Pricing.achievement_of k) as [[a|]|e]; [| |contradiction];
      rewrite A; cbn [bind]; rewrite IH.
    + now rewrite <- app_assoc.
    + reflexivity.
Qed.

(** X3: [calculate_esg_risk_score] never raises and its score lies
    between 20 and 80; it is 50 when the loan has no KPI with an
    achievement. *)
Theorem esg_risk_score_range (db : Db) (id : Z) :
  (exists v, Risk.calculate_esg_risk_score db id = Ok v /\ 20 <= v /\ v <= 80) /\
  ((forall kpi, In kpi (query_kpis db id) -> Pricing.achievement_of kpi = Ok None) ->
   Risk.calculate_esg_risk_score db id = Ok 50).
Proof.
  unfold Risk.calculate_esg_risk_score. split; [apply esg_risk_of_range|].
  intros H. unfold Risk.esg_risk_of.
  destruct (query_kpis db id) as [|k ks] eqn:Ek; [reflexivity|].
  rewrite risk_loop_buckets. cbn [bind app].
  assert (N : flat_map (fun k => match Pricing.achievement_of k with
                                 | Ok (Some a) => [risk_bucket a]
                                 | _ => []
                                 end) (k :: ks) = []).
  { clear Ek. induction (k :: ks) as [|x xs IH]; [reflexivity|].
    cbn [flat_map]. rewrite (H x (or_introl eq_refl)).
    apply IH. intros y Hy. apply H. now right. }
  now rewrite N.
Qed.

Lemma esg_risk_score_range_witness :
  Risk.calculate_esg_risk_score (db_of [kpi_of "social" 10 5 0]) 1 = Ok 50.
Proof.
  apply (proj2 (esg_risk_score_range (db_of [kpi_of "social" 10 5 0]) 1)).
  intros kpi [<-|[]]. reflexivity.
Defined.

(** X4: the ESG risk scorer and the ESG performance scorer agree on which
    KPIs count: a KPI adds a risk factor exactly when it has an
    achievement, and the factor is 80, 60, 40 or 20 as the achievement is
    below 25, below 50, below 75 or not; the category of the KPI plays no
    part. *)
Theorem risk_factor_follows_achievement (kpi : ESGKpi) (rf : list Q) :
  (forall a, Pricing.achievement_of kpi = Ok (Some a) ->
             Risk.risk_factor rf kpi = Ok (rf ++ [risk_bucket a]) /\
             (a < 25 -> risk_bucket a = 80) /\
             (25 <= a -> a < 50 -> risk_bucket a = 60) /\
             (50 <= a -> a < 75 -> risk_bucket a = 40) /\
             (75 <= a -> risk_bucket a = 20)) /\
  (Pricing.achievement_of kpi = Ok None -> Risk.risk_factor rf kpi = Ok rf).
Proof.
  pose proof (risk_factor_of_achievement kpi rf) as A. split.
  - intros a Ha. rewrite Ha in A. split; [exact A|].
    unfold risk_bucket.
    repeat split; intros; repeat (qcase; try reflexivity; try lra).
  - intros Hn. now rewrite Hn in A.
Qed.

Lemma risk_factor_follows_achievement_witness :
  Risk.risk_factor [] (kpi_of "Unknown" 30 65 100) = Ok ([] ++ [risk_bucket (achievement 30 65 100)]) /\
  risk_bucket (achievement 30 65 100) = 40.
Proof.
  destruct (proj1 (risk_factor_follows_achievement (kpi_of "Unknown" 30 65 100) [])
              (achievement 30 65 100) eq_refl) as (H & _ & _ & H3 & _).
  split; [exact H|]. apply H3; vm_compute; first [reflexivity | discriminate].
Defined.

End EsgRisk.

(** ** Financial and composite risk *)

Section CompositeRisk.

Lemma status_risk_range (s : option string) :
  20 <= Risk.status_risk s /\ Risk.status_risk s <= 100.
Proof.
  unfold Risk.status_risk. destruct s as [s|]; [|split; lra].
  repeat (destruct (String.eqb s _); [split; lra|]). split; lra.
Qed.

Lemma failed_ratio_range {A : Type} (f : A -> bool) (x : A) (l : list A) :
  0 <= len (filter f (x :: l)) / len (x :: l) /\
  len (filter f (x :: l)) / len (x :: l) <= 1.
Proof.
  pose proof (len_pos x l) as Hpos.
  pose proof (len_nonneg (filter f (x :: l))) as H0.
  assert (H1 : len (filter f (x :: l)) <= len (x :: l)).
  { unfold len. rewrite <- Zle_Qle. apply Nat2Z.inj_le. apply filter_length_le. }
  split.
  - apply Qle_shift_div_l; lra.
  - apply Qle_shift_div_r; lra.
Qed.

Lemma mean_one (a : Q) : mean [a] == a.
Proof. unfold mean, sum, len. cbn. field. Qed.

Lemma mean_two (a b : Q) : mean [a; b] == (a + b) / 2.
Proof. unfold mean, sum, len. cbn. field. Qed.

Lemma mean_three (a b c : Q) : mean [a; b; c] == (a + b + c) / 3.
Proof. unfold mean, sum, len. cbn. field. Qed.

Lemma round2_between (x : Q) (lo hi : Z) :
  inject_Z lo <= x -> x <= inject_Z hi ->
  inject_Z lo <= round2 x /\ round2 x <= inject_Z hi.
Proof.
  intros H0 H1. split; [now apply round2_ge | now apply round2_le].
Qed.

(** The financial score never raises; it lies between 10 and 100. *)
Lemma financial_risk_range (db : Db) (now : datetime) (id : Z) :
  exists v, Risk.calculate_financial_risk_score db now id = Ok v /\
            10 <= v /\ v <= 100.
Proof.
  unfold Risk.calculate_financial_risk_score.
  destruct (query_loan db id) as [loan|]; [|exists 50; split; [reflexivity|lra]].
  pose proof (status_risk_range (loan_status loan)) as [S0 S1].
  set (s := Risk.status_risk (loan_status loan)) in *.
  assert (B : forall m : Z,
             20 <= (if (m <? 30)%Z then 80 else if (m <? 90)%Z then 50 else 20) /\
             (if (m <? 30)%Z then 80 else if (m <? 90)%Z then 50 else 20) <= 100).
  { intros m. destruct (m <? 30)%Z; [split; lra|].
    destruct (m <? 90)%Z; split; lra. }
  destruct (query_recent_verifications db id) as [|v vs].
  - cbn [bind]. destruct (maturity_date loan) as [m|].
    + cbn [app]. rewrite mean_ok. cbn [bind]. eexists. split; [reflexivity|].
      destruct (B (days_of (m - now))) as [B0 B1].
      apply (round2_between _ 10 100); rewrite mean_two;
        [apply Qle_shift_div_l | apply Qle_shift_div_r];
        change (inject_Z 10) with 10; change (inject_Z 100) with 100; lra.
    + rewrite mean_ok. cbn [bind]. eexists. split; [reflexivity|].
      apply (round2_between _ 10 100); rewrite mean_one;
        change (inject_Z 10) with 10; change (inject_Z 100) with 100; lra.
  - rewrite py_div_ok by (pose proof (len_pos v vs); lra). cbn [bind].
    destruct (failed_ratio_range (fun v => str_is (ver_status v) "failed") v vs)
      as [R0 R1].
    set (r := len (filter _ (v :: vs)) / len (v :: vs)) in *.
    destruct (maturity_date loan) as [m|].
    + cbn [app]. rewrite mean_ok. cbn [bind]. eexists. split; [reflexivity|].
      destruct (B (days_of (m - now))) as [B0 B1].
      apply (round2_between _ 10 100); rewrite mean_three;
        [apply Qle_shift_div_l | apply Qle_shift_div_r];
        change (inject_Z 10) with 10; change (inject_Z 100) with 100; lra.
    + cbn [app]. rewrite mean_ok. cbn [bind]. eexists. split; [reflexivity|].
      apply (round2_between _ 10 100); rewrite mean_two;
        [apply Qle_shift_div_l | apply Qle_shift_div_r];
        change (inject_Z 10) with 10; change (inject_Z 100) with 100; lra.
Qed.

(** X5: [calculate_financial_risk_score] never raises; its score lies
    between 10 and 100, and it is 50 for an unknown loan. *)
Theorem financial_risk_score_range (db : Db) (now : datetime) (id : Z) :
  (exists v, Risk.calculate_financial_risk_score db now id = Ok v /\
             10 <= v /\ v <= 100) /\
  (query_loan db id = None ->
   Risk.calculate_financial_risk_score db now id = Ok 50).
Proof.
  split; [apply financial_risk_range|].
  intros H. unfold Risk.calculate_financial_risk_score. now rewrite H.
Qed.

Lemma financial_risk_score_range_witness :
  Risk.calculate_financial_risk_score (db_of []) 0%Z 2 = Ok 50.
Proof.
  apply (proj2 (financial_risk_score_range (db_of []) 0%Z 2)). reflexivity.
Defined.

(** The composite score, when the covenant score is available. *)
Lemma comprehensive_risk_range (db : Db) (now : datetime) (id : Z) (cov : Q) :
  Risk.calculate_covenant_breach_probability db id = Ok cov ->
  exists v, Risk.calculate_comprehensive_risk_score db now id = Ok v /\
            9 <= v /\ v <= 94.
Proof.
  intros Hc. unfold Risk.calculate_comprehensive_risk_score. rewrite Hc.
  cbn [bind].
  destruct (esg_risk_of_range (query_kpis db id)) as (e & He & E0 & E1).
  unfold Risk.calculate_esg_risk_score. rewrite He. cbn [bind].
  destruct (financial_risk_range db now id) as (f & Hf & F0 & F1).
  rewrite Hf. cbn [bind]. eexists. split; [reflexivity|].
  assert (C : 0 <= cov /\ cov <= 100).
  { destruct (covenant_breach_probability_range _ cov Hc) as [Z|[? ?]]; lra. }
  apply (round2_between _ 9 94);
    change (inject_Z 9) with 9; change (inject_Z 94) with 94; lra.
Qed.

(** X6: whenever the covenant score is available the composite risk
    score is available too and lies between 9 and 94: no loan is ever
    scored 0 or 100. *)
Theorem comprehensive_risk_score_range (db : Db) (now : datetime) (id : Z) :
  (forall cov, In cov (query_covenants db id) -> ~ zero_threshold cov) ->
  exists v, Risk.calculate_comprehensive_risk_score db now id = Ok v /\
            9 <= v /\ v <= 94.
Proof.
  intros H.
  destruct (covenant_breach_probability_returns _ H) as (cov & Hc).
  now apply (comprehensive_risk_range db now id cov).
Qed.

Lemma comprehensive_risk_score_range_witness :
  exists v, Risk.calculate_comprehensive_risk_score (db_of []) 0%Z 1 = Ok v /\
            9 <= v /\ v <= 94.
Proof.
  apply (comprehensive_risk_score_range (db_of []) 0%Z 1).
  intros cov [].
Defined.

End CompositeRisk.

(** ** Outcome and effects of a risk assessment *)

Section Assessment.

Lemma categorize_risk_known (s : Q) :
  In (Risk.categorize_risk s) ["low"; "moderate"; "elevated"; "high"]%string.
Proof.
  unfold Risk.categorize_risk.
  cbn [find Risk.risk_categories snd Risk.cat_min Risk.cat_max].
  repeat (destruct (_ && _); [cbn; tauto|]).
  destruct (Qgeb s 75); cbn; tauto.
Qed.




Lemma find_update_other (id id' : Z) (f : Loan -> Loan) (ls : list Loan) :
  (forall l, loan_id (f l) = loan_id l) -> id' <> id ->
  find (fun l => (loan_id l =? id')%Z) (update_first id f ls) =
  find (fun l => (loan_id l =? id')%Z) ls.
Proof.
  intros Hf Hne. induction ls as [|l ls IH]; [reflexivity|]. cbn [update_first].
  destruct (loan_id l =? id)%Z eqn:E; cbn [find].
  - rewrite Hf. apply Z.eqb_eq in E.
    assert (N : (loan_id l =? id')%Z = false) by (apply Z.eqb_neq; lia).
    now rewrite N.
  - now rewrite IH.
Qed.




(** X8: a successful [create_risk_assessment] appends exactly one
    assessment row, carrying the reported score and category, leaves the
    KPI, covenant, verification and pricing-history tables and every other
    loan as they were, and writes the score and its category to the loan;
    the reported category is the category of the reported score, the score
    lies between 9 and 94 and the confidence between 50 and 95. *)
Theorem create_risk_assessment_effects (db db' : Db) (now : datetime) (id : Z)
  (rep : Risk.RiskReport) :
  Risk.create_risk_assessment db now id = Ok (db', rep) ->
  exists (loan : Loan) (row : RiskAssessment),
    query_loan db id = Some loan /\
    query_loan db' id =
      Some (set_risk loan (Risk.overall_risk_score rep) (Risk.rr_risk_category rep)) /\
    (forall other, other <> id -> query_loan db' other = query_loan db other) /\
    esg_kpis db' = esg_kpis db /\ covenants db' = covenants db /\
    verifications db' = verifications db /\
    pricing_history db' = pricing_history db /\
    risk_assessments db' = risk_assessments db ++ [row] /\
    ra_loan_id row = id /\ assessment_date row = now /\
    ra_risk_score row = Risk.overall_risk_score rep /\
    ra_risk_category row = Risk.rr_risk_category rep /\
    Risk.rr_risk_category rep = Risk.categorize_risk (Risk.overall_risk_score rep) /\
    9 <= Risk.overall_risk_score rep /\ Risk.overall_risk_score rep <= 94 /\
    (50 <= Risk.rr_confidence_level rep <= 95)%Z.
Proof.
  unfold Risk.create_risk_assessment.
  destruct (query_loan db id) as [loan|] eqn:Hloan; [|discriminate].
  destruct (Risk.calculate_comprehensive_risk_score db now id) as [overall|] eqn:Ho;
    [|discriminate]. cbn [bind].
  destruct (Risk.calculate_covenant_breach_probability db id) as [cov|] eqn:Hc;
    [|discriminate]. cbn [bind].
  destruct (Risk.calculate_esg_risk_score db id); [|discriminate]. cbn [bind].
  destruct (Risk.calculate_financial_risk_score db now id); [|discriminate].
  cbn [bind].
  destruct (Risk.predict_breach_date db now id); [|discriminate]. cbn [bind].
  destruct (Risk.generate_risk_factors db now id); [|discriminate]. cbn [bind].
  destruct (Risk.generate_recommendations db id overall); [|discriminate].
  cbn [bind].
  destruct (dict_get Risk.risk_categories (Risk.categorize_risk overall));
    [|discriminate]. cbn [bind].
  set (conf := Z.min _ 95).
  assert (Hconf : (50 <= conf <= 95)%Z) by (subst conf; lia). clearbody conf.
  intros [= <- <-]. eexists loan, _. unfold update_loan.
  cbn [Risk.overall_risk_score Risk.rr_risk_category Risk.rr_confidence_level
       loans esg_kpis covenants verifications pricing_history risk_assessments
       ra_loan_id assessment_date ra_risk_score ra_risk_category].
  destruct (comprehensive_risk_range db now id cov Hc) as (v & Hv & V0 & V1).
  rewrite Ho in Hv. injection Hv as <-.
  split; [reflexivity|]. split.
  { unfold query_loan in *. cbn [loans]. rewrite find_update by reflexivity.
    now rewrite Hloan. }
  split.
  { intros other Hne. unfold query_loan. cbn [loans].
    now rewrite find_update_other by (try reflexivity; exact Hne). }
  repeat (split; [reflexivity|]).
  split; [exact V0|]. split; [exact V1|]. exact Hconf.
Qed.

Lemma create_risk_assessment_effects_witness :
  exists (db' : Db) (rep : Risk.RiskReport) (row : RiskAssessment),
    Risk.create_risk_assessment (db_of []) 0%Z 1 = Ok (db', rep) /\
    risk_assessments db' = risk_assessments (db_of []) ++ [row] /\
    ra_risk_score row = Risk.overall_risk_score rep /\
    9 <= Risk.overall_risk_score rep /\ Risk.overall_risk_score rep <= 94.
Proof.
  destruct (Risk.create_risk_assessment (db_of []) 0%Z 1) as [[db' rep]|e] eqn:E;
    [|vm_compute in E; discriminate].
  destruct (create_risk_assessment_effects _ _ _ _ _ E)
    as (loan & row & _ & _ & _ & _ & _ & _ & _ & Hr & _ & _ & Hs & _ & _ & H0 & H1 & _).
  exists db', rep, row. repeat split; assumption.
Defined.

End Assessment.

(** ** Recommendations *)

Section Recommendations.

(** X9: given the covenant score and the ESG risk score of the loan,
    [generate_recommendations] returns a list that is empty exactly when
    the category of the risk score is "moderate", the covenant score is at
    most 50 and the ESG risk score at most 60; a "low" score always gets
    the two "maintain" recommendations at the end, and an "elevated" or
    "high" one the three escalation items at the front. *)
Theorem recommendations_empty_iff (db : Db) (id : Z) (risk_score cov esg : Q) :
  Risk.calculate_covenant_breach_probability db id = Ok cov ->
  Risk.calculate_esg_risk_score db id = Ok esg ->
  exists recs,
    Risk.generate_recommendations db id risk_score = Ok recs /\
    (recs = [] <->
     Risk.categorize_risk risk_score = "moderate"%string /\ cov <= 50 /\ esg <= 60) /\
    (Risk.categorize_risk risk_score = "low"%string ->
     exists front,
       recs = front ++ [ "Maintain current monitoring schedule";
                         "Continue positive engagement with borrower" ]%string) /\
    (Risk.categorize_risk risk_score = "elevated"%string \/
     Risk.categorize_risk risk_score = "high"%string ->
     exists back,
       recs = [ "Schedule immediate stakeholder meeting to address risk factors";
                "Increase monitoring frequency to weekly reviews";
                "Develop detailed risk mitigation action plan" ]%string ++ back).
Proof.
  intros Hc He. unfold Risk.generate_recommendations. rewrite Hc, He.
  cbn [bind]. eexists. split; [reflexivity|].
  destruct (categorize_risk_known risk_score) as [<-|[<-|[<-|[<-|[]]]]];
    cbn [in_strings existsb String.eqb Ascii.eqb Bool.eqb orb andb];
    destruct (Qgtb cov 50) eqn:E1; destruct (Qgtb esg 60) eqn:E2; qprop;
    (split; [split; [intros H; try discriminate H; repeat split; try reflexivity; lra
                    | intros (H & H1 & H2); try discriminate H; try reflexivity; lra]
            | split; [intros H; try discriminate H; eexists; reflexivity
                     | intros [H|H]; try discriminate H; eexists; cbn [app];
                       reflexivity]]).
Qed.

Lemma recommendations_empty_iff_witness :
  exists recs,
    Risk.generate_recommendations (db_of []) 1 30 = Ok recs /\ recs = [].
Proof.
  destruct (recommendations_empty_iff (db_of []) 1 30 0 50 eq_refl eq_refl)
    as (recs & H & Hiff & _).
  exists recs. split; [exact H|].
  apply Hiff. split; [reflexivity|]. split; lra.
Defined.

End Recommendations.

(** ** Range of the projected breach date *)

Section BreachDateRange.

Variable now : datetime.







End BreachDateRange.


(** ** The pricing ledger *)

Section Ledger.

Lemma update_loan_pricing_eq (db : Db) (now : datetime) (id : Z)
  (user_id : option Z) (reason : option string) (loan : Loan) :
  query_loan db id = Some loan ->
  exists score,
    Pricing.esg_performance_of (query_kpis db id) = Ok score /\
    0 <= score /\ score <= 100 /\
    Pricing.update_loan_pricing db now id user_id reason =
      Ok (priced_db db loan score now id user_id reason, priced loan score).
Proof.
  intros Hloan.
  destruct (esg_performance_of_total (query_kpis db id)) as (score & Hs & S0 & S1).
  exists score. split; [exact Hs|]. split; [exact S0|]. split; [exact S1|].
  unfold Pricing.update_loan_pricing. rewrite Hloan.
  unfold Pricing.calculate_esg_performance_score. rewrite Hs. cbn [bind].
  rewrite calculate_margin_adjustment_eq, determine_pricing_tier_eq. cbn [bind].
  reflexivity.
Qed.

Lemma update_loan_pricing_inv (db db' : Db) (now : datetime) (id : Z)
  (user_id : option Z) (reason : option string) (upd : Pricing.PricingUpdate) :
  Pricing.update_loan_pricing db now id user_id reason = Ok (db', upd) ->
  exists loan score,
    query_loan db id = Some loan /\
    Pricing.esg_performance_of (query_kpis db id) = Ok score /\
    0 <= score /\ score <= 100 /\
    db' = priced_db db loan score now id user_id reason /\
    upd = priced loan score.
Proof.
  intros H. destruct (query_loan db id) as [loan|] eqn:Hloan.
  - destruct (update_loan_pricing_eq db now id user_id reason loan Hloan)
      as (score & Hs & S0 & S1 & E).
    rewrite E in H. injection H as <- <-.
    exists loan, score. repeat split; assumption.
  - unfold Pricing.update_loan_pricing in H. rewrite Hloan in H. discriminate.
Qed.

Lemma insert_desc_perm {A : Type} (key : A -> Z) (x : A) (l : list A) :
  Permutation (insert_desc key x l) (x :: l).
Proof.
  induction l as [|y l IH]; [reflexivity|]. cbn [insert_desc].
  destruct (key y <=? key x)%Z; [reflexivity|].
  rewrite IH. apply perm_swap.
Qed.

Lemma order_by_desc_perm {A : Type} (key : A -> Z) (l : list A) :
  Permutation (order_by_desc key l) l.
Proof.
  induction l as [|x l IH]; [reflexivity|].
  unfold order_by_desc in *. cbn [fold_right].
  rewrite insert_desc_perm. now constructor.
Qed.

Lemma insert_desc_sorted {A : Type} (key : A -> Z) (x : A) (l : list A) :
  StronglySorted (fun a b => (key b <= key a)%Z) l ->
  StronglySorted (fun a b => (key b <= key a)%Z) (insert_desc key x l).
Proof.
  induction 1 as [|y l Hs IH Hall]; cbn [insert_desc].
  - repeat constructor.
  - destruct (key y <=? key x)%Z eqn:E.
    + apply Z.leb_le in E. constructor; [now constructor|].
      constructor; [exact E|].
      eapply Forall_impl; [|exact Hall]. cbn. intros; lia.
    + apply Z.leb_gt in E. constructor; [exact IH|].
      rewrite (insert_desc_perm key x l). constructor; [lia | exact Hall].
Qed.

Lemma order_by_desc_sorted {A : Type} (key : A -> Z) (l : list A) :
  StronglySorted (fun a b => (key b <= key a)%Z) (order_by_desc key l).
Proof.
  induction l as [|x l IH]; [constructor|].
  unfold order_by_desc in *. cbn [fold_right]. now apply insert_desc_sorted.
Qed.

Lemma firstn_In {A : Type} (n : nat) (l : list A) (x : A) :
  In x (firstn n l) -> In x l.
Proof.
  revert l. induction n as [|n IH]; intros l; [intros []|].
  destruct l as [|y l]; [intros []|]. cbn [firstn].
  intros [<-|H]; [now left | right; now apply IH].
Qed.

Lemma firstn_sorted {A : Type} (R : A -> A -> Prop) (n : nat) (l : list A) :
  StronglySorted R l -> StronglySorted R (firstn n l).
Proof.
  intros H. revert n. induction H as [|x l Hs IH Hall]; intros n.
  - rewrite firstn_nil. constructor.
  - destruct n as [|n]; [constructor|]. cbn [firstn]. constructor; [apply IH|].
    apply Forall_forall. intros y Hy. rewrite Forall_forall in Hall.
    apply Hall. exact (firstn_In n l y Hy).
Qed.

(** X11: [get_pricing_history] raises [ValueError] for an unknown loan;
    for a known loan it returns the records of at most [limit] rows of the
    loan's ledger, latest first, and of all its rows when [limit] covers
    them. *)
Theorem get_pricing_history_spec (db : Db) (id : Z) (limit : nat) :
  (query_loan db id = None ->
   PricingApi.get_pricing_history db id limit = Raise (Pricing.not_found id)) /\
  (query_loan db id <> None ->
   PricingApi.get_pricing_history db id limit =
     Ok (map PricingApi.history_record (query_pricing_history db id limit))) /\
  (length (query_pricing_history db id limit) <= limit)%nat /\
  (forall row, In row (query_pricing_history db id limit) ->
               In row (pricing_history db) /\ ph_loan_id row = id) /\
  descending (query_pricing_history db id limit) /\
  ((length (ledger_of db id) <= limit)%nat ->
   Permutation (query_pricing_history db id limit) (ledger_of db id)).
Proof.
  unfold PricingApi.get_pricing_history, query_pricing_history, descending.
  fold (ledger_of db id).
  split; [intros H; now rewrite H|].
  split; [destruct (query_loan db id); [reflexivity|congruence]|].
  split; [apply firstn_le_length|].
  split.
  { intros row Hin. apply firstn_In in Hin.
    apply (Permutation_in _ (order_by_desc_perm effective_date (ledger_of db id))) in Hin.
    unfold ledger_of in Hin. apply filter_In in Hin. destruct Hin as [H1 H2].
    split; [exact H1 | now apply Z.eqb_eq]. }
  split; [apply firstn_sorted, order_by_desc_sorted|].
  intros Hlen. rewrite firstn_all2.
  - apply order_by_desc_perm.
  - now rewrite (Permutation_length (order_by_desc_perm effective_date (ledger_of db id))).
Qed.

Lemma get_pricing_history_spec_witness :
  PricingApi.get_pricing_history (db_of []) 2 10 = Raise (Pricing.not_found 2) /\
  PricingApi.get_pricing_history (db_of []) 1 10 =
    Ok (map PricingApi.history_record (query_pricing_history (db_of []) 1 10)) /\
  Permutation (query_pricing_history (db_of []) 1 10) (ledger_of (db_of []) 1).
Proof.
  split; [|split].
  - apply (proj1 (get_pricing_history_spec (db_of []) 2 10)). reflexivity.
  - apply (proj1 (proj2 (get_pricing_history_spec (db_of []) 1 10))). discriminate.
  - apply (proj2 (proj2 (proj2 (proj2 (proj2
             (get_pricing_history_spec (db_of []) 1 10)))))).
    simpl. lia.
Defined.

End Ledger.

(** ** Pricing updates against the ledger *)

Section PricingLedger.

Lemma priced_db_ledger (db : Db) (loan : Loan) (score : Q) (now : datetime) (id : Z)
  (user_id : option Z) (reason : option string) :
  ledger_of (priced_db db loan score now id user_id reason) id =
  ledger_of db id ++ [priced_row loan score now id user_id reason].
Proof.
  unfold ledger_of, priced_db. cbn [pricing_history].
  rewrite filter_app. cbn [filter priced_row ph_loan_id]. now rewrite Z.eqb_refl.
Qed.

Lemma priced_db_loan (db : Db) (loan : Loan) (score : Q) (now : datetime) (id : Z)
  (user_id : option Z) (reason : option string) :
  query_loan db id = Some loan ->
  query_loan (priced_db db loan score now id user_id reason) id =
    Some (set_pricing loan score (fst (tier_of score))
            (or_default (base_margin loan) 2 + snd (tier_of score))
            (snd (tier_of score)) now).
Proof.
  intros H. unfold query_loan, priced_db in *. cbn [loans].
  rewrite find_update by reflexivity. now rewrite H.
Qed.

(** X12: after a pricing update made later than every row of the loan's
    ledger, the pricing history of the loan starts with the record of the
    update, carrying the returned score, margin and adjustment and the
    unrounded total rate, followed by the history as it was. *)
Theorem pricing_history_after_update (db db' : Db) (now : datetime) (id : Z)
  (user_id : option Z) (reason : option string) (upd : Pricing.PricingUpdate)
  (limit : nat) :
  Pricing.update_loan_pricing db now id user_id reason = Ok (db', upd) ->
  (forall row, In row (ledger_of db id) -> (effective_date row < now)%Z) ->
  exists row,
    query_pricing_history db' id (S limit) =
      row :: query_pricing_history db id limit /\
    PricingApi.get_pricing_history db' id (S limit) =
      Ok (PricingApi.history_record row ::
          map PricingApi.history_record (query_pricing_history db id limit)) /\
    dict_find (PricingApi.history_record row) "esg_performance_score" =
      Some (VFloat (Pricing.pu_esg_performance_score upd)) /\
    dict_find (PricingApi.history_record row) "margin" =
      Some (VFloat (Pricing.pu_new_margin upd)) /\
    dict_find (PricingApi.history_record row) "adjustment_amount" =
      Some (VFloat (Pricing.pu_margin_adjustment upd)) /\
    dict_find (PricingApi.history_record row) "total_rate" =
      Some (VFloat (Pricing.pu_base_rate upd + Pricing.pu_new_margin upd)) /\
    dict_find (PricingApi.history_record row) "effective_date" = Some (VDate now).
Proof.
  intros H Hlate.
  destruct (update_loan_pricing_inv _ _ _ _ _ _ _ H)
    as (loan & score & Hloan & _ & _ & _ & -> & ->).
  exists (priced_row loan score now id user_id reason).
  assert (Q : query_pricing_history (priced_db db loan score now id user_id reason)
                id (S limit) =
              priced_row loan score now id user_id reason ::
              query_pricing_history db id limit).
  { unfold query_pricing_history.
    fold (ledger_of (priced_db db loan score now id user_id reason) id).
    fold (ledger_of db id).
    rewrite priced_db_ledger, order_by_desc_latest; [reflexivity|].
    exact Hlate. }
  split; [exact Q|]. split.
  - unfold PricingApi.get_pricing_history.
    rewrite (priced_db_loan db loan score now id user_id reason Hloan), Q.
    reflexivity.
  - repeat split; reflexivity.
Qed.

Lemma pricing_history_after_update_witness :
  exists (db' : Db) (upd : Pricing.PricingUpdate) (row : PricingHistory),
    Pricing.update_loan_pricing (db_of []) 5%Z 1 None None = Ok (db', upd) /\
    query_pricing_history db' 1 1 = row :: query_pricing_history (db_of []) 1 0 /\
    dict_find (PricingApi.history_record row) "margin" =
      Some (VFloat (Pricing.pu_new_margin upd)).
Proof.
  destruct (Pricing.update_loan_pricing (db_of []) 5%Z 1 None None)
    as [[db' upd]|e] eqn:E; [|vm_compute in E; discriminate].
  destruct (pricing_history_after_update _ _ _ _ _ _ _ 0 E)
    as (row & H1 & _ & _ & H2 & _).
  { intros row []. }
  exists db', upd, row. repeat split; assumption.
Defined.

(** X13: a successful [update_loan_pricing] appends exactly one row to
    the pricing ledger and leaves the KPI, covenant, verification and
    risk-assessment tables and every other loan as they were; on the loan
    itself it writes the score, tier, current margin, adjustment and
    update time and keeps the amount, the base margin and the interest
    rate. *)
Theorem update_loan_pricing_effects (db db' : Db) (now : datetime) (id : Z)
  (user_id : option Z) (reason : option string) (upd : Pricing.PricingUpdate) :
  Pricing.update_loan_pricing db now id user_id reason = Ok (db', upd) ->
  exists (loan loan' : Loan) (row : PricingHistory),
    query_loan db id = Some loan /\ query_loan db' id = Some loan' /\
    (forall other, other <> id -> query_loan db' other = query_loan db other) /\
    esg_kpis db' = esg_kpis db /\ covenants db' = covenants db /\
    verifications db' = verifications db /\
    risk_assessments db' = risk_assessments db /\
    pricing_history db' = pricing_history db ++ [row] /\
    ph_loan_id row = id /\ effective_date row = now /\ created_by row = user_id /\
    amount loan' = amount loan /\ base_margin loan' = base_margin loan /\
    interest_rate loan' = interest_rate loan /\
    esg_performance_score loan' = Some (Pricing.pu_esg_performance_score upd) /\
    pricing_tier loan' = Some (Pricing.pu_pricing_tier upd) /\
    current_margin loan' = Some (Pricing.pu_new_margin upd) /\
    margin_adjustment loan' = Some (Pricing.pu_margin_adjustment upd) /\
    last_pricing_update loan' = Some now.
Proof.
  intros H.
  destruct (update_loan_pricing_inv _ _ _ _ _ _ _ H)
    as (loan & score & Hloan & _ & _ & _ & -> & ->).
  eexists loan, _, _.
  split; [exact Hloan|].
  split; [exact (priced_db_loan db loan score now id user_id reason Hloan)|].
  split.
  { intros other Hne. unfold query_loan, priced_db. cbn [loans].
    now rewrite find_update_other by (try reflexivity; exact Hne). }
  repeat split; reflexivity.
Qed.

Lemma update_loan_pricing_effects_witness :
  exists (db' : Db) (upd : Pricing.PricingUpdate) (row : PricingHistory),
    Pricing.update_loan_pricing (db_of []) 5%Z 1 None None = Ok (db', upd) /\
    pricing_history db' = pricing_history (db_of []) ++ [row] /\
    esg_kpis db' = esg_kpis (db_of []).
Proof.
  destruct (Pricing.update_loan_pricing (db_of []) 5%Z 1 None None)
    as [[db' upd]|e] eqn:E; [|vm_compute in E; discriminate].
  destruct (update_loan_pricing_effects _ _ _ _ _ _ _ E)
    as (loan & loan' & row & _ & _ & _ & Hk & _ & _ & _ & Hp & _).
  exists db', upd, row. repeat split; assumption.
Defined.

(** X14: pricing does not compound.  A second [update_loan_pricing] on
    the store left by a first one, with the KPIs untouched, returns the
    same score, tier, adjustment, base margin, base rate, new margin and
    total rates, and the ledger grows by two rows with the same score,
    margin, total rate and adjustment. *)
Theorem update_loan_pricing_idempotent (db db1 : Db) (now1 now2 : datetime) (id : Z)
  (user1 user2 : option Z) (reason1 reason2 : option string)
  (upd1 : Pricing.PricingUpdate) :
  Pricing.update_loan_pricing db now1 id user1 reason1 = Ok (db1, upd1) ->
  exists (db2 : Db) (row1 row2 : PricingHistory),
    Pricing.update_loan_pricing db1 now2 id user2 reason2 = Ok (db2, upd1) /\
    pricing_history db2 = pricing_history db ++ [row1; row2] /\
    ph_esg_performance_score row2 = ph_esg_performance_score row1 /\
    ph_base_rate row2 = ph_base_rate row1 /\
    ph_margin row2 = ph_margin row1 /\
    ph_total_rate row2 = ph_total_rate row1 /\
    adjustment_amount row2 = adjustment_amount row1.
Proof.
  intros H.
  destruct (update_loan_pricing_inv _ _ _ _ _ _ _ H)
    as (loan & score & Hloan & Hs & _ & _ & -> & ->).
  pose proof (priced_db_loan db loan score now1 id user1 reason1 Hloan) as Hloan1.
  destruct (update_loan_pricing_eq _ now2 id user2 reason2 _ Hloan1)
    as (score2 & Hs2 & _ & _ & E).
  assert (K : query_kpis (priced_db db loan score now1 id user1 reason1) id =
              query_kpis db id) by reflexivity.
  rewrite K, Hs in Hs2. injection Hs2 as <-.
  eexists _, _, _. split; [exact E|].
  split; [unfold priced_db; cbn [pricing_history]; now rewrite <- app_assoc|].
  repeat split; reflexivity.
Qed.

Lemma update_loan_pricing_idempotent_witness :
  exists (db1 db2 : Db) (upd : Pricing.PricingUpdate),
    Pricing.update_loan_pricing (db_of [kpi_of "social" 30 65 100]) 5%Z 1 None None
      = Ok (db1, upd) /\
    Pricing.update_loan_pricing db1 9%Z 1 None None = Ok (db2, upd).
Proof.
  destruct (Pricing.update_loan_pricing (db_of [kpi_of "social" 30 65 100])
              5%Z 1 None None) as [[db1 upd]|e] eqn:E;
    [|vm_compute in E; discriminate].
  destruct (update_loan_pricing_idempotent _ _ _ 9%Z _ _ None _ None _ E)
    as (db2 & _ & _ & H & _).
  exists db1, db2, upd. split; [reflexivity | exact H].
Defined.

End PricingLedger.

(** ** Financial impact and scenarios *)

Section Impact.

Lemma tier_of_cases (s : Q) :
  tier_of s = ("excellent"%string, - (1 # 2)) \/
  tier_of s = ("good"%string, - (1 # 4)) \/
  tier_of s = ("fair"%string, 0) \/
  tier_of s = ("poor"%string, 1 # 4) \/
  tier_of s = ("critical"%string, 1 # 2).
Proof.
  unfold tier_of. repeat (destruct (Qgeb s _); [tauto|]). tauto.
Qed.

Lemma div_100 (x : Q) : x / 100 == x * (1 # 100).
Proof. field. Qed.

Lemma round2_nonneg (x : Q) : 0 <= x -> 0 <= round2 x.
Proof.
  intros H. apply (round2_ge x 0). exact H.
Qed.

(** X15: in the dict returned by [update_loan_pricing] the adjustment is
    one of -0.50, -0.25, 0, +0.25 and +0.50, matching the tier; the
    rounded rate change equals it; annual savings and annual cost are
    never negative and never both positive; savings are positive only
    with a negative adjustment and a positive amount, cost only with a
    positive adjustment and a positive amount; in the "fair" tier both are
    zero and the new margin is the base margin. *)
Theorem pricing_impact (db db' : Db) (now : datetime) (id : Z)
  (user_id : option Z) (reason : option string) (upd : Pricing.PricingUpdate) :
  Pricing.update_loan_pricing db now id user_id reason = Ok (db', upd) ->
  exists loan,
    query_loan db id = Some loan /\
    In (Pricing.pu_pricing_tier upd, Pricing.pu_margin_adjustment upd)
       [ ("excellent"%string, - (1 # 2)); ("good"%string, - (1 # 4));
         ("fair"%string, 0); ("poor"%string, 1 # 4); ("critical"%string, 1 # 2) ] /\
    Pricing.pu_rate_change upd == Pricing.pu_margin_adjustment upd /\
    0 <= Pricing.pu_annual_savings upd /\ 0 <= Pricing.pu_annual_cost upd /\
    (Pricing.pu_annual_savings upd == 0 \/ Pricing.pu_annual_cost upd == 0) /\
    (0 < Pricing.pu_annual_savings upd ->
     Pricing.pu_margin_adjustment upd < 0 /\ 0 < amount loan) /\
    (0 < Pricing.pu_annual_cost upd ->
     0 < Pricing.pu_margin_adjustment upd /\ 0 < amount loan) /\
    (Pricing.pu_pricing_tier upd = "fair"%string ->
     Pricing.pu_annual_savings upd == 0 /\ Pricing.pu_annual_cost upd == 0 /\
     Pricing.pu_new_margin upd == Pricing.pu_base_margin upd).
Proof.
  intros H.
  destruct (update_loan_pricing_inv _ _ _ _ _ _ _ H)
    as (loan & score & Hloan & _ & _ & _ & _ & ->).
  exists loan. split; [exact Hloan|].
  unfold priced.
  cbn [Pricing.pu_pricing_tier Pricing.pu_margin_adjustment Pricing.pu_rate_change
       Pricing.pu_annual_savings Pricing.pu_annual_cost Pricing.pu_new_margin
       Pricing.pu_base_margin].
  set (a := amount loan). set (m := or_default (base_margin loan) 2).
  clearbody a m.
  destruct (tier_of_cases score) as [E|[E|[E|[E|E]]]]; rewrite E; cbn [fst snd].
  - split; [cbn; tauto|]. split; [vm_compute; reflexivity|].
    change (Qltb (- (1 # 2)) 0) with true. change (Qgtb (- (1 # 2)) 0) with false.
    cbv iota. change (Qgtb 0 0) with false. cbv iota.
    destruct (Qgtb (a * Qabs (- (1 # 2)) / 100) 0) eqn:G; qprop; rewrite div_100 in G.
    + assert (P : 0 < a) by (change (Qabs (- (1 # 2))) with (1 # 2) in G; lra).
      repeat split; try lra; try discriminate; try (right; reflexivity).
      apply round2_nonneg. rewrite div_100. lra.
    + repeat split; try lra; try discriminate; try (right; reflexivity).
  - split; [cbn; tauto|]. split; [vm_compute; reflexivity|].
    change (Qltb (- (1 # 4)) 0) with true. change (Qgtb (- (1 # 4)) 0) with false.
    cbv iota. change (Qgtb 0 0) with false. cbv iota.
    destruct (Qgtb (a * Qabs (- (1 # 4)) / 100) 0) eqn:G; qprop; rewrite div_100 in G.
    + assert (P : 0 < a) by (change (Qabs (- (1 # 4))) with (1 # 4) in G; lra).
      repeat split; try lra; try discriminate; try (right; reflexivity).
      apply round2_nonneg. rewrite div_100. lra.
    + repeat split; try lra; try discriminate; try (right; reflexivity).
  - split; [cbn; tauto|]. split; [reflexivity|].
    change (Qltb 0 0) with false. change (Qgtb 0 0) with false. cbv iota.
    repeat split; try lra; try discriminate; try (right; reflexivity).
  - split; [cbn; tauto|]. split; [vm_compute; reflexivity|].
    change (Qltb (1 # 4) 0) with false. change (Qgtb (1 # 4) 0) with true.
    cbv iota. change (Qgtb 0 0) with false. cbv iota.
    destruct (Qgtb (a * (1 # 4) / 100) 0) eqn:G; qprop; rewrite div_100 in G.
    + assert (P : 0 < a) by lra.
      repeat split; try lra; try discriminate; try (left; reflexivity).
      apply round2_nonneg. rewrite div_100. lra.
    + repeat split; try lra; try discriminate; try (left; reflexivity).
  - split; [cbn; tauto|]. split; [vm_compute; reflexivity|].
    change (Qltb (1 # 2) 0) with false. change (Qgtb (1 # 2) 0) with true.
    cbv iota. change (Qgtb 0 0) with false. cbv iota.
    destruct (Qgtb (a * (1 # 2) / 100) 0) eqn:G; qprop; rewrite div_100 in G.
    + assert (P : 0 < a) by lra.
      repeat split; try lra; try discriminate; try (left; reflexivity).
      apply round2_nonneg. rewrite div_100. lra.
    + repeat split; try lra; try discriminate; try (left; reflexivity).
Qed.

Lemma pricing_impact_witness :
  exists (db' : Db) (upd : Pricing.PricingUpdate),
    Pricing.update_loan_pricing (db_of []) 5%Z 1 None None = Ok (db', upd) /\
    0 <= Pricing.pu_annual_savings upd /\ 0 <= Pricing.pu_annual_cost upd /\
    (Pricing.pu_annual_savings upd == 0 \/ Pricing.pu_annual_cost upd == 0).
Proof.
  destruct (Pricing.update_loan_pricing (db_of []) 5%Z 1 None None)
    as [[db' upd]|e] eqn:E; [|vm_compute in E; discriminate].
  destruct (pricing_impact _ _ _ _ _ _ _ E) as (loan & _ & _ & _ & H0 & H1 & H2 & _).
  exists db', upd. repeat split; assumption.
Defined.

(** X16: the scenario that [simulate_pricing_scenarios] lists for the
    tier chosen by [update_loan_pricing] on the same store has the
    adjustment, the new margin and the rounded total rate that the update
    returns; the scenarios are the five tiers in table order. *)
Theorem scenario_matches_update (db db' : Db) (now : datetime) (id : Z)
  (user_id : option Z) (reason : option string) (upd : Pricing.PricingUpdate) :
  Pricing.update_loan_pricing db now id user_id reason = Ok (db', upd) ->
  exists scenarios sc,
    Pricing.simulate_pricing_scenarios db id = Ok scenarios /\
    map fst scenarios =
      [ "excellent"; "good"; "fair"; "poor"; "critical" ]%string /\
    dict_get scenarios (Pricing.pu_pricing_tier upd) = Ok sc /\
    Pricing.sc_margin_adjustment sc = Pricing.pu_margin_adjustment upd /\
    Pricing.sc_new_margin sc = Pricing.pu_new_margin upd /\
    Pricing.sc_new_total_rate sc = Pricing.pu_new_total_rate upd.
Proof.
  intros H.
  destruct (update_loan_pricing_inv _ _ _ _ _ _ _ H)
    as (loan & score & Hloan & _ & _ & _ & _ & ->).
  unfold Pricing.simulate_pricing_scenarios. rewrite Hloan.
  unfold priced.
  cbn [Pricing.pu_pricing_tier Pricing.pu_margin_adjustment Pricing.pu_new_margin
       Pricing.pu_new_total_rate].
  destruct (tier_of_cases score) as [E|[E|[E|[E|E]]]]; rewrite E;
    eexists _, _; (split; [reflexivity|]); (split; [reflexivity|]);
    (split; [reflexivity|]); repeat split; reflexivity.
Qed.

Lemma scenario_matches_update_witness :
  exists (db' : Db) (upd : Pricing.PricingUpdate) scenarios sc,
    Pricing.update_loan_pricing (db_of []) 5%Z 1 None None = Ok (db', upd) /\
    Pricing.simulate_pricing_scenarios (db_of []) 1 = Ok scenarios /\
    dict_get scenarios (Pricing.pu_pricing_tier upd) = Ok sc /\
    Pricing.sc_new_margin sc = Pricing.pu_new_margin upd.
Proof.
  destruct (Pricing.update_loan_pricing (db_of []) 5%Z 1 None None)
    as [[db' upd]|e] eqn:E; [|vm_compute in E; discriminate].
  destruct (scenario_matches_update _ _ _ _ _ _ _ E)
    as (scenarios & sc & H1 & _ & H2 & _ & H3 & _).
  exists db', upd, scenarios, sc. repeat split; assumption.
Defined.

End Impact.

(** ** Pricing endpoints *)

Section PricingEndpoints.

Lemma priced_impact (loan : Loan) (score : Q) :
  (exists bps : Z, In bps [-50; -25; 0; 25; 50]%Z /\
     Pricing.pu_margin_adjustment (priced loan score) * 100 == inject_Z bps) /\
  0 <= Pricing.pu_annual_savings (priced loan score) /\
  0 <= Pricing.pu_annual_cost (priced loan score) /\
  (Pricing.pu_margin_adjustment (priced loan score) < 0 ->
   Pricing.pu_annual_cost (priced loan score) == 0) /\
  (0 < Pricing.pu_margin_adjustment (priced loan score) ->
   Pricing.pu_annual_savings (priced loan score) == 0) /\
  (Pricing.pu_margin_adjustment (priced loan score) == 0 ->
   Pricing.pu_annual_savings (priced loan score) == 0 /\
   Pricing.pu_annual_cost (priced loan score) == 0).
Proof.
  unfold priced.
  cbn [Pricing.pu_margin_adjustment Pricing.pu_annual_savings Pricing.pu_annual_cost].
  set (a := amount loan). clearbody a.
  destruct (tier_of_cases score) as [E|[E|[E|[E|E]]]]; rewrite E; cbn [fst snd].
  - split; [exists (-50)%Z; split; [cbn; tauto | reflexivity]|].
    change (Qltb (- (1 # 2)) 0) with true. change (Qgtb (- (1 # 2)) 0) with false.
    cbv iota. change (Qgtb 0 0) with false. cbv iota.
    destruct (Qgtb (a * Qabs (- (1 # 2)) / 100) 0) eqn:G; qprop;
      rewrite div_100 in G; change (Qabs (- (1 # 2))) with (1 # 2) in *;
      repeat split; try lra; try (intros; lra); try (intros; split; lra).
    apply round2_nonneg. rewrite div_100. lra.
  - split; [exists (-25)%Z; split; [cbn; tauto | reflexivity]|].
    change (Qltb (- (1 # 4)) 0) with true. change (Qgtb (- (1 # 4)) 0) with false.
    cbv iota. change (Qgtb 0 0) with false. cbv iota.
    destruct (Qgtb (a * Qabs (- (1 # 4)) / 100) 0) eqn:G; qprop;
      rewrite div_100 in G; change (Qabs (- (1 # 4))) with (1 # 4) in *;
      repeat split; try lra; try (intros; lra); try (intros; split; lra).
    apply round2_nonneg. rewrite div_100. lra.
  - split; [exists 0%Z; split; [cbn; tauto | reflexivity]|].
    change (Qltb 0 0) with false. change (Qgtb 0 0) with false. cbv iota.
    change (Qgtb 0 0) with false. cbv iota.
    repeat split; try lra; try (intros; lra); try (intros; split; lra).
  - split; [exists 25%Z; split; [cbn; tauto | reflexivity]|].
    change (Qltb (1 # 4) 0) with false. change (Qgtb (1 # 4) 0) with true.
    cbv iota. change (Qgtb 0 0) with false. cbv iota.
    destruct (Qgtb (a * (1 # 4) / 100) 0) eqn:G; qprop;
      rewrite div_100 in G;
      repeat split; try lra; try (intros; lra); try (intros; split; lra).
    apply round2_nonneg. rewrite div_100. lra.
  - split; [exists 50%Z; split; [cbn; tauto | reflexivity]|].
    change (Qltb (1 # 2) 0) with false. change (Qgtb (1 # 2) 0) with true.
    cbv iota. change (Qgtb 0 0) with false. cbv iota.
    destruct (Qgtb (a * (1 # 2) / 100) 0) eqn:G; qprop;
      rewrite div_100 in G;
      repeat split; try lra; try (intros; lra); try (intros; split; lra).
    apply round2_nonneg. rewrite div_100. lra.
Qed.

(** X17: the endpoint [POST /calculate] answers 404, leaving the store
    as it is, when the loan is unknown, and never answers 500; for a
    known loan the adjustment in basis points is -50, -25, 0, 25 or 50 and
    the annual impact is non-negative (savings) when it is negative,
    non-positive (cost) when it is positive, and zero when it is zero. *)
Theorem calculate_loan_pricing_endpoint (db : Db) (now : datetime) (id : Z)
  (user_id : option Z) :
  (query_loan db id = None ->
   PricingApi.calculate_loan_pricing db now id user_id = (db, HTTPException 404)) /\
  (query_loan db id <> None ->
   exists db' body,
     PricingApi.calculate_loan_pricing db now id user_id = (db', Response body) /\
     (exists bps : Z, In bps [-50; -25; 0; 25; 50]%Z /\
                      PricingApi.margin_adjustment_bps body == inject_Z bps) /\
     (PricingApi.margin_adjustment_bps body < 0 -> 0 <= PricingApi.annual_impact body) /\
     (0 < PricingApi.margin_adjustment_bps body -> PricingApi.annual_impact body <= 0) /\
     (PricingApi.margin_adjustment_bps body == 0 -> PricingApi.annual_impact body == 0)).
Proof.
  unfold PricingApi.calculate_loan_pricing. split.
  - intros H. unfold Pricing.update_loan_pricing. now rewrite H.
  - intros Hl. destruct (query_loan db id) as [loan|] eqn:Hloan; [|congruence].
    destruct (update_loan_pricing_eq db now id user_id
                (Some "Dynamic pricing calculation via API"%string) loan Hloan)
      as (score & _ & _ & _ & E).
    rewrite E. eexists _, _. split; [reflexivity|].
    cbn [PricingApi.margin_adjustment_bps PricingApi.annual_impact].
    destruct (priced_impact loan score) as (A & S0 & C0 & N & P & Z0).
    set (adj := Pricing.pu_margin_adjustment (priced loan score)) in *.
    set (sv := Pricing.pu_annual_savings (priced loan score)) in *.
    set (ct := Pricing.pu_annual_cost (priced loan score)) in *.
    clearbody adj sv ct.
    split; [exact A|]. split; [|split].
    + intros Hneg. assert (Ha : adj < 0) by lra. specialize (N Ha). lra.
    + intros Hpos. assert (Ha : 0 < adj) by lra. specialize (P Ha). lra.
    + intros Hz. assert (Ha : adj == 0) by lra. destruct (Z0 Ha). lra.
Qed.

Lemma calculate_loan_pricing_endpoint_witness :
  PricingApi.calculate_loan_pricing (db_of []) 5%Z 2 None =
    (db_of [], HTTPException 404) /\
  exists db' body,
    PricingApi.calculate_loan_pricing (db_of []) 5%Z 1 None = (db', Response body).
Proof.
  split.
  - apply (proj1 (calculate_loan_pricing_endpoint (db_of []) 5%Z 2 None)).
    reflexivity.
  - destruct (proj2 (calculate_loan_pricing_endpoint (db_of []) 5%Z 1 None))
      as (db' & body & H & _).
    + discriminate.
    + now exists db', body.
Defined.

Lemma history_record_impact (row : PricingHistory) :
  get_number (PricingApi.history_record row) "annual_impact" 0 = Some 0.
Proof. reflexivity. Qed.

Lemma history_record_score (row : PricingHistory) :
  get_number (PricingApi.history_record row) "esg_performance_score" 0 =
    Some (ph_esg_performance_score row).
Proof. reflexivity. Qed.

Lemma total_impact_records (rows : list PricingHistory) :
  exists total,
    PricingApi.total_impact_of (map PricingApi.history_record rows) = Some total /\
    total == 0.
Proof.
  induction rows as [|row rows (total & H & Hz)].
  - exists 0. split; reflexivity.
  - cbn [map PricingApi.total_impact_of].
    rewrite history_record_impact, H. exists (0 + total). split; [reflexivity|].
    rewrite Hz. reflexivity.
Qed.

Lemma last_map {A B : Type} (f : A -> B) (l : list A) (d : A) :
  last (map f l) (f d) = f (last l d).
Proof.
  induction l as [|x l IH]; [reflexivity|].
  destruct l as [|y l]; [reflexivity|]. exact IH.
Qed.

(** X18: the endpoint [GET /summary/{loan_id}] answers 404 when the loan
    is unknown and never 500; its total impact is always 0, since no
    history record carries an "annual_impact" entry; it lists at most
    three records; and with [rows] the five latest ledger rows, the trend
    is "stable" for fewer than two rows and otherwise compares the score
    of the latest row with that of the last of the five, "improving" when
    it is higher and "declining" when it is lower. *)
Theorem pricing_summary_endpoint (db : Db) (id : Z) :
  (query_loan db id = None ->
   PricingApi.get_loan_pricing_summary db id = HTTPException 404) /\
  (query_loan db id <> None ->
   exists body,
     PricingApi.get_loan_pricing_summary db id = Response body /\
     PricingApi.total_impact body == 0 /\
     PricingApi.recent_history body =
       map PricingApi.history_record (firstn 3 (query_pricing_history db id 5)) /\
     (length (PricingApi.recent_history body) <= 3)%nat /\
     PricingApi.performance_trend body =
       match query_pricing_history db id 5 with
       | [] | [_] => PricingApi.trend_stable
       | latest :: rows =>
           if Qgtb (ph_esg_performance_score latest)
                   (ph_esg_performance_score (last rows latest))
           then PricingApi.trend_improving
           else if Qltb (ph_esg_performance_score latest)
                        (ph_esg_performance_score (last rows latest))
           then PricingApi.trend_declining
           else PricingApi.trend_stable
       end).
Proof.
  unfold PricingApi.get_loan_pricing_summary. split.
  - intros H. now rewrite H.
  - intros Hl. destruct (query_loan db id) as [loan|] eqn:Hloan; [|congruence].
    unfold PricingApi.get_pricing_history. rewrite Hloan. cbn [handle].
    set (rows := query_pricing_history db id 5).
    destruct (total_impact_records rows) as (total & Ht & Hz). rewrite Ht.
    assert (T : PricingApi.performance_trend_of (map PricingApi.history_record rows) =
                Some match rows with
                     | [] | [_] => PricingApi.trend_stable
                     | latest :: rest =>
                         if Qgtb (ph_esg_performance_score latest)
                                 (ph_esg_performance_score (last rest latest))
                         then PricingApi.trend_improving
                         else if Qltb (ph_esg_performance_score latest)
                                      (ph_esg_performance_score (last rest latest))
                         then PricingApi.trend_declining
                         else PricingApi.trend_stable
                     end).
    { destruct rows as [|r1 [|r2 rest]]; [reflexivity | reflexivity |].
      cbn [map PricingApi.performance_trend_of].
      rewrite history_record_score.
      change (PricingApi.history_record r1 :: PricingApi.history_record r2 ::
              map PricingApi.history_record rest)
        with (map PricingApi.history_record (r1 :: r2 :: rest)).
      rewrite last_map, history_record_score.
      change (last (r1 :: r2 :: rest) r1) with (last (r2 :: rest) r1).
      repeat (destruct (_ : bool); try reflexivity). }
    rewrite T. eexists. split; [reflexivity|].
    cbn [PricingApi.total_impact PricingApi.recent_history
         PricingApi.performance_trend].
    split; [exact Hz|]. split; [apply firstn_map|].
    split; [apply firstn_le_length | reflexivity].
Qed.

Lemma pricing_summary_endpoint_witness :
  PricingApi.get_loan_pricing_summary (db_of []) 2 = HTTPException 404 /\
  exists body,
    PricingApi.get_loan_pricing_summary (db_of []) 1 = Response body /\
    PricingApi.total_impact body == 0.
Proof.
  split.
  - apply (proj1 (pricing_summary_endpoint (db_of []) 2)). reflexivity.
  - destruct (proj2 (pricing_summary_endpoint (db_of []) 1)) as (body & H & Hz & _).
    + discriminate.
    + now exists body.
Defined.

End PricingEndpoints.

(** ** Risk endpoints *)

Section RiskEndpoints.

(** What an assessment keeps. *)
Lemma create_risk_assessment_keeps (db db' : Db) (now : datetime) (id : Z)
  (rep : Risk.RiskReport) :
  Risk.create_risk_assessment db now id = Ok (db', rep) ->
  query_loan db id <> None /\
  (forall other, query_loan db' other = None <-> query_loan db other = None) /\
  esg_kpis db' = esg_kpis db /\ covenants db' = covenants db /\
  verifications db' = verifications db /\
  pricing_history db' = pricing_history db /\
  exists row, risk_assessments db' = risk_assessments db ++ [row] /\
              ra_loan_id row = id.
Proof.
  unfold Risk.create_risk_assessment.
  destruct (query_loan db id) as [loan|] eqn:Hloan; [|discriminate].
  destruct (Risk.calculate_comprehensive_risk_score db now id) as [overall|];
    [|discriminate]. cbn [bind].
  destruct (Risk.calculate_covenant_breach_probability db id); [|discriminate].
  cbn [bind].
  destruct (Risk.calculate_esg_risk_score db id); [|discriminate]. cbn [bind].
  destruct (Risk.calculate_financial_risk_score db now id); [|discriminate].
  cbn [bind].
  destruct (Risk.predict_breach_date db now id); [|discriminate]. cbn [bind].
  destruct (Risk.generate_risk_factors db now id); [|discriminate]. cbn [bind].
  destruct (Risk.generate_recommendations db id overall); [|discriminate].
  cbn [bind].
  destruct (dict_get Risk.risk_categories (Risk.categorize_risk overall));
    [|discriminate]. cbn [bind].
  intros [= <- _]. unfold update_loan.
  cbn [loans esg_kpis covenants verifications pricing_history risk_assessments].
  split; [discriminate|]. split.
  { intros other. unfold query_loan. cbn [loans].
    destruct (Z.eq_dec other id) as [->|Hne].
    - rewrite find_update by reflexivity. fold (query_loan db id).
      rewrite Hloan. cbn. split; discriminate.
    - now rewrite find_update_other by (try reflexivity; exact Hne). }
  repeat (split; [reflexivity|]).
  eexists. split; reflexivity.
Qed.



Lemma build_history_fails (a : RiskAssessment) (rest : list RiskAssessment)
  (history : list RiskApi.RiskHistoryEntry) :
  RiskApi.build_history history (a :: rest) = None.
Proof. reflexivity. Qed.

(** X20: the endpoint [GET /history/{loan_id}] answers 404 for an
    unknown loan; for a known loan it answers with an empty history when
    the loan has no assessment or the limit is 0, and with 500 otherwise,
    because the entries read "breach_probability", which the model of an
    assessment does not declare: once [POST /assess/{loan_id}] has
    succeeded for a loan, its history with a positive limit is a 500. *)
Theorem get_risk_history_endpoint (db : Db) (id : Z) (limit : nat) :
  (query_loan db id = None ->
   RiskApi.get_risk_history db id limit = HTTPException 404) /\
  (query_loan db id <> None -> assessments_of db id = [] \/ limit = 0%nat ->
   RiskApi.get_risk_history db id limit = Response []) /\
  (query_loan db id <> None -> assessments_of db id <> [] -> limit <> 0%nat ->
   RiskApi.get_risk_history db id limit = HTTPException 500) /\
  (forall now db' body,
      RiskApi.assess_loan_risk db now id = (db', Response body) -> limit <> 0%nat ->
      RiskApi.get_risk_history db' id limit = HTTPException 500).
Proof.
  assert (K : forall d, query_loan d id <> None -> assessments_of d id <> [] ->
                        limit <> 0%nat ->
                        RiskApi.get_risk_history d id limit = HTTPException 500).
  { intros d Hl Ha Hn. unfold RiskApi.get_risk_history.
    destruct (query_loan d id) as [loan|]; [|congruence].
    destruct limit as [|n]; [congruence|].
    destruct (order_by_desc assessment_date (assessments_of d id)) as [|a l] eqn:E.
    - exfalso. apply Ha.
      pose proof (order_by_desc_perm assessment_date (assessments_of d id)) as P.
      rewrite E in P. now apply Permutation_nil in P.
    - reflexivity. }
  split; [|split; [|split]].
  - intros H. unfold RiskApi.get_risk_history. now rewrite H.
  - intros Hl Hcase. unfold RiskApi.get_risk_history.
    destruct (query_loan db id) as [loan|]; [|congruence].
    destruct Hcase as [He| ->]; [rewrite He; now rewrite firstn_nil | reflexivity].
  - apply K.
  - intros now db' body H Hn. unfold RiskApi.assess_loan_risk in H.
    destruct (Risk.create_risk_assessment db now id) as [[d rep]|e] eqn:E.
    + injection H as <- _.
      destruct (create_risk_assessment_keeps db d now id rep E)
        as (Hl & Hsame & _ & _ & _ & _ & row & Hrows & Hid).
      apply K; [| |exact Hn].
      * intros N. apply Hl. now apply Hsame.
      * unfold assessments_of. rewrite Hrows, filter_app. cbn [filter].
        rewrite Hid, Z.eqb_refl. intros N. now apply app_eq_nil in N as [_ N].
    + destruct e; discriminate.
Qed.

Lemma get_risk_history_endpoint_witness :
  RiskApi.get_risk_history (db_of []) 2 10 = HTTPException 404 /\
  RiskApi.get_risk_history (db_of []) 1 10 = Response [] /\
  RiskApi.get_risk_history (db_with_assessments [assessment_row 0%Z 90]) 1 10 =
    HTTPException 500.
Proof.
  split; [|split].
  - apply (proj1 (get_risk_history_endpoint (db_of []) 2 10)). reflexivity.
  - apply (proj1 (proj2 (get_risk_history_endpoint (db_of []) 1 10)));
      [discriminate | now left].
  - apply (proj1 (proj2 (proj2 (get_risk_history_endpoint
                                  (db_with_assessments [assessment_row 0%Z 90])
                                  1 10)))); discriminate.
Defined.

End RiskEndpoints.

(** ** Risk dashboard *)

Section Dashboard.

Lemma count_loan_step (loan : Loan) (a b c d : Z) (hs : list RiskApi.HighRiskLoan) :
  RiskApi.count_loan
    ([ ("low"%string, a); ("moderate"%string, b); ("elevated"%string, c);
       ("high"%string, d) ], hs) loan =
  ([ ("low"%string, (a + count_category "low" [loan])%Z);
     ("moderate"%string, (b + count_moderate [loan])%Z);
     ("elevated"%string, (c + count_category "elevated" [loan])%Z);
     ("high"%string, (d + count_category "high" [loan])%Z) ], hs).
Proof.
  unfold RiskApi.count_loan, count_category, count_moderate. cbn [filter].
  remember (RiskApi.risk_cat_of loan) as cat eqn:Hcat. clear Hcat.
  unfold dict_mem, dict_update. cbn [existsb map fst snd].
  destruct (String.eqb "low" cat) eqn:E1.
  { apply String.eqb_eq in E1. subst cat. cbn. now rewrite !Z.add_0_r. }
  destruct (String.eqb "moderate" cat) eqn:E2.
  { apply String.eqb_eq in E2. subst cat. cbn. now rewrite !Z.add_0_r. }
  destruct (String.eqb "elevated" cat) eqn:E3.
  { apply String.eqb_eq in E3. subst cat. cbn. now rewrite !Z.add_0_r. }
  destruct (String.eqb "high" cat) eqn:E4.
  { apply String.eqb_eq in E4. subst cat. cbn. now rewrite !Z.add_0_r. }
  cbn [orb negb andb length Z.of_nat].
  assert (I : in_strings cat ["elevated"; "high"]%string = false).
  { unfold in_strings. cbn [existsb].
    rewrite (String.eqb_sym cat "elevated"), (String.eqb_sym cat "high"), E3, E4.
    reflexivity. }
  rewrite I. cbn [String.eqb Ascii.eqb Bool.eqb andb]. cbn.
  now rewrite !Z.add_0_r.
Qed.

Lemma count_category_cons (c : string) (loan : Loan) (ls : list Loan) :
  count_category c (loan :: ls) = (count_category c [loan] + count_category c ls)%Z.
Proof.
  unfold count_category. cbn [filter].
  destruct (String.eqb c _); cbn [length]; lia.
Qed.

Lemma count_moderate_cons (loan : Loan) (ls : list Loan) :
  count_moderate (loan :: ls) = (count_moderate [loan] + count_moderate ls)%Z.
Proof.
  unfold count_moderate. cbn [filter].
  destruct (_ && _); cbn [length]; lia.
Qed.

Lemma count_loans (ls : list Loan) (a b c d : Z) (hs : list RiskApi.HighRiskLoan) :
  fold_left RiskApi.count_loan ls
    ([ ("low"%string, a); ("moderate"%string, b); ("elevated"%string, c);
       ("high"%string, d) ], hs) =
  ([ ("low"%string, (a + count_category "low" ls)%Z);
     ("moderate"%string, (b + count_moderate ls)%Z);
     ("elevated"%string, (c + count_category "elevated" ls)%Z);
     ("high"%string, (d + count_category "high" ls)%Z) ], hs).
Proof.
  revert a b c d. induction ls as [|loan ls IH]; intros a b c d.
  - cbn. now rewrite !Z.add_0_r.
  - cbn [fold_left]. rewrite count_loan_step, IH.
    rewrite !(count_category_cons _ loan ls), (count_moderate_cons loan ls).
    now rewrite !Z.add_assoc.
Qed.

Lemma count_partition (ls : list Loan) :
  (count_category "low" ls + count_moderate ls + count_category "elevated" ls +
   count_category "high" ls = Z.of_nat (length ls))%Z.
Proof.
  induction ls as [|loan ls IH]; [reflexivity|].
  rewrite !(count_category_cons _ loan ls), (count_moderate_cons loan ls).
  cbn [length]. rewrite Nat2Z.inj_succ.
  assert (One : (count_category "low" [loan] + count_moderate [loan] +
                 count_category "elevated" [loan] + count_category "high" [loan]
                 = 1)%Z).
  { unfold count_category, count_moderate. cbn [filter].
    remember (RiskApi.risk_cat_of loan) as cat eqn:Hcat. clear Hcat.
    destruct (String.eqb "low" cat) eqn:E1.
    { apply String.eqb_eq in E1. subst cat. reflexivity. }
    destruct (String.eqb "elevated" cat) eqn:E3.
    { apply String.eqb_eq in E3. subst cat. reflexivity. }
    destruct (String.eqb "high" cat) eqn:E4.
    { apply String.eqb_eq in E4. subst cat. reflexivity. }
    reflexivity. }
  lia.
Qed.

(** X21: the dashboard never answers with an error; its risk
    distribution keeps the four categories and counts every loan exactly
    once, under its own risk category when that is "low", "elevated" or
    "high" and under "moderate" otherwise (no category yet, or any other
    text), so the four counts add up to the number of loans. *)
Theorem risk_dashboard_distribution (db : Db) :
  exists body,
    RiskApi.get_risk_dashboard db = Response body /\
    RiskApi.total_loans body = Z.of_nat (length (loans db)) /\
    RiskApi.risk_distribution body =
      [ ("low"%string, count_category "low" (loans db));
        ("moderate"%string, count_moderate (loans db));
        ("elevated"%string, count_category "elevated" (loans db));
        ("high"%string, count_category "high" (loans db)) ] /\
    (count_category "low" (loans db) + count_moderate (loans db) +
     count_category "elevated" (loans db) + count_category "high" (loans db) =
     RiskApi.total_loans body)%Z.
Proof.
  unfold RiskApi.get_risk_dashboard, RiskApi.risk_distribution_init.
  rewrite count_loans. eexists. split; [reflexivity|].
  cbn [RiskApi.total_loans RiskApi.risk_distribution].
  split; [reflexivity|]. split; [reflexivity|]. apply count_partition.
Qed.

(** X22: the dashboard never lists a high-risk loan and never raises an
    alert, whatever the loans are: every entry reads "principal_amount",
    which the loan model does not declare, and the failure is swallowed by
    the handler of the loop; the recent assessments are at most ten. *)
Theorem risk_dashboard_no_high_risk (db : Db) :
  exists body,
    RiskApi.get_risk_dashboard db = Response body /\
    RiskApi.high_risk_loans body = [] /\ RiskApi.alerts body = [] /\
    (length (RiskApi.recent_assessments body) <= 10)%nat.
Proof.
  unfold RiskApi.get_risk_dashboard, RiskApi.risk_distribution_init.
  rewrite count_loans. eexists. split; [reflexivity|].
  cbn [RiskApi.high_risk_loans RiskApi.alerts RiskApi.recent_assessments].
  split; [reflexivity|]. split; [reflexivity|].
  rewrite length_map. apply firstn_le_length.
Qed.

End Dashboard.

(** ** Breach prediction and bulk assessment *)

Section BreachPrediction.



End BreachPrediction.

Section Bulk.









End Bulk.

(** ** [calculate_sustainable_investment_percentage] *)

Lemma count_if_cons {A : Type} (p : A -> bool) (x : A) (xs : list A) :
  count_if p (x :: xs) = ((if p x then 1 else 0) + count_if p xs)%Z.
Proof.
  unfold count_if. simpl. destruct (p x); simpl length; lia.
Qed.

Lemma count_if_nonneg {A : Type} (p : A -> bool) (xs : list A) :
  (0 <= count_if p xs)%Z.
Proof. unfold count_if. lia. Qed.

Lemma count_dnsh_counts (kpis : list ESGKpi) (d n : Z) :
  for_each Sfdr.count_dnsh kpis (d, n) =
  Ok ((d + count_if meets kpis)%Z, (n + count_if counted kpis)%Z).
Proof.
  revert d n. induction kpis as [|k ks IH]; intros d n.
  - unfold count_if. simpl. now rewrite !Z.add_0_r.
  - rewrite !count_if_cons. cbn [for_each].
    unfold Sfdr.count_dnsh at 1, meets at 1, counted at 1.
    destruct (target_value k) as [t|], (current_value k) as [c|];
      cbn [bind]; try (rewrite IH; f_equal; f_equal; lia).
    destruct (nonzero t && nonzero c); cbn [andb bind];
      [|rewrite IH; f_equal; f_equal; lia].
    destruct (Qgeb c (t * (8 # 10))); cbn [bind]; rewrite IH; f_equal; f_equal; lia.
Qed.

Lemma rate_ge (m n k : Z) :
  (0 < n)%Z ->
  Qgeb (inject_Z m / inject_Z n * 100) (inject_Z k) = (k * n <=? 100 * m)%Z.
Proof.
  intros Hn.
  assert (Hq : inject_Z 0 < inject_Z n) by (rewrite <- Zlt_Qlt; exact Hn).
  change (inject_Z 0) with 0 in Hq.
  assert (E : inject_Z m / inject_Z n * 100 == inject_Z (100 * m) / inject_Z n).
  { rewrite inject_Z_mult. field. intros H. rewrite H in Hq. now apply Qlt_irrefl in Hq. }
  destruct (Z.leb_spec (k * n) (100 * m)) as [H|H].
  - apply Qgeb_true. rewrite E. apply Qle_shift_div_l; [exact Hq|].
    rewrite <- inject_Z_mult, <- Zle_Qle. exact H.
  - apply Qgeb_false. rewrite E. apply Qlt_shift_div_r; [exact Hq|].
    rewrite <- inject_Z_mult, <- Zlt_Qlt. exact H.
Qed.

Lemma sustainable_investment_of_counts (kpis : list ESGKpi) :
  Sfdr.sustainable_investment_of kpis =
  Ok (conservative (count_if meets kpis) (count_if counted kpis)).
Proof.
  unfold Sfdr.sustainable_investment_of. destruct kpis as [|k ks]; [reflexivity|].
  rewrite count_dnsh_counts. cbn [bind]. rewrite !Z.add_0_l.
  pose proof (count_if_nonneg counted (k :: ks)) as Hn.
  set (m := count_if meets (k :: ks)) in *.
  set (n := count_if counted (k :: ks)) in *. clearbody m n.
  unfold conservative. destruct (Z.eqb_spec n 0) as [E|E]; [reflexivity|].
  rewrite py_div_ok.
  2:{ intros H. apply E. unfold Qeq in H. simpl in H. lia. }
  cbn [bind].
  change 90 with (inject_Z 90). change 75 with (inject_Z 75).
  change 50 with (inject_Z 50).
  rewrite !rate_ge by lia.
  destruct (90 * n <=? 100 * m)%Z; [reflexivity|].
  destruct (75 * n <=? 100 * m)%Z; [reflexivity|].
  destruct (50 * n <=? 100 * m)%Z; reflexivity.
Qed.

(** X25 (sfdr_compliance_engine.py, calculate_sustainable_investment_percentage).
    The function never raises and returns one of 0, 50, 75 and 100.  It
    returns 0.0 for an unknown loan, for a loan that is not
    sustainability-linked and for a loan none of whose KPIs has both
    target and current value set and non-zero.  Otherwise, with [n] the
    number of such KPIs and [m] the number of those whose current value
    is at least 80% of the target, it returns [conservative m n]: 100.0
    when [m/n >= 90%], 75.0 when [m/n >= 75%], 50.0 when [m/n >= 50%]
    and 0.0 below; this is stated for the loans whose KPIs are all clear
    of the 80% boundary, which the program tests on the rounded product
    [target * 0.8]. *)
Theorem sustainable_investment_percentage_spec (db : Db) (id : Z) :
  let kpis := query_kpis db id in
  let n := count_if counted kpis in
  let m := count_if meets kpis in
  exists v,
    Sfdr.calculate_sustainable_investment_percentage db id = Ok v /\
    (v = 0 \/ v = 50 \/ v = 75 \/ v = 100) /\
    (m <= n)%Z /\
    match query_loan db id with
    | None => v = 0
    | Some loan =>
        if Sfdr.not_linked loan then v = 0
        else (n = 0%Z -> v = 0) /\
             ((forall kpi, In kpi kpis -> decided (8 # 10) kpi) ->
              v = conservative m n)
    end.
Proof.
  intros kpis n m.
  assert (Hmn : (m <= n)%Z).
  { subst m n. induction kpis as [|k ks IH]; [unfold count_if; simpl; lia|].
    rewrite !count_if_cons. unfold meets at 1, counted at 1.
    destruct (target_value k), (current_value k); try lia.
    destruct (nonzero q && nonzero q0); cbn [andb]; [|lia].
    destruct (Qgeb q0 (q * (8 # 10))); lia. }
  unfold Sfdr.calculate_sustainable_investment_percentage.
  destruct (query_loan db id) as [loan|].
  2:{ exists 0. repeat split; auto. }
  destruct (Sfdr.not_linked loan).
  { exists 0. repeat split; auto. }
  rewrite sustainable_investment_of_counts. fold kpis. fold n. fold m.
  exists (conservative m n). split; [reflexivity|].
  split; [|split; [exact Hmn|split]].
  - unfold conservative.
    destruct (n =? 0)%Z; [now left|].
    destruct (90 * n <=? 100 * m)%Z; [now right; right; right|].
    destruct (75 * n <=? 100 * m)%Z; [now right; right; left|].
    destruct (50 * n <=? 100 * m)%Z; [now right; left|now left].
  - intros ->. reflexivity.
  - intros _. reflexivity.
Qed.

Lemma sustainable_investment_percentage_spec_witness :
  Sfdr.calculate_sustainable_investment_percentage
    (db_of [ kpi_of "environmental" 30 65 100; kpi_of "social" 100 50 10 ]) 1 =
  Ok 50.
Proof.
  destruct (sustainable_investment_percentage_spec
              (db_of [ kpi_of "environmental" 30 65 100; kpi_of "social" 100 50 10 ]) 1)
    as (v & Hv & _ & _ & H).
  cbn in H. destruct H as [_ H]. rewrite Hv. f_equal. rewrite H; [reflexivity|].
  intros kpi [<-|[<-|[]]] c t [= <-] [= <-] _ _;
    split; vm_compute; first [reflexivity | discriminate].
Defined.

(** ** Substrings *)

Lemma prefix_spec (p s : string) :
  String.prefix p s = true <-> exists b, s = (p ++ b)%string.
Proof.
  revert s. induction p as [|c p IH]; intros s.
  - split; [intros _; now exists s|intros _; now destruct s].
  - destruct s as [|c' s]; cbn [String.prefix].
    + split; [discriminate|intros [b H]; discriminate].
    + destruct (ascii_dec c c') as [->|N].
      * rewrite IH. split; intros [b H]; exists b.
        -- simpl. now f_equal.
        -- simpl in H. now injection H.
      * split; [discriminate|]. intros [b H]. simpl in H. injection H as H1 _.
        now elim N.
Qed.

Lemma contains_unfold (sub s : string) :
  contains sub s =
  String.prefix sub s ||
  match s with EmptyString => false | String _ s' => contains sub s' end.
Proof. now destruct s. Qed.

Lemma contains_spec (sub s : string) :
  contains sub s = true <-> exists a b, s = (a ++ sub ++ b)%string.
Proof.
  split.
  - induction s as [|c s IH]; rewrite contains_unfold; intros H;
      apply orb_true_iff in H; destruct H as [H|H]; try discriminate.
    + apply prefix_spec in H. destruct H as [b H]. now exists EmptyString, b.
    + apply prefix_spec in H. destruct H as [b H]. now exists EmptyString, b.
    + destruct (IH H) as (a & b & E). exists (String c a), b. simpl. now f_equal.
  - intros (a & b & E). subst s. induction a as [|c a IH].
    + rewrite contains_unfold. apply orb_true_iff. left.
      apply prefix_spec. now exists b.
    + change (String c a ++ sub ++ b)%string with (String c (a ++ sub ++ b)%string).
      rewrite contains_unfold, IH. apply orb_true_r.
Qed.

Lemma string_app_assoc (a b c : string) :
  ((a ++ b) ++ c = a ++ b ++ c)%string.
Proof. induction a as [|x a IH]; simpl; [reflexivity|now f_equal]. Qed.

Lemma contains_waste_water (s : string) :
  contains "water" s || contains "waste water" s = contains "water" s.
Proof.
  destruct (contains "water" s) eqn:E; [reflexivity|]. simpl.
  destruct (contains "waste water" s) eqn:F; [|reflexivity].
  apply contains_spec in F. destruct F as (a & b & F).
  rewrite <- E. symmetry. apply contains_spec.
  exists (a ++ "waste ")%string, b. rewrite F, string_app_assoc. reflexivity.
Qed.

(** ** [assess_dnsh_compliance] *)

Section Dnsh.

Import SfdrReport.

Lemma check_kpi_state (wm pol : Area) (kpi : ESGKpi) :
  check_kpi (harm_state wm pol) kpi =
  harm_state (flag_if (water_harm kpi) (water_issue kpi) wm)
             (flag_if (pollution_harm kpi) (pollution_issue kpi) pol).
Proof.
  unfold check_kpi, water_harm, pollution_harm, flag_if.
  rewrite contains_waste_water.
  destruct (contains "pollution" (lower (kpi_name kpi))
            || contains "contamination" (lower (kpi_name kpi)));
    destruct (contains "water" (lower (kpi_name kpi)));
    destruct (exceeds kpi); reflexivity.
Qed.

Lemma area_of_flag (b : bool) (issue : string) (found : list string) :
  flag_if b issue (area_of found) = area_of (found ++ if b then [issue] else []).
Proof.
  destruct b; simpl; [|now rewrite app_nil_r].
  unfold area_of. simpl. now destruct found.
Qed.

Lemma dnsh_loop (kpis : list ESGKpi) (w p : list string) :
  fold_left check_kpi kpis (harm_state (area_of w) (area_of p)) =
  harm_state (area_of (w ++ map water_issue (filter water_harm kpis)))
             (area_of (p ++ map pollution_issue (filter pollution_harm kpis))).
Proof.
  revert w p. induction kpis as [|k ks IH]; intros w p.
  - simpl. now rewrite !app_nil_r.
  - cbn [fold_left]. rewrite check_kpi_state, !area_of_flag, IH. cbn [filter].
    f_equal; f_equal.
    + destruct (water_harm k); simpl; [now rewrite <- app_assoc|now rewrite app_nil_r].
    + destruct (pollution_harm k); simpl; [now rewrite <- app_assoc|now rewrite app_nil_r].
Qed.

Lemma no_issue_iff {A : Type} (p : A -> bool) (f : A -> string) (xs : list A) :
  match map f (filter p xs) with [] => true | _ :: _ => false end =
  negb (existsb p xs).
Proof.
  induction xs as [|x xs IH]; [reflexivity|]. simpl.
  destruct (p x); simpl; [reflexivity|exact IH].
Qed.

(** X26 (sfdr_compliance_engine.py, assess_dnsh_compliance).  Of the six
    areas only "water_marine" and "pollution" are ever written; the
    other four stay compliant with no issue.  An area is compliant
    exactly when it has no issue, and the assessment is overall
    compliant exactly when neither of the two areas has one.  For the
    loans whose KPIs are all clear of the 120% boundary, which the
    program tests on the rounded product [target * 1.2]: "pollution"
    lists, in the order of the query, one issue for each KPI whose
    lower-cased name contains "pollution" or "contamination" and whose
    non-zero current value exceeds 1.2 times its non-zero target, and
    "water_marine" does the same for the names that contain "water" (the
    test for "waste water" adds nothing). *)
Theorem dnsh_compliance_spec (db : Db) (id : Z) :
  let kpis := query_kpis db id in
  let r := assess_dnsh_compliance db id in
  exists water pollution,
    environmental_harm r = harm_state (area_of water) (area_of pollution) /\
    overall_compliant r =
      match water, pollution with
      | [], [] => true
      | _, _ => false
      end /\
    ((forall kpi, In kpi kpis -> decided (12 # 10) kpi) ->
     water = map water_issue (filter water_harm kpis) /\
     pollution = map pollution_issue (filter pollution_harm kpis) /\
     overall_compliant r =
       negb (existsb water_harm kpis) && negb (existsb pollution_harm kpis)).
Proof.
  intros kpis r.
  exists (map water_issue (filter water_harm kpis)),
         (map pollution_issue (filter pollution_harm kpis)).
  assert (E : environmental_harm r =
    harm_state (area_of (map water_issue (filter water_harm kpis)))
               (area_of (map pollution_issue (filter pollution_harm kpis)))).
  { subst r. unfold assess_dnsh_compliance. cbn [environmental_harm].
    change environmental_harm_init with (harm_state (area_of []) (area_of [])).
    now rewrite dnsh_loop. }
  assert (O : overall_compliant r =
              forallb (fun area => compliant (snd area)) (environmental_harm r))
    by reflexivity.
  split; [exact E|]. split.
  - rewrite O, E. unfold harm_state, area_of. cbn [forallb snd compliant andb].
    destruct (map water_issue (filter water_harm kpis));
      destruct (map pollution_issue (filter pollution_harm kpis)); reflexivity.
  - intros _. split; [reflexivity|]. split; [reflexivity|].
    rewrite O, E. unfold harm_state, area_of. cbn [forallb snd compliant andb].
    rewrite !no_issue_iff. now rewrite andb_true_r.
Qed.

End Dnsh.

Lemma dnsh_compliance_spec_witness :
  SfdrReport.overall_compliant
    (SfdrReport.assess_dnsh_compliance
       (db_of [ mkKpi 1 "Air Pollution" (Some "environmental"%string)
                      (Some 10) (Some 15) None;
                mkKpi 1 "Water usage" (Some "environmental"%string)
                      (Some 100) (Some 90) None ]) 1) = false.
Proof.
  destruct (dnsh_compliance_spec
              (db_of [ mkKpi 1 "Air Pollution" (Some "environmental"%string)
                             (Some 10) (Some 15) None;
                       mkKpi 1 "Water usage" (Some "environmental"%string)
                             (Some 100) (Some 90) None ]) 1)
    as (water & pollution & _ & _ & H).
  destruct H as (_ & _ & ->); [|reflexivity].
  intros kpi [<-|[<-|[]]] c t [= <-] [= <-] _ _;
    split; vm_compute; first [reflexivity | discriminate].
Defined.

(** ** [assess_eu_taxonomy_alignment] *)

Section Taxonomy.

Import SfdrReport.

Lemma sum_performance_spec (kpis : list ESGKpi) (total : Q) :
  sum_performance total kpis =
  if existsb missing_current kpis then Raises TypeError
  else Returns (fold_left Qplus (map performance (filter has_target kpis)) total).
Proof.
  revert total. induction kpis as [|k ks IH]; intros total; [reflexivity|].
  cbn [sum_performance existsb filter].
  unfold add_performance, missing_current at 1, has_target at 1 2.
  destruct (target_value k) as [t|] eqn:T; cbn [andb orb]; [|apply IH].
  destruct (nonzero t && Qgtb t 0) eqn:E; cbn [andb orb]; [|apply IH].
  destruct (current_value k) as [c|] eqn:V; cbn [orb]; [|reflexivity].
  apply andb_true_iff in E. destruct E as [E _]. apply nonzero_true in E.
  rewrite (py_div_ok c t E). cbn [map fold_left].
  replace (performance k) with (c / t * 100)
    by (unfold performance; now rewrite V, T).
  apply IH.
Qed.

Lemma len_nonzero {A : Type} (x : A) (xs : list A) : ~ len (x :: xs) == 0.
Proof.
  unfold len, Qeq. simpl. lia.
Qed.

Lemma taxonomy_alignment_eq (db : Db) (id : Z) :
  assess_eu_taxonomy_alignment db id =
    match climate_kpis_of (query_kpis db id) with
    | [] => Returns (taxonomy_state unassessed)
    | _ :: _ =>
        if existsb missing_current (climate_kpis_of (query_kpis db id))
        then Raises TypeError
        else Returns (taxonomy_state
                        (mitigation_of
                           (average_performance (climate_kpis_of (query_kpis db id)))))
    end.
Proof.
  unfold assess_eu_taxonomy_alignment.
  destruct (climate_kpis_of (query_kpis db id)) as [|k ks] eqn:C; [reflexivity|].
  rewrite sum_performance_spec.
  destruct (existsb missing_current (k :: ks)); [reflexivity|].
  rewrite (py_div_ok _ _ (len_nonzero k ks)). reflexivity.
Qed.









End Taxonomy.


(** ** [calculate_pai_indicators] *)

Section Pai.

Import SfdrReport.

Lemma pai_init_state :
  pai_init =
  pai_state (untouched "GHG emissions" "tCO2e")
            (untouched "Share of non-renewable energy consumption" "percentage")
            (untouched "Emissions to water" "tonnes")
            (untouched "Hazardous waste ratio" "tonnes")
            (untouched "Board gender diversity" "percentage").
Proof. vm_compute. reflexivity. Qed.

Lemma map_kpi_state (e1 e5 e8 e9 e13 : PaiEntry) (kpi : ESGKpi) :
  map_kpi (pai_state e1 e5 e8 e9 e13) kpi =
  pai_state (write_if (ghg_kpi kpi) "reported" (current_value kpi) e1)
            (write_if (renewable_kpi kpi) "calculated" (non_renewable kpi) e5)
            (write_if (name_has "water" kpi) "reported" (current_value kpi) e8)
            (write_if (name_has "waste" kpi) "reported" (current_value kpi) e9)
            (write_if (gender_kpi kpi) "reported" (current_value kpi) e13).
Proof.
  unfold map_kpi, ghg_kpi, renewable_kpi, gender_kpi, name_has, non_renewable,
    truthy, write_if.
  destruct (contains "carbon" (lower (kpi_name kpi))
            || contains "emission" (lower (kpi_name kpi))
            || contains "ghg" (lower (kpi_name kpi)));
    destruct (contains "energy" (lower (kpi_name kpi))
              && contains "renewable" (lower (kpi_name kpi)));
    destruct (contains "water" (lower (kpi_name kpi)));
    destruct (contains "waste" (lower (kpi_name kpi)));
    destruct (contains "gender" (lower (kpi_name kpi))
              || contains "diversity" (lower (kpi_name kpi)));
    destruct (current_value kpi) as [c|]; try destruct (nonzero c);
    reflexivity.
Qed.

Lemma pai_loop (kpis : list ESGKpi) (e1 e5 e8 e9 e13 : PaiEntry) :
  fold_left map_kpi kpis (pai_state e1 e5 e8 e9 e13) =
  pai_state
    (fold_left (fun e k => write_if (ghg_kpi k) "reported" (current_value k) e) kpis e1)
    (fold_left (fun e k => write_if (renewable_kpi k) "calculated" (non_renewable k) e)
       kpis e5)
    (fold_left (fun e k => write_if (name_has "water" k) "reported" (current_value k) e)
       kpis e8)
    (fold_left (fun e k => write_if (name_has "waste" k) "reported" (current_value k) e)
       kpis e9)
    (fold_left (fun e k => write_if (gender_kpi k) "reported" (current_value k) e)
       kpis e13).
Proof.
  revert e1 e5 e8 e9 e13. induction kpis as [|k ks IH]; intros; [reflexivity|].
  cbn [fold_left]. rewrite map_kpi_state. apply IH.
Qed.

Lemma last_writer (p : ESGKpi -> bool) (quality name unit : string)
  (value : ESGKpi -> option Q) (kpis : list ESGKpi) :
  fold_left (fun e k => write_if (p k) quality (value k) e) kpis (untouched name unit) =
  indicator name unit quality value (last_match p kpis).
Proof.
  induction kpis as [|k ks IH] using rev_ind; [reflexivity|].
  rewrite fold_left_app. cbn [fold_left]. rewrite IH.
  unfold last_match. rewrite rev_app_distr. cbn [rev app find].
  unfold write_if. destruct (p k); [|reflexivity].
  unfold indicator. now destruct (find p (rev ks)).
Qed.

(** X28 (sfdr_compliance_engine.py, calculate_pai_indicators).  The
    result has the fourteen keys pai_1 to pai_14 in order, each with the
    name and unit of its indicator.  Only pai_1, pai_5, pai_8, pai_9 and
    pai_13 are ever written; the others keep the value None and the
    quality "estimated".  A written indicator holds what the last
    matching KPI of the query left: pai_1 the current value (None
    included) of the last KPI whose lower-cased name contains "carbon",
    "emission" or "ghg", with quality "reported"; pai_8, pai_9 and
    pai_13 likewise for "water", for "waste" and for "gender" or
    "diversity"; pai_5 holds 100 minus the current value of the last KPI
    whose name contains "energy" and "renewable" and whose current value
    is set and non-zero, with quality "calculated". *)
Theorem pai_indicators_spec (db : Db) (id : Z) :
  let kpis := query_kpis db id in
  calculate_pai_indicators db id =
    pai_state
      (indicator "GHG emissions" "tCO2e" "reported" current_value
         (last_match ghg_kpi kpis))
      (indicator "Share of non-renewable energy consumption" "percentage"
         "calculated" non_renewable (last_match renewable_kpi kpis))
      (indicator "Emissions to water" "tonnes" "reported" current_value
         (last_match (name_has "water") kpis))
      (indicator "Hazardous waste ratio" "tonnes" "reported" current_value
         (last_match (name_has "waste") kpis))
      (indicator "Board gender diversity" "percentage" "reported" current_value
         (last_match gender_kpi kpis)) /\
  map fst (calculate_pai_indicators db id) =
    map pai_key (seq 1 14).
Proof.
  intros kpis.
  assert (E : calculate_pai_indicators db id =
    pai_state
      (indicator "GHG emissions" "tCO2e" "reported" current_value
         (last_match ghg_kpi kpis))
      (indicator "Share of non-renewable energy consumption" "percentage"
         "calculated" non_renewable (last_match renewable_kpi kpis))
      (indicator "Emissions to water" "tonnes" "reported" current_value
         (last_match (name_has "water") kpis))
      (indicator "Hazardous waste ratio" "tonnes" "reported" current_value
         (last_match (name_has "waste") kpis))
      (indicator "Board gender diversity" "percentage" "reported" current_value
         (last_match gender_kpi kpis))).
  { unfold calculate_pai_indicators. fold kpis.
    rewrite pai_init_state, pai_loop, !last_writer. reflexivity. }
  split; [exact E|]. rewrite E. vm_compute. reflexivity.
Qed.

End Pai.

(** ** [assess_social_safeguards] and [generate_sfdr_report] *)

Section Report.

Import SfdrReport.

Lemma add_evidence_state (found : list string) (kpi : ESGKpi) :
  add_evidence (safeguards_state found) kpi =
  safeguards_state (found ++ if is_social kpi then [evidence_of kpi] else []).
Proof.
  unfold add_evidence. destruct (is_social kpi); [reflexivity|].
  now rewrite app_nil_r.
Qed.

Lemma safeguards_loop (kpis : list ESGKpi) (found : list string) :
  fold_left add_evidence kpis (safeguards_state found) =
  safeguards_state (found ++ map evidence_of (filter is_social kpis)).
Proof.
  revert found. induction kpis as [|k ks IH]; intros found.
  - simpl. now rewrite app_nil_r.
  - cbn [fold_left filter]. rewrite add_evidence_state, IH.
    destruct (is_social k); simpl; [now rewrite <- app_assoc|now rewrite app_nil_r].
Qed.

(** X29 (sfdr_compliance_engine.py, assess_social_safeguards).  All four
    safeguards are returned compliant whatever the KPIs of the loan are:
    nothing can make the assessment fail.  Only "ilo_conventions"
    collects evidence: one line per KPI whose category is set, non-empty
    and equal to "social" once lower-cased, in the order of the query. *)
Theorem social_safeguards_spec (db : Db) (id : Z) :
  assess_social_safeguards db id =
    safeguards_state (map evidence_of (filter is_social (query_kpis db id))) /\
  forallb (fun s => sg_compliant (snd s)) (assess_social_safeguards db id) = true /\
  length (assess_social_safeguards db id) = 4%nat.
Proof.
  assert (E : assess_social_safeguards db id =
    safeguards_state (map evidence_of (filter is_social (query_kpis db id)))).
  { unfold assess_social_safeguards.
    change safeguards_init with (safeguards_state []).
    now rewrite safeguards_loop. }
  rewrite E. repeat split; reflexivity.
Qed.

Lemma dnsh_overall (db : Db) (id : Z) :
  overall_compliant (assess_dnsh_compliance db id) =
  negb (existsb water_harm (query_kpis db id))
  && negb (existsb pollution_harm (query_kpis db id)).
Proof.
  unfold assess_dnsh_compliance. cbn [overall_compliant].
  change environmental_harm_init with (harm_state (area_of []) (area_of [])).
  rewrite dnsh_loop. unfold harm_state, area_of.
  cbn [forallb snd compliant andb app].
  rewrite !no_issue_iff. now rewrite andb_true_r.
Qed.

Lemma classify_known_loan (db : Db) (id : Z) (loan : Loan) :
  query_loan db id = Some loan ->
  exists a, Sfdr.classify_loan_sfdr_article db id = Ok a /\
            (Sfdr.not_linked loan = true -> a = Sfdr.article_6).
Proof.
  intros H. unfold Sfdr.classify_loan_sfdr_article. rewrite H.
  destruct (Sfdr.not_linked loan); [now eexists|].
  destruct (query_kpis db id) as [|k ks]; [now eexists|].
  destruct (5 <=? _)%nat; [now eexists|].
  destruct (2 <=? _)%nat; now eexists.
Qed.

(** X30 (sfdr_compliance_engine.py, generate_sfdr_report; endpoints/sfdr.py,
    generate_sfdr_report).  For an unknown loan the engine raises
    ValueError and the endpoint answers 404.  For a known loan the
    engine raises TypeError, and the endpoint answers 500, exactly when
    a climate KPI with a positive target has no current value.  In both
    cases no report is stored.  Otherwise exactly one report is appended,
    with status "completed", the given period and the current time,
    holding the results of the six assessments, and the endpoint answers
    with its summary: the classification and the sustainable percentage
    are those of the report, the summary is taxonomy aligned exactly
    when an objective of the stored alignment is aligned, and DNSH
    compliant exactly when the stored DNSH assessment is overall
    compliant.  For a loan that is not sustainability-linked the
    classification is article_6 and the percentage 0.0, whatever the
    taxonomy and DNSH results. *)
Theorem generate_sfdr_report_spec (db : Db) (reports : list SFDRReport)
  (now : datetime) (id : Z) (period : string) :
  let kpis := query_kpis db id in
  let climate := climate_kpis_of kpis in
  match query_loan db id with
  | None =>
      generate_sfdr_report db reports now id period =
        Raises (Exn (Sfdr.not_found id)) /\
      generate_endpoint db reports now id period = (reports, HTTPException 404)
  | Some loan =>
      if existsb missing_current climate then
        generate_sfdr_report db reports now id period = Raises TypeError /\
        generate_endpoint db reports now id period = (reports, HTTPException 500)
      else
        exists row summary,
          generate_sfdr_report db reports now id period =
            Returns (reports ++ [row], summary) /\
          generate_endpoint db reports now id period =
            (reports ++ [row], Response summary) /\
          report_loan_id row = id /\
          report_period row = period /\
          rs_period summary = period /\
          generated_date row = now /\
          report_status row = "completed"%string /\
          Sfdr.classify_loan_sfdr_article db id = Ok (sfdr_classification row) /\
          rs_sfdr_classification summary = sfdr_classification row /\
          Sfdr.calculate_sustainable_investment_percentage db id =
            Ok (sustainable_investment_percentage row) /\
          rs_sustainable_investment_percentage summary =
            sustainable_investment_percentage row /\
          principal_adverse_impacts row = calculate_pai_indicators db id /\
          do_no_significant_harm_assessment row = assess_dnsh_compliance db id /\
          social_safeguards row = assess_social_safeguards db id /\
          assess_eu_taxonomy_alignment db id = Returns (taxonomy_alignment row) /\
          taxonomy_aligned summary =
            existsb (fun obj => aligned (snd obj)) (taxonomy_alignment row) /\
          dnsh_compliant summary =
            overall_compliant (do_no_significant_harm_assessment row) /\
          (if Sfdr.not_linked loan
           then sfdr_classification row = Sfdr.article_6 /\
                sustainable_investment_percentage row = 0
           else True)
  end.
Proof.
  intros kpis climate.
  unfold generate_endpoint, generate_sfdr_report.
  destruct (query_loan db id) as [loan|] eqn:L; [|split; reflexivity].
  destruct (classify_known_loan db id loan L) as (a & Ha & Ha6). rewrite Ha.
  assert (Hp : exists v,
            Sfdr.calculate_sustainable_investment_percentage db id = Ok v /\
            (Sfdr.not_linked loan = true -> v = 0)).
  { unfold Sfdr.calculate_sustainable_investment_percentage. rewrite L.
    destruct (Sfdr.not_linked loan); [now eexists|].
    rewrite sustainable_investment_of_counts. eexists. split; [reflexivity|].
    discriminate. }
  destruct Hp as (v & Hv & Hv0). rewrite Hv.
  rewrite taxonomy_alignment_eq. fold kpis. fold climate.
  assert (T : exists taxonomy,
            (match climate with
             | [] => Returns (taxonomy_state unassessed)
             | _ :: _ =>
                 if existsb missing_current climate then Raises TypeError
                 else Returns (taxonomy_state
                                 (mitigation_of (average_performance climate)))
             end) =
            if existsb missing_current climate then Raises TypeError
            else Returns taxonomy).
  { exists (match climate with
            | [] => taxonomy_state unassessed
            | _ :: _ => taxonomy_state (mitigation_of (average_performance climate))
            end).
    destruct climate as [|k l]; [reflexivity|].
    destruct (existsb missing_current (k :: l)); reflexivity. }
  destruct T as (taxonomy & ->).
  destruct (existsb missing_current climate); [split; reflexivity|].
  eexists _, _. split; [reflexivity|]. split; [reflexivity|].
  cbn [report_loan_id report_period rs_period generated_date report_status
       sfdr_classification rs_sfdr_classification
       sustainable_investment_percentage rs_sustainable_investment_percentage
       principal_adverse_impacts do_no_significant_harm_assessment
       social_safeguards taxonomy_alignment taxonomy_aligned dnsh_compliant].
  repeat (split; [reflexivity|]).
  destruct (Sfdr.not_linked loan); [|exact I].
  split; [now apply Ha6|now apply Hv0].
Qed.

End Report.
